(** * Scheduling service: availability resolution pipeline

    A shallow embedding of the Go scheduling service
    ([internal/logic], [internal/models] and the Lambda handler) together
    with the part of Go's [time] and [strings] packages its logic relies
    on, followed by the properties of the free-slot generator, the agent
    resolver, the message formatter and the pipeline orchestrator. *)

From stdpp Require Import base list strings gmap pretty.
From Stdlib Require Import ZArith Lia Ascii Sorted.

Open Scope Z_scope.

(* ===================================================================== *)
(** * Package [time] (Go standard library)

    An instant is a (mathematical) number of nanoseconds since the Unix
    epoch; a [Time] pairs it with the [Location] used to display it, as
    Go's [time.Time] does.  A [Location] is a table of zone transitions
    sorted by time, searched the way [Location.lookup] searches it; the
    rule that extends a table beyond its last transition is left out.

    Instants are unbounded integers: the seconds Go keeps in an int64
    do not wrap for any date the service meets.  Monotonic clock
    readings are left out: every comparison of the service has an
    operand built by [Date] or decoded from JSON, which carries none,
    so that Go compares wall-clock instants there. *)
(* ===================================================================== *)

Module time.

(** ** Durations (int64 nanoseconds in Go) *)

Definition Duration := Z.
Definition Nanosecond : Duration := 1.
Definition Microsecond : Duration := 1000 * Nanosecond.
Definition Millisecond : Duration := 1000 * Microsecond.
Definition Second : Duration := 1000 * Millisecond.
Definition Minute : Duration := 60 * Second.
Definition Hour : Duration := 60 * Minute.

Definition secondsPerMinute : Z := 60.
Definition secondsPerHour : Z := 60 * secondsPerMinute.
Definition secondsPerDay : Z := 24 * secondsPerHour.

(** Seconds from Go's zero time (January 1, year 1, 00:00:00 UTC) to
    the Unix epoch. *)
Definition unixToInternal : Z := 62135596800.

(** ** Weekdays and months *)

Inductive Weekday : Set :=
  Sunday | Monday | Tuesday | Wednesday | Thursday | Friday | Saturday.

#[global] Instance Weekday_eq_dec : EqDecision Weekday.
Proof. solve_decision. Defined.

Definition Weekday_of_Z (n : Z) : Weekday :=
  match n with
  | 0 => Sunday | 1 => Monday | 2 => Tuesday | 3 => Wednesday
  | 4 => Thursday | 5 => Friday | _ => Saturday
  end.

Definition Weekday_String (d : Weekday) : string :=
  match d with
  | Sunday => "Sunday" | Monday => "Monday" | Tuesday => "Tuesday"
  | Wednesday => "Wednesday" | Thursday => "Thursday"
  | Friday => "Friday" | Saturday => "Saturday"
  end.

(** A month is its number, January = 1. *)
Definition Month := Z.

Definition Month_String (m : Month) : string :=
  match m with
  | 1 => "January" | 2 => "February" | 3 => "March" | 4 => "April"
  | 5 => "May" | 6 => "June" | 7 => "July" | 8 => "August"
  | 9 => "September" | 10 => "October" | 11 => "November"
  | 12 => "December"
  | _ => "%!Month(" +:+ pretty m +:+ ")"
  end.

(** ** Locations *)

(** One entry of a location's transition table: from second [when]
    (Unix time) on, local time is UTC + [offset] seconds. *)
Record zoneTrans : Set := ZoneTrans { when : Z; offset : Z }.

(** [zone0] is the offset in force before the first transition. *)
Record Location : Set := mkLocation {
  name : string;
  zone0 : Z;
  tx : list zoneTrans
}.

Definition UTC : Location := mkLocation "UTC" 0 [].

Definition FixedZone (name : string) (offset : Z) : Location :=
  mkLocation name offset [].

(** The beginning and the end of time of [Location.lookup]. *)
Definition alpha : Z := - 2 ^ 63.
Definition omega : Z := 2 ^ 63 - 1.

(** [lookup_from o s tx sec]: the zone in force at [sec], knowing that
    offset [o] is in force from [s] until the first entry of [tx].
    Returns the offset and the period [start, end) of that zone. *)
Fixpoint lookup_from (o s : Z) (tx : list zoneTrans) (sec : Z) : Z * Z * Z :=
  match tx with
  | [] => (o, s, omega)
  | t :: rest =>
      if sec <? when t then (o, s, when t)
      else lookup_from (offset t) (when t) rest sec
  end.

Definition lookup (l : Location) (sec : Z) : Z * Z * Z :=
  lookup_from (zone0 l) alpha (tx l) sec.

Definition zoneOffset (l : Location) (sec : Z) : Z := (lookup l sec).1.1.

(** ** The civil (proleptic Gregorian) calendar *)

(** Day number (days since 1970-01-01) to (year, month, day). *)
Definition civil_from_days (z : Z) : Z * Z * Z :=
  let z := z + 719468 in
  let era := z / 146097 in
  let doe := z - era * 146097 in
  let yoe := (doe - doe / 1460 + doe / 36524 - doe / 146096) / 365 in
  let y := yoe + era * 400 in
  let doy := doe - (365 * yoe + yoe / 4 - yoe / 100) in
  let mp := (5 * doy + 2) / 153 in
  let d := doy - (153 * mp + 2) / 5 + 1 in
  let m := if mp <? 10 then mp + 3 else mp - 9 in
  (if m <=? 2 then y + 1 else y, m, d).

(** (year, month in 1..12, day) to day number; the day may lie outside
    the month, it is counted on from the first of the month. *)
Definition days_from_civil (y m d : Z) : Z :=
  let y := if m <=? 2 then y - 1 else y in
  let era := y / 400 in
  let yoe := y - era * 400 in
  let doy := (153 * (if m >? 2 then m - 3 else m + 9) + 2) / 5 + d - 1 in
  let doe := yoe * 365 + yoe / 4 - yoe / 100 + doy in
  era * 146097 + doe - 719468.

(** ** Times *)

Record Time : Set := mkTime { UnixNano : Z; Loc : Location }.

Module Time.

(** Seconds since the Unix epoch and nanoseconds within the second. *)
Definition Unix (t : Time) : Z := UnixNano t / Second.
Definition Nanosecond (t : Time) : Z := UnixNano t mod Second.

(** Local wall-clock seconds: what a clock in [Loc t] shows,
    counted from 1970-01-01 00:00:00 of that clock. *)
Definition abs (t : Time) : Z := Unix t + zoneOffset (Loc t) (Unix t).

Definition Location (t : Time) : Location := Loc t.
Definition In (t : Time) (l : time.Location) : Time := mkTime (UnixNano t) l.

Definition Add (t : Time) (d : Duration) : Time :=
  mkTime (UnixNano t + d) (Loc t).

Definition Before (t u : Time) : bool := UnixNano t <? UnixNano u.
Definition After (t u : Time) : bool := UnixNano u <? UnixNano t.
Definition Equal (t u : Time) : bool := UnixNano t =? UnixNano u.

(** Rounds down to a multiple of [d] since the zero time. *)
Definition Truncate (t : Time) (d : Duration) : Time :=
  if d <=? 0 then t
  else mkTime (UnixNano t - (UnixNano t + unixToInternal * Second) mod d) (Loc t).

(** Local day number and seconds since local midnight. *)
Definition days (t : Time) : Z := abs t / secondsPerDay.

Definition Weekday (t : Time) : Weekday :=
  Weekday_of_Z ((days t + 4) mod 7).

Definition Date (t : Time) : Z * Month * Z := civil_from_days (days t).
Definition Year (t : Time) : Z := (Date t).1.1.
Definition Month (t : Time) : Month := (Date t).1.2.
Definition Day (t : Time) : Z := (Date t).2.

Definition Hour (t : Time) : Z := (abs t mod secondsPerDay) / secondsPerHour.
Definition Minute (t : Time) : Z := (abs t mod secondsPerHour) / secondsPerMinute.
Definition Second (t : Time) : Z := abs t mod secondsPerMinute.
Definition Clock (t : Time) : Z * Z * Z := (Hour t, Minute t, Second t).

End Time.

(** The Unix second at which a clock in [l] shows wall-clock second
    [unix], found as Go's [Date] finds it: look the wall time up as if
    it were UTC, and look again when the first guess leaves its zone. *)
Definition unixOfWall (l : Location) (unix : Z) : Z :=
  let '(offset, start, end_) := lookup l unix in
  if offset =? 0 then unix
  else
    let utc := unix - offset in
    let offset :=
      if (utc <? start) || (end_ <=? utc) then zoneOffset l utc else offset in
    unix - offset.

(** [Date]: the instant at which a clock in [l] shows the given civil
    time.  Months outside 1..12 overflow into the year; days, hours,
    minutes, seconds and nanoseconds outside their ranges overflow
    additively. *)
Definition Date (year : Z) (month : Month) (day hour min sec nsec : Z)
    (l : Location) : Time :=
  let m := month - 1 in
  let year := year + m / 12 in
  let month := m mod 12 + 1 in
  let d := days_from_civil year month day in
  let unix := d * secondsPerDay + hour * secondsPerHour
              + min * secondsPerMinute + sec + nsec / Second in
  mkTime (unixOfWall l unix * Second + nsec mod Second) l.

Definition AddDate (t : Time) (years months days : Z) : Time :=
  let '(year, month, day) := Time.Date t in
  let '(hour, min, sec) := Time.Clock t in
  Date (year + years) (month + months) (day + days) hour min sec
       (Time.Nanosecond t) (Time.Location t).

(** ** Formatting *)

(** Decimal rendering of [n] zero-padded to at least [width] digits. *)
Definition appendInt (n : Z) (width : nat) : string :=
  let digits := pretty (Z.abs n) in
  let pad := String.concat "" (replicate (width - String.length digits)%nat "0") in
  (if n <? 0 then "-" else "") +:+ pad +:+ digits.

Definition hasPrefix (p s : string) : bool := String.prefix p s.

Definition dropPrefix (p s : string) : string :=
  String.substring (String.length p) (String.length s - String.length p) s.

(** The layout elements used by this service: [Monday], [January], [2006],
    [2], [04], [3] and [PM]; every other character of a layout stands
    for itself. *)
Fixpoint format_go (fuel : nat) (t : Time) (layout : string) : string :=
  match fuel with
  | O => ""
  | S fuel =>
      let chunk (p : string) (out : string) :=
        out +:+ format_go fuel t (dropPrefix p layout) in
      if hasPrefix "Monday" layout then
        chunk "Monday" (Weekday_String (Time.Weekday t))
      else if hasPrefix "January" layout then
        chunk "January" (Month_String (Time.Month t))
      else if hasPrefix "2006" layout then
        chunk "2006" (appendInt (Time.Year t) 4)
      else if hasPrefix "2" layout then
        chunk "2" (appendInt (Time.Day t) 0)
      else if hasPrefix "04" layout then
        chunk "04" (appendInt (Time.Minute t) 2)
      else if hasPrefix "3" layout then
        let hr := Time.Hour t mod 12 in
        chunk "3" (appendInt (if hr =? 0 then 12 else hr) 0)
      else if hasPrefix "PM" layout then
        chunk "PM" (if 12 <=? Time.Hour t then "PM" else "AM")
      else
        match layout with
        | EmptyString => ""
        | String c rest => String c (format_go fuel t rest)
        end
  end.

Definition Format (t : Time) (layout : string) : string :=
  format_go (S (String.length layout)) t layout.

End time.

(* ===================================================================== *)
(** * Time-zone data

    [time.LoadLocation] reads the IANA time-zone database, which is not
    part of the service.  The generator takes the database as a
    function from zone names to locations, and its properties are
    stated for any database, under conditions on the zone data.

    [tzdata.embedded] is sample data for evaluating the generator: an
    excerpt of America/Los_Angeles holding the transitions of the years
    2024-2029 only (daylight time from the second Sunday of March,
    10:00 UTC, to the first Sunday of November, 09:00 UTC).  It
    coincides with the zone from 5 November 2023, 09:00 UTC, until
    10 March 2030, 10:00 UTC; outside of these instants it shows
    standard time where the zone has daylight time in summer, so
    evaluations with it are kept to reference instants of the years
    2024-2029. *)
(* ===================================================================== *)

Module tzdata.

Definition PST : Z := -28800.
Definition PDT : Z := -25200.

(** The excerpt of the zone: its transitions from March 2024 to
    November 2029. *)
Definition LosAngeles : time.Location :=
  time.mkLocation "America/Los_Angeles" PST
    [ time.ZoneTrans 1710064800 PDT; time.ZoneTrans 1730624400 PST;
      time.ZoneTrans 1741514400 PDT; time.ZoneTrans 1762074000 PST;
      time.ZoneTrans 1772964000 PDT; time.ZoneTrans 1793523600 PST;
      time.ZoneTrans 1805018400 PDT; time.ZoneTrans 1825578000 PST;
      time.ZoneTrans 1836468000 PDT; time.ZoneTrans 1857027600 PST;
      time.ZoneTrans 1867917600 PDT; time.ZoneTrans 1888477200 PST ].

Definition embedded (name : string) : option time.Location :=
  if String.eqb name "America/Los_Angeles" then Some LosAngeles else None.

(** A database without any zone: every [LoadLocation] fails. *)
Definition missing (name : string) : option time.Location := None.

End tzdata.

(* ===================================================================== *)
(** * Package [models] *)
(* ===================================================================== *)

Module models.

Record PropertyInfo : Set := mkPropertyInfo {
  PropertyInfo_ID : string;
  PropertyInfo_Name : string;
  PropertyInfo_Address : string;
  PropertyInfo_City : string;
  PropertyInfo_State : string
}.

Record AgentInfo : Set := mkAgentInfo {
  ID : string;
  Name : string;
  Email : string;
  Zone : string;
  ZoneGroup : string
}.

Record TimeSlot : Set := mkTimeSlot {
  Date : string;
  Time : string;
  Start : time.Time;
  End : time.Time
}.

Record Availability : Set := mkAvailability {
  TotalSlotsAvailable : Z;
  DaysChecked : Z;
  Slots : list TimeSlot
}.

Record Response : Set := mkResponse {
  Success : bool;
  Property : PropertyInfo;
  Agent : AgentInfo;
  Availability_ : Availability;
  Message : string;
  FormattedMsg : string
}.

Record AppFolioProperty : Set := mkAppFolioProperty {
  AppFolioProperty_ID : string;
  AppFolioProperty_Name : string;
  Address1 : string;
  City : string;
  State : string;
  PropertyGroupIds : list string
}.

Record AppFolioGroup : Set := mkAppFolioGroup {
  AppFolioGroup_ID : string;
  AppFolioGroup_Name : string
}.

Record TimeRange : Set := mkTimeRange {
  TimeRange_Start : time.Time;
  TimeRange_End : time.Time
}.

(** Go's zero values, for fields a composite literal leaves out. *)
Definition PropertyInfo_zero : PropertyInfo := mkPropertyInfo "" "" "" "" "".
Definition AgentInfo_zero : AgentInfo := mkAgentInfo "" "" "" "" "".
Definition Availability_zero : Availability := mkAvailability 0 0 [].

End models.

(* ===================================================================== *)
(** * Package [logic]: the slot generator *)
(* ===================================================================== *)

Module logic.

Import models.

Definition WorkStartHour : Z := 9.
Definition WorkEndHour : Z := 17.
Definition SlotDuration : time.Duration := 30 * time.Minute.
Definition MaxDays : Z := 7.

Definition isBusy (start end_ : time.Time) (busy : list TimeRange) : bool :=
  let loc := time.Time.Location start in
  existsb (fun b =>
    let busyStart := time.Time.In (TimeRange_Start b) loc in
    let busyEnd := time.Time.In (TimeRange_End b) loc in
    time.Time.Before start busyEnd && time.Time.After end_ busyStart) busy.

Definition formatSlot (start end_ : time.Time) : TimeSlot :=
  {| Date := time.Format start "Monday, January 2, 2006";
     Time := time.Format start "3:04 PM";
     Start := start;
     End := end_ |}.

(** The generator's loop state: [availableSlots], [daysChecked] and
    [totalSlots]. *)
Definition state : Set := list TimeSlot * Z * Z.

(** The inner loop, [for curr+30min <= workEnd], one iteration per unit
    of fuel. *)
Fixpoint slot_loop (fuel : nat) (busySlots : list TimeRange)
    (workEnd curr : time.Time) (st : state) : state :=
  match fuel with
  | O => st
  | S fuel =>
      let '(availableSlots, daysChecked, totalSlots) := st in
      if time.Time.Before (time.Time.Add curr SlotDuration) workEnd
         || time.Time.Equal (time.Time.Add curr SlotDuration) workEnd
      then
        let slotEnd := time.Time.Add curr SlotDuration in
        let availableSlots :=
          if negb (isBusy curr slotEnd busySlots)
          then availableSlots ++ [formatSlot curr slotEnd]
          else availableSlots in
        slot_loop fuel busySlots workEnd slotEnd
                  (availableSlots, daysChecked, totalSlots + 1)
      else st
  end.

(** Iterations after which the inner loop's guard is false. *)
Definition slot_fuel (workStart workEnd : time.Time) : nat :=
  S (Z.to_nat ((time.UnixNano workEnd - time.UnixNano workStart) / SlotDuration)).

(** The work hours of [dayDate], the start raised to the two-hour
    buffer; [None] is the [continue] of a day the buffer consumes. *)
Definition workHours (loc : time.Location) (minStartTime dayDate : time.Time)
    : option (time.Time * time.Time) :=
  let workStart :=
    time.Date (time.Time.Year dayDate) (time.Time.Month dayDate)
              (time.Time.Day dayDate) WorkStartHour 0 0 0 loc in
  let workEnd :=
    time.Date (time.Time.Year dayDate) (time.Time.Month dayDate)
              (time.Time.Day dayDate) WorkEndHour 0 0 0 loc in
  let workEnd :=
    if decide (time.Time.Weekday dayDate = time.Friday)
    then time.Date (time.Time.Year dayDate) (time.Time.Month dayDate)
                   (time.Time.Day dayDate) 15 30 0 0 loc
    else workEnd in
  if time.Time.Before workStart minStartTime then
    let workStart := minStartTime in
    if time.Time.After workStart workEnd then None
    else
      let remainder := time.Time.Minute workStart mod 30 in
      let add := if negb (remainder =? 0) then 30 - remainder else 0 in
      let workStart := time.Time.Add workStart (add * time.Minute) in
      let workStart := time.Time.Truncate workStart time.Minute in
      Some (workStart, workEnd)
  else Some (workStart, workEnd).

(** The body of the outer loop for day offset [d]. *)
Definition day_step (loc : time.Location) (busySlots : list TimeRange)
    (minStartTime startSearch : time.Time) (d : Z) (st : state) : state :=
  let '(availableSlots, daysChecked, totalSlots) := st in
  let dayDate := time.AddDate startSearch 0 0 d in
  if decide (time.Time.Weekday dayDate = time.Saturday
             ∨ time.Time.Weekday dayDate = time.Sunday)
  then st
  else
    let daysChecked := daysChecked + 1 in
    match workHours loc minStartTime dayDate with
    | None => (availableSlots, daysChecked, totalSlots)
    | Some (workStart, workEnd) =>
        slot_loop (slot_fuel workStart workEnd) busySlots workEnd workStart
                  (availableSlots, daysChecked, totalSlots)
    end.

(** The outer loop, [for d := d; d < d + n; d++]. *)
Fixpoint day_loop (n : nat) (loc : time.Location) (busySlots : list TimeRange)
    (minStartTime startSearch : time.Time) (d : Z) (st : state) : state :=
  match n with
  | O => st
  | S n =>
      day_loop n loc busySlots minStartTime startSearch (d + 1)
               (day_step loc busySlots minStartTime startSearch d st)
  end.

(** The location the generator works in: America/Los_Angeles, or UTC
    when the database [tzdb] does not have it (the warning the source
    logs there is not modelled). *)
Definition loadLocation (tzdb : string → option time.Location) : time.Location :=
  match tzdb "America/Los_Angeles" with
  | Some loc => loc
  | None => time.UTC
  end.

Definition GenerateAvailableSlots (tzdb : string → option time.Location)
    (busySlots : list TimeRange) (referenceTime : time.Time) : state :=
  let loc := loadLocation tzdb in
  let minStartTime := time.Time.Add referenceTime (2 * time.Hour) in
  let startSearch := time.Time.In referenceTime loc in
  day_loop (Z.to_nat MaxDays) loc busySlots minStartTime startSearch 0 ([], 0, 0).

End logic.

(* ===================================================================== *)
(** * Package [strings] (Go standard library)

    Go strings are byte strings, as Rocq's are.  [TrimSpace] removes the
    leading and trailing white space of [unicode.IsSpace] in its UTF-8
    encoding.  [ToUpper] maps the bytes of an all-ASCII string itself and
    hands any other string to [Map(unicode.ToUpper, s)], which needs
    the Unicode case tables and is taken as a parameter. *)
(* ===================================================================== *)

Module strings.

Definition bytes (l : list nat) : string :=
  foldr (fun n s => String (ascii_of_nat n) s) EmptyString l.

(** The UTF-8 encodings of the white space characters: tab, line feed,
    vertical tab, form feed, carriage return, space, U+0085, U+00A0,
    U+1680, U+2000-U+200A, U+2028, U+2029, U+202F, U+205F, U+3000. *)
Definition spaces : list string :=
  map bytes
    [ [9%nat]; [10%nat]; [11%nat]; [12%nat]; [13%nat]; [32%nat];
      [194; 133]%nat; [194; 160]%nat; [225; 154; 128]%nat;
      [226; 128; 128]%nat; [226; 128; 129]%nat; [226; 128; 130]%nat;
      [226; 128; 131]%nat; [226; 128; 132]%nat; [226; 128; 133]%nat;
      [226; 128; 134]%nat; [226; 128; 135]%nat; [226; 128; 136]%nat;
      [226; 128; 137]%nat; [226; 128; 138]%nat; [226; 128; 168]%nat;
      [226; 128; 169]%nat; [226; 128; 175]%nat; [226; 129; 159]%nat;
      [227; 128; 128]%nat ].

(** Removes the prefixes found in [pats], [fuel] times at most. *)
Fixpoint trimPrefixes (fuel : nat) (pats : list string) (s : string) : string :=
  match fuel with
  | O => s
  | S fuel =>
      match find (fun p => String.prefix p s) pats with
      | Some p =>
          trimPrefixes fuel pats
            (String.substring (String.length p)
                              (String.length s - String.length p) s)
      | None => s
      end
  end.

Definition TrimLeftSpace (s : string) : string :=
  trimPrefixes (String.length s) spaces s.

Definition TrimRightSpace (s : string) : string :=
  String.rev (trimPrefixes (String.length s) (map String.rev spaces) (String.rev s)).

Definition TrimSpace (s : string) : string := TrimRightSpace (TrimLeftSpace s).

Fixpoint isASCII (s : string) : bool :=
  match s with
  | EmptyString => true
  | String c s => (nat_of_ascii c <? 128)%nat && isASCII s
  end.

Definition upperByte (c : ascii) : ascii :=
  let n := nat_of_ascii c in
  if ((97 <=? n) && (n <=? 122))%nat then ascii_of_nat (n - 32) else c.

Fixpoint mapBytes (f : ascii → ascii) (s : string) : string :=
  match s with
  | EmptyString => EmptyString
  | String c s => String (f c) (mapBytes f s)
  end.

Definition ToUpper (unicodeUpper : string → string) (s : string) : string :=
  if isASCII s then mapBytes upperByte s else unicodeUpper s.

End strings.

(* ===================================================================== *)
(** * Package [logic]: the agent resolver *)
(* ===================================================================== *)

Module mapper.

Import models.

Definition PDAgentMap : gmap string AgentInfo :=
  {[ "PD1" := mkAgentInfo "59a26c67-5791-11f0-b6c3-02094d1ce055" "Gracie"
                "gracie@ltrealestateco.com" "PD1" "";
     "PD2" := mkAgentInfo "dcb80b8a-66bd-11ee-b6c3-02094d1ce055" "Elizabeth"
                "elizabeth@ltrealestateco.com" "PD2" "";
     "PD3" := mkAgentInfo "4d6b75fd-5791-11f0-b6c3-02094d1ce055" "Alexandra"
                "alexandra@ltrealestateco.com" "PD3" "";
     "PD4" := mkAgentInfo "4b8f5454-ef30-11ef-b6c3-02094d1ce055" "Brandi"
                "brandi@ltrealestateco.com" "PD4" "" ]}.

(** [nil] is [None]. *)
Fixpoint MapAgent (unicodeUpper : string → string)
    (groups : list AppFolioGroup) : option AgentInfo :=
  match groups with
  | [] => None
  | group :: groups =>
      let name :=
        strings.ToUpper unicodeUpper
          (strings.TrimSpace (AppFolioGroup_Name group)) in
      match PDAgentMap !! name with
      | Some agent =>
          Some (mkAgentInfo (ID agent) (Name agent) (Email agent) (Zone agent)
                            (AppFolioGroup_Name group))
      | None => MapAgent unicodeUpper groups
      end
  end.

End mapper.

(* ===================================================================== *)
(** * Package [main]: message formatter and pipeline orchestrator *)
(* ===================================================================== *)

Module main.

Import models.

(** The line feed of Go's ["\n"]. *)
Definition LF : string := String (ascii_of_nat 10) EmptyString.

(** [len] of a slice. *)
Definition len {A} (l : list A) : Z := Z.of_nat (length l).

Definition mapPropertyInfo (p : AppFolioProperty) : PropertyInfo :=
  {| PropertyInfo_ID := AppFolioProperty_ID p;
     PropertyInfo_Name := AppFolioProperty_Name p;
     PropertyInfo_Address := Address1 p;
     PropertyInfo_City := City p;
     PropertyInfo_State := State p |}.

Definition limitSlots (slots : list TimeSlot) (max : Z) : list TimeSlot :=
  if max <? len slots then take (Z.to_nat max) slots else slots.

(** ** [formatMessage] *)

(** The grouping loop: [slotsByDate] and [orderedDates] after the slots. *)
Definition groupStep (acc : gmap string (list string) * list string)
    (slot : TimeSlot) : gmap string (list string) * list string :=
  let '(slotsByDate, orderedDates) := acc in
  let orderedDates :=
    match slotsByDate !! Date slot with
    | Some _ => orderedDates
    | None => orderedDates ++ [Date slot]
    end in
  let slotsByDate :=
    <[Date slot := default [] (slotsByDate !! Date slot) ++ [Time slot]]>
      slotsByDate in
  (slotsByDate, orderedDates).

Definition groupSlots (slots : list TimeSlot)
    : gmap string (list string) * list string :=
  foldl groupStep (∅, []) slots.

(** The loop over the times of one date, from index [i]; [n] is
    [len(times)] of the whole slice. *)
Fixpoint timesLoop (i n : Z) (times : list string) (msg : string) : string :=
  match times with
  | [] => msg
  | t :: times =>
      if 6 <=? i then
        msg +:+ "  • ..." +:+ pretty (n - 6) +:+ " more times available" +:+ LF
      else timesLoop (i + 1) n times (msg +:+ "  • " +:+ t +:+ LF)
  end.

(** The loop over the ordered dates; [count] dates are rendered so far. *)
Fixpoint datesLoop (count : Z) (slotsByDate : gmap string (list string))
    (orderedDates : list string) (msg : string) : string :=
  match orderedDates with
  | [] => msg
  | date :: orderedDates =>
      if 5 <=? count then msg
      else
        let times := default [] (slotsByDate !! date) in
        let msg := msg +:+ date +:+ ":" +:+ LF in
        let msg := timesLoop 0 (len times) times msg in
        let msg := msg +:+ LF in
        datesLoop (count + 1) slotsByDate orderedDates msg
  end.

Definition formatMessage (prop : PropertyInfo) (agent : AgentInfo)
    (avail : Availability) (totalGenerated : Z) : string :=
  let msg :=
    "🏠 PROPERTY: " +:+ PropertyInfo_Name prop +:+ LF +:+
    "📍 " +:+ PropertyInfo_Address prop +:+ ", " +:+ PropertyInfo_City prop +:+
    ", " +:+ PropertyInfo_State prop +:+ LF +:+ LF in
  let msg :=
    msg +:+ ("👤 LEASING AGENT: " +:+ Name agent +:+ LF +:+
             "📧 Email: " +:+ Email agent +:+ LF +:+ LF) in
  if len (Slots avail) =? 0 then
    let msg :=
      msg +:+ ("📅 SHOWING AVAILABILITY:" +:+ LF +:+
               "No available time slots found in the next " +:+
               pretty (DaysChecked avail) +:+ " days." +:+ LF) in
    let msg := msg +:+ (Name agent +:+ "'s calendar is fully booked." +:+ LF +:+ LF) in
    let msg :=
      msg +:+ ("📞 Please contact " +:+ Name agent +:+ " directly at " +:+
               Email agent +:+ " to schedule.") in
    msg
  else
    let msg := msg +:+ ("📅 AVAILABLE SHOWING TIMES:" +:+ LF +:+ LF) in
    let '(slotsByDate, orderedDates) := groupSlots (Slots avail) in
    let msg := datesLoop 0 slotsByDate orderedDates msg in
    let msg :=
      if 5 <? len orderedDates then
        msg +:+ ("...and " +:+ pretty (len orderedDates - 5) +:+
                 " more days with availability" +:+ LF)
      else msg in
    let msg :=
      msg +:+ (LF +:+ "📞 Contact " +:+ Name agent +:+ " at " +:+ Email agent +:+
               " to schedule your showing.") in
    msg.

(** ** The pipeline *)

(** A Go result [(value, err)]. *)
Inductive result (A : Type) : Type :=
  | Ok (a : A)
  | Err (e : string).
Arguments Ok {A} a.
Arguments Err {A} e.

Record Request : Set := mkRequest { Query : string; Phone : string }.

(** The external collaborators of one invocation and what its
    environment provides: the search service, AppFolio, the credential
    store, the calendar, the clock read at step 9, the time-zone
    database and the Unicode case mapping. *)
Record Env : Type := mkEnv {
  FindPropertyID : string → result string;
  GetProperty : string → result AppFolioProperty;
  GetPropertyGroups : list string → result (list AppFolioGroup);
  GetAccessToken : string → result string;
  GetBusySlots : string → string → time.Time → time.Time → result (list TimeRange);
  Now : time.Time;
  LoadLocation : string → option time.Location;
  unicodeUpper : string → string
}.

(** The value a response body is marshalled from ([json.Marshal] is
    not modelled). *)
Inductive Body : Set :=
  | ErrorBody (error : string)
  | ResponseBody (resp : Response).

Record LambdaResponse : Set := mkLambdaResponse {
  StatusCode : Z;
  Headers : list (string * string);
  Body_ : Body
}.

Definition errorResponse (status : Z) (msg : string) : LambdaResponse :=
  mkLambdaResponse status [("Content-Type", "application/json")] (ErrorBody msg).

Definition successResponse (resp : Response) : LambdaResponse :=
  mkLambdaResponse 200 [("Content-Type", "application/json")] (ResponseBody resp).

(** What an invocation ends in. *)
Inductive outcome : Set :=
  | Returned (r : LambdaResponse)
  | Panicked (reason : string).

(** [HandleRequest] from the parsed request on: steps 1 and 2 of the
    source (configuration, event decoding, candidate matching) yield
    [req] and [extractedPropertyID], the rest is below.  Log entries are
    not modelled. *)
Definition HandleRequest (env : Env) (req : Request)
    (extractedPropertyID : string) : outcome :=
  if String.eqb (Query req) "" then
    Returned (errorResponse 400 "Query is required")
  else
  (* 4. Find Property ID *)
  match (if negb (String.eqb extractedPropertyID "")
         then Ok extractedPropertyID
         else FindPropertyID env (Query req)) with
  | Err _ =>
      Returned (successResponse
        {| Success := false;
           Property := PropertyInfo_zero;
           Agent := AgentInfo_zero;
           Availability_ := Availability_zero;
           Message := "Could not find property matching query.";
           FormattedMsg :=
             "I couldn't find a property matching '" +:+ Query req +:+
             "'. Could you verify the address?" |})
  | Ok propID =>
  (* 5. Fetch Property Details *)
  match GetProperty env propID with
  | Err _ =>
      Returned (successResponse
        {| Success := false;
           Property := PropertyInfo_zero;
           Agent := AgentInfo_zero;
           Availability_ := Availability_zero;
           Message := "Property found but details unavailable.";
           FormattedMsg :=
             "I found the property but couldn't access its details right now." |})
  | Ok prop =>
  (* 6. Fetch Property Groups *)
  match GetPropertyGroups env (PropertyGroupIds prop) with
  | Err _ =>
      Returned (successResponse
        {| Success := false;
           Property := mapPropertyInfo prop;
           Agent := AgentInfo_zero;
           Availability_ := Availability_zero;
           Message := "Could not determine agent.";
           FormattedMsg :=
             "I have the details for " +:+ Address1 prop +:+
             ", but I'm having trouble finding the assigned agent." |})
  | Ok groups =>
  (* 7. Map Agent *)
  match mapper.MapAgent (unicodeUpper env) groups with
  | None =>
      Returned (successResponse
        {| Success := false;
           Property := mapPropertyInfo prop;
           Agent := AgentInfo_zero;
           Availability_ := Availability_zero;
           Message := "No leasing agent assigned (No PD group).";
           FormattedMsg :=
             "I checked " +:+ Address1 prop +:+
             ", but there doesn't seem to be a leasing agent assigned to it yet." |})
  | Some agent =>
  (* 8. Get Calendar Access Token *)
  match GetAccessToken env (Email agent) with
  | Err _ =>
      Returned (successResponse
        {| Success := false;
           Property := mapPropertyInfo prop;
           Agent := agent;
           Availability_ := Availability_zero;
           Message := "Agent calendar access unavailable.";
           FormattedMsg :=
             "I'd love to schedule a viewing for " +:+ Address1 prop +:+
             ", but I can't access " +:+ Name agent +:+
             "'s calendar right now. Please email them at " +:+ Email agent +:+
             "." |})
  | Ok token =>
  (* 9. Get Busy Slots *)
  match LoadLocation env "America/Los_Angeles" with
  | None => Panicked "time: missing Location in call to Time.In"
  | Some pstLoc =>
  let now := time.Time.In (Now env) pstLoc in
  let timeMax := time.AddDate now 0 0 7 in
  match GetBusySlots env token (Email agent) now timeMax with
  | Err _ =>
      Returned (successResponse
        {| Success := false;
           Property := mapPropertyInfo prop;
           Agent := agent;
           Availability_ := Availability_zero;
           Message := "Failed to read calendar.";
           FormattedMsg :=
             "I'm having trouble checking " +:+ Name agent +:+
             "'s availability. Please contact them directly at " +:+
             Email agent +:+ "." |})
  | Ok busySlots =>
  (* 10. Generate Availability *)
  let '(availableSlots, daysChecked, totalSlots) :=
    logic.GenerateAvailableSlots (LoadLocation env) busySlots now in
  (* 11. Format Message *)
  let avail :=
    {| TotalSlotsAvailable := len availableSlots;
       DaysChecked := daysChecked;
       Slots := limitSlots availableSlots 30 |} in
  let formattedMsg := formatMessage (mapPropertyInfo prop) agent avail totalSlots in
  Returned (successResponse
    {| Success := true;
       Property := mapPropertyInfo prop;
       Agent := agent;
       Availability_ := avail;
       Message := "Success";
       FormattedMsg := formattedMsg |})
  end end end end end end end.

End main.

(* ===================================================================== *)
(** * Package [clients]: the answers of the external services

    Each client method sends one HTTP request and then reads the decoded
    answer.  The exchange (request, status check, JSON decoding) is a
    parameter of the method here, a function from what the method sends
    to the decoded body or an error; what the method does with the
    decoded body is the source's. *)
(* ===================================================================== *)

Module clients.

Import models.

(** ** Search service *)

(** A search result.  [Metadata] maps a key to the text that
    [fmt.Sprintf("%v", val)] prints for its value: for a JSON string, the
    string itself. *)
Record SearchResult : Type := mkSearchResult {
  PropertyID : string;
  Metadata : gmap string string
}.

Record SearchResponse : Type := mkSearchResponse {
  Count : Z;
  Results : list SearchResult
}.

Definition FindPropertyID (post : string → main.result SearchResponse)
    (query : string) : main.result string :=
  match post query with
  | main.Err e => main.Err e
  | main.Ok result =>
      match Results result with
      | [] => main.Err ("no property found for query: " +:+ query)
      | firstResult :: _ =>
          let meta := Metadata firstResult in
          match meta !! "PropertyId" with
          | Some val => main.Ok val
          | None =>
          match meta !! "property_id" with
          | Some val => main.Ok val
          | None =>
          if negb (String.eqb (PropertyID firstResult) "")
          then main.Ok (PropertyID firstResult)
          else
          match meta !! "Id" with
          | Some val => main.Ok val
          | None =>
          match meta !! "id" with
          | Some val => main.Ok val
          | None => main.Err "property ID missing in search result"
          end end end end
      end
  end.

(** ** AppFolio *)

Definition GetProperty (get : string → main.result (list AppFolioProperty))
    (propertyID : string) : main.result AppFolioProperty :=
  match get propertyID with
  | main.Err e => main.Err e
  | main.Ok data =>
      match data with
      | [] => main.Err ("property not found: " +:+ propertyID)
      | p :: _ => main.Ok p
      end
  end.

(** No request is sent for an empty list of ids; [nil] is [[]]. *)
Definition GetPropertyGroups (get : list string → main.result (list AppFolioGroup))
    (ids : list string) : main.result (list AppFolioGroup) :=
  if main.len ids =? 0 then main.Ok [] else get ids.

(** ** Credential store *)

Record OAuthToken : Set := mkOAuthToken {
  AccessToken : string;
  OAuthToken_Email : string
}.

Definition GetAccessToken (get : string → main.result (list OAuthToken))
    (email : string) : main.result string :=
  match get email with
  | main.Err e => main.Err e
  | main.Ok tokens =>
      match tokens with
      | [] => main.Err ("no token found for email: " +:+ email)
      | t :: _ => main.Ok (AccessToken t)
      end
  end.

(** ** Calendar *)

Record Error : Set := mkError { Domain : string; Reason : string }.

Record FreeBusyCalendar : Set := mkFreeBusyCalendar {
  Busy : list TimeRange;
  Errors : list Error
}.

Definition GetBusySlots
    (post : string → string → time.Time → time.Time
            → main.result (gmap string FreeBusyCalendar))
    (accessToken email : string) (timeMin timeMax : time.Time)
    : main.result (list TimeRange) :=
  match post accessToken email timeMin timeMax with
  | main.Err e => main.Err e
  | main.Ok calendars =>
      match calendars !! email with
      | None => main.Err ("calendar not found in response for " +:+ email)
      | Some calendar =>
          match Errors calendar with
          | err :: _ => main.Err ("calendar error: " +:+ Reason err)
          | [] => main.Ok (Busy calendar)
          end
      end
  end.

(** ** Language matching *)

Record AddressCandidate : Set := mkAddressCandidate {
  Index : Z;
  Address1 : string;
  PropertyId : string
}.

Definition AddressCandidate_zero : AddressCandidate := mkAddressCandidate 0 "" "".

(** The double-quote character. *)
Definition DQ : string := String (ascii_of_nat 34) EmptyString.

(** The loop that lists the addresses, from position [i] on. *)
Fixpoint addressLoop (i : Z) (candidates : list AddressCandidate)
    (addressList : string) : string :=
  match candidates with
  | [] => addressList
  | cand :: candidates =>
      addressLoop (i + 1) candidates
        (addressList +:+ (pretty i +:+ ". " +:+ Address1 cand +:+ main.LF))
  end.

Definition buildPrompt (query addressList : string) : string :=
  "Given the user's spoken query about a property address, find the best matching address from the list."
  +:+ main.LF +:+ main.LF +:+
  "User Query: " +:+ DQ +:+ query +:+ DQ +:+ main.LF +:+ main.LF +:+
  "Available Addresses:" +:+ main.LF +:+
  addressList +:+
  "Return ONLY the index number (0, 1, 2, etc.) of the best matching address. If no address matches at all, return -1."
  +:+ main.LF +:+ main.LF +:+
  "Important: The query may contain spoken numbers (like " +:+ DQ +:+
  "eight twenty eight" +:+ DQ +:+ " for " +:+ DQ +:+ "828" +:+ DQ +:+
  ") or slight variations. Match based on the most likely intended address.".

(** [wait] is the outcome of the rate limiter, [complete] the exchange
    with the completion service, from the prompt to the contents of the
    choices, and [scanInt] is [fmt.Sscanf(content, "%d", ...)]. *)
Definition MatchAddressToQuery (wait : main.result unit)
    (complete : string → main.result (list string))
    (scanInt : string → option Z)
    (query : string) (candidates : list AddressCandidate) : main.result string :=
  if main.len candidates =? 0 then main.Err "no address candidates provided"
  else
  match wait with
  | main.Err e => main.Err ("rate limited: " +:+ e)
  | main.Ok _ =>
  let addressList := addressLoop 0 candidates "" in
  let prompt := buildPrompt query addressList in
  match complete prompt with
  | main.Err e => main.Err e
  | main.Ok choices =>
  match choices with
  | [] => main.Err "no response from OpenAI"
  | content :: _ =>
  match scanInt content with
  | None => main.Err ("failed to parse OpenAI response: " +:+ content)
  | Some matchedIndex =>
      if (matchedIndex <? 0) || (main.len candidates <=? matchedIndex)
      then main.Err "no matching address found"
      else main.Ok (PropertyId (nth (Z.to_nat matchedIndex) candidates
                                    AddressCandidate_zero))
  end end end end.

(** ** The clients of one invocation *)

(** The exchanges behind the clients [HandleRequest] creates. *)
Record Exchanges : Type := mkExchanges {
  searchPost : string → main.result SearchResponse;
  propertyGet : string → main.result (list AppFolioProperty);
  groupsGet : list string → main.result (list AppFolioGroup);
  tokenGet : string → main.result (list OAuthToken);
  freeBusyPost : string → string → time.Time → time.Time
                 → main.result (gmap string FreeBusyCalendar)
}.

(** The collaborators of [HandleRequest] when they are these clients. *)
Definition env (x : Exchanges) (now : time.Time)
    (tzdb : string → option time.Location) (unicodeUpper : string → string)
    : main.Env :=
  main.mkEnv (FindPropertyID (searchPost x)) (GetProperty (propertyGet x))
             (GetPropertyGroups (groupsGet x)) (GetAccessToken (tokenGet x))
             (GetBusySlots (freeBusyPost x)) now tzdb unicodeUpper.

End clients.

(* ===================================================================== *)
(** * The tool-calls branch of [HandleRequest]

    Step 2 of the source decodes the event; for a payload of type
    "tool-calls" it then takes the query from the first tool call,
    collects the address candidates of the tool-call results and asks
    the language-matching client for the best one.  The decoded
    payload is the input here; [matcher] is
    [openaiClient.MatchAddressToQuery]. *)
(* ===================================================================== *)

Module vapi.

Record VAPIPropertyMetadata : Set := mkVAPIPropertyMetadata {
  Address1 : string;
  Address2 : string;
  City : string;
  State : string;
  PropertyId : string;
  UnitId : string
}.

Record VAPIPropertyResult : Set := mkVAPIPropertyResult {
  ID : string;
  PropertyID : string;
  Content : string;
  Metadata : VAPIPropertyMetadata
}.

Record VAPIToolCallResult : Set := mkVAPIToolCallResult {
  Count : Z;
  Results : list VAPIPropertyResult
}.

(** [Result] is the decoded tool-call result of the message, [None]
    when it has none. *)
Record VAPIArtifactMessage : Set := mkVAPIArtifactMessage {
  Role : string;
  Name : string;
  Result : option VAPIToolCallResult
}.

Record VAPIFunctionArgs : Set := mkVAPIFunctionArgs {
  Query : string;
  Phone : string;
  ExtractedProperty : string
}.

Record VAPIToolCall : Set := mkVAPIToolCall {
  ToolCall_ID : string;
  ToolCall_Type : string;
  Function_Name : string;
  Arguments : VAPIFunctionArgs
}.

Record VAPIMessage : Set := mkVAPIMessage {
  Type_ : string;
  ToolCalls : list VAPIToolCall;
  Messages : list VAPIArtifactMessage
}.

(** The loop over the results of one message, from index [i] on. *)
Fixpoint resultsLoop (i : Z) (results : list VAPIPropertyResult)
    (candidates : list clients.AddressCandidate) : list clients.AddressCandidate :=
  match results with
  | [] => candidates
  | result :: results =>
      resultsLoop (i + 1) results
        (if negb (String.eqb (Address1 (Metadata result)) "")
            && negb (String.eqb (PropertyId (Metadata result)) "")
         then candidates ++ [clients.mkAddressCandidate i
                               (Address1 (Metadata result))
                               (PropertyId (Metadata result))]
         else candidates)
  end.

(** The loop over the messages of the artifact. *)
Definition messagesLoop (messages : list VAPIArtifactMessage)
    : list clients.AddressCandidate :=
  foldl (fun candidates msg =>
           if String.eqb (Role msg) "tool_call_result" then
             match Result msg with
             | Some result => resultsLoop 0 (Results result) candidates
             | None => candidates
             end
           else candidates)
        [] messages.

(** The request and the extracted property id the branch leaves. *)
Definition toolCalls (message : VAPIMessage) (openaiKey : string)
    (matcher : string → list clients.AddressCandidate → main.result string)
    : main.Request * string :=
  let req :=
    match ToolCalls message with
    | call :: _ => main.mkRequest (Query (Arguments call)) (Phone (Arguments call))
    | [] => main.mkRequest "" ""
    end in
  let candidates := messagesLoop (Messages message) in
  let extractedPropertyID :=
    if (0 <? main.len candidates) && negb (String.eqb openaiKey "")
       && negb (String.eqb (main.Query req) "")
    then
      match matcher (main.Query req) candidates with
      | main.Err _ => ""
      | main.Ok matchedID => matchedID
      end
    else "" in
  (req, extractedPropertyID).

(** The invocation for a tool-calls payload. *)
Definition HandleToolCalls (env : main.Env) (message : VAPIMessage)
    (openaiKey : string)
    (matcher : string → list clients.AddressCandidate → main.result string)
    : main.outcome :=
  let '(req, extractedPropertyID) := toolCalls message openaiKey matcher in
  main.HandleRequest env req extractedPropertyID.

End vapi.

(* ===================================================================== *)
(** * Order and grid of slots *)
(* ===================================================================== *)

Module grid.

Import models.

(** Slot [a] is over when slot [b] starts. *)
Definition slotBefore (a b : TimeSlot) : Prop :=
  time.UnixNano (End a) <= time.UnixNano (Start b).

Definition candidateBefore (a b : time.Time * time.Time) : Prop :=
  time.UnixNano a.2 <= time.UnixNano b.1.

(** The clock of [t] shows a full or a half hour. *)
Definition onHalfHour (t : time.Time) : Prop :=
  time.Time.Minute t mod 30 = 0 ∧ time.Time.Second t = 0
  ∧ time.Time.Nanosecond t = 0.

End grid.

(* ===================================================================== *)
(** * Vocabulary of the properties *)
(* ===================================================================== *)

Module spec.

Import models.

(** ** Calendar days *)

(** The weekday of the calendar day with number [dn] (1970-01-01, a
    Thursday, is day 0). *)
Definition weekdayOfDay (dn : Z) : time.Weekday :=
  time.Weekday_of_Z ((dn + 4) mod 7).

Definition isWeekend (w : time.Weekday) : bool :=
  bool_decide (w = time.Saturday ∨ w = time.Sunday).

(** The day offsets [d, d+1, ..] of [n] consecutive days; the search
    window has the offsets [0 .. 6]. *)
Fixpoint offsetsFrom (d : Z) (n : nat) : list Z :=
  match n with
  | O => []
  | S n => d :: offsetsFrom (d + 1) n
  end.

Definition dayOffsets : list Z := offsetsFrom 0 (Z.to_nat logic.MaxDays).

(** The number of days that are neither Saturday nor Sunday among the
    seven consecutive calendar days starting at day [dn]. *)
Definition businessDaysFrom (dn : Z) : Z :=
  main.len (List.filter (fun d => negb (isWeekend (weekdayOfDay (dn + d)))) dayOffsets).

(** Nanoseconds since local midnight on the clock of [Loc t]. *)
Definition wallNanos (t : time.Time) : Z :=
  (time.Time.abs t mod time.secondsPerDay) * time.Second + time.Time.Nanosecond t.

(** Wall-clock time of day [h:mi] as nanoseconds since midnight. *)
Definition clockNanos (h mi : Z) : Z :=
  (h * time.secondsPerHour + mi * time.secondsPerMinute) * time.Second.

(** ** Well-formed time-zone data *)

(** The transitions of a location are in chronological order. *)
Fixpoint sorted_from (s : Z) (tx : list time.zoneTrans) : bool :=
  match tx with
  | [] => true
  | t :: rest => (s <=? time.when t) && sorted_from (time.when t) rest
  end.

Definition tx_sorted (l : time.Location) : bool :=
  sorted_from time.alpha (time.tx l).

(** The zone periods of a transition table, each with its offset, start
    and end, as [lookup_from] returns them. *)
Fixpoint periods_from (o s : Z) (tx : list time.zoneTrans) : list (Z * Z * Z) :=
  match tx with
  | [] => [(o, s, time.omega)]
  | t :: rest => (o, s, time.when t) :: periods_from (time.offset t) (time.when t) rest
  end.

Definition periods (l : time.Location) : list (Z * Z * Z) :=
  periods_from (time.zone0 l) time.alpha (time.tx l).

(** The Unix second of nine o'clock of day [dn] in [l]. *)
Definition nine (l : time.Location) (dn : Z) : Z :=
  time.unixOfWall l (dn * time.secondsPerDay + 9 * time.secondsPerHour).

(** Day [dn] has regular business hours in [l]: nine o'clock exists and
    one zone period covers the time from a minute before nine until
    after 17:00, so that 15:30 and 17:00 come 6.5 and 8 hours after nine. *)
Definition business_regular (l : time.Location) (dn : Z) : bool :=
  let u9 := nine l dn in
  let '(o, s, e) := time.lookup l u9 in
  (u9 + o =? dn * time.secondsPerDay + 9 * time.secondsPerHour)
  && (s <=? u9 - 60) && (u9 + 8 * time.secondsPerHour <? e)
  && (time.unixOfWall l (dn * time.secondsPerDay + 17 * time.secondsPerHour)
      =? u9 + 8 * time.secondsPerHour)
  && (time.unixOfWall l (dn * time.secondsPerDay + 15 * time.secondsPerHour
                         + 30 * time.secondsPerMinute)
      =? u9 + 6 * time.secondsPerHour + 30 * time.secondsPerMinute).

(** Adding [d] days to [t] lands on the [d]-th next calendar day, for
    each day of the window. *)
Definition calendar_regular (t : time.Time) : bool :=
  forallb (fun d => time.Time.days (time.AddDate t 0 0 d) =? time.Time.days t + d)
          dayOffsets.

(** The week starting at the local day of [t] is regular: the calendar
    is, every weekday has regular business hours, and when [t] falls
    on a weekday it lies in the zone period of that day's nine o'clock. *)
Definition week_regular (t : time.Time) : bool :=
  let l := time.Loc t in
  let dn := time.Time.days t in
  calendar_regular t
  && forallb (fun d => isWeekend (weekdayOfDay (dn + d)) || business_regular l (dn + d))
             dayOffsets
  && (isWeekend (weekdayOfDay dn)
      || (let '(_, s, e) := time.lookup l (nine l dn) in
          (s <=? time.Time.Unix t) && (time.Time.Unix t <? e))).

(** The offsets of the week starting at the local day of [t]: those in
    force at nine o'clock of each of its seven days. *)
Definition week_offsets (t : time.Time) : list Z :=
  map (fun d => time.zoneOffset (time.Loc t)
                  (nine (time.Loc t) (time.Time.days t + d)))
      dayOffsets.

(** Every offset of the week is a whole multiple of [m] seconds. *)
Definition week_offsets_multiple (m : Z) (t : time.Time) : bool :=
  forallb (fun o => o mod m =? 0) (week_offsets t).

(** Every offset of the week lies between [lo] and [hi] seconds. *)
Definition week_offsets_within (lo hi : Z) (t : time.Time) : bool :=
  forallb (fun o => (lo <=? o) && (o <=? hi)) (week_offsets t).

(** ** Candidate slots *)

(** The Unix second at which the work of [dayDate] ends. *)
Definition closing (loc : time.Location) (dayDate : time.Time) : Z :=
  if decide (time.Time.Weekday dayDate = time.Friday)
  then time.unixOfWall loc
         (time.Time.days dayDate * time.secondsPerDay + 15 * time.secondsPerHour
          + 30 * time.secondsPerMinute)
  else time.unixOfWall loc
         (time.Time.days dayDate * time.secondsPerDay + 17 * time.secondsPerHour).


(** The candidate slots the inner loop walks from [curr] on, as pairs
    of start and end. *)
Fixpoint candidates (fuel : nat) (workEnd curr : time.Time)
    : list (time.Time * time.Time) :=
  match fuel with
  | O => []
  | S fuel =>
      let slotEnd := time.Time.Add curr logic.SlotDuration in
      if time.Time.Before slotEnd workEnd || time.Time.Equal slotEnd workEnd
      then (curr, slotEnd) :: candidates fuel workEnd slotEnd
      else []
  end.

(** The candidates of day offset [d]. *)
Definition dayCandidates (loc : time.Location)
    (minStartTime startSearch : time.Time) (d : Z) : list (time.Time * time.Time) :=
  let dayDate := time.AddDate startSearch 0 0 d in
  if isWeekend (time.Time.Weekday dayDate) then []
  else
    match logic.workHours loc minStartTime dayDate with
    | None => []
    | Some (workStart, workEnd) =>
        candidates (logic.slot_fuel workStart workEnd) workEnd workStart
    end.

(** All candidates of a run of the generator, in the order walked. *)
Definition allCandidates (tzdb : string → option time.Location)
    (referenceTime : time.Time) : list (time.Time * time.Time) :=
  let loc := logic.loadLocation tzdb in
  let minStartTime := time.Time.Add referenceTime (2 * time.Hour) in
  let startSearch := time.Time.In referenceTime loc in
  flat_map (dayCandidates loc minStartTime startSearch) dayOffsets.

(** The slot returned for a free candidate. *)
Definition slotOf (c : time.Time * time.Time) : TimeSlot :=
  logic.formatSlot c.1 c.2.

(** The slots among [slots] that start on local day [dn] of [loc]. *)
Definition slotsOnDay (loc : time.Location) (dn : Z) (slots : list TimeSlot)
    : list TimeSlot :=
  List.filter (fun s => time.Time.days (time.Time.In (Start s) loc) =? dn) slots.

Definition busyCandidate (busy : list TimeRange) (c : time.Time * time.Time) : bool :=
  logic.isBusy c.1 c.2 busy.

Definition freeCandidate (busy : list TimeRange) (c : time.Time * time.Time) : bool :=
  negb (logic.isBusy c.1 c.2 busy).

(** ** The agent resolver *)

(** A group label normalized: white space trimmed, then upper case. *)
Definition normalize (unicodeUpper : string → string) (label : string) : string :=
  strings.ToUpper unicodeUpper (strings.TrimSpace label).

(** The ASCII white space: tab, line feed, vertical tab, form feed,
    carriage return and space. *)
Definition asciiSpace (c : ascii) : bool :=
  bool_decide (nat_of_ascii c ∈ [9; 10; 11; 12; 13; 32]%nat).

(** The upper-case letter of an ASCII lower-case letter, any other
    character unchanged. *)
Definition asciiUpper (c : ascii) : ascii :=
  match String.index 0 (String c EmptyString) "abcdefghijklmnopqrstuvwxyz" with
  | Some i => default c (String.get i "ABCDEFGHIJKLMNOPQRSTUVWXYZ")
  | None => c
  end.

(** The record of table entry [agent] with the matching label attached. *)
Definition withZoneGroup (agent : AgentInfo) (label : string) : AgentInfo :=
  mkAgentInfo (ID agent) (Name agent) (Email agent) (Zone agent) label.

(** ** The message, as the rules describe it *)

(** The distinct strings of a list in the order they are first seen. *)
Fixpoint firstSeen (l : list string) : list string :=
  match l with
  | [] => []
  | x :: l => x :: List.filter (fun y => negb (String.eqb y x)) (firstSeen l)
  end.

(** The display times of the slots of display date [date], in order. *)
Definition timesOn (date : string) (slots : list TimeSlot) : list string :=
  map Time (List.filter (fun s => String.eqb (Date s) date) slots).

(** The slots grouped by display date, dates in first-seen order. *)
Definition dateGroups (slots : list TimeSlot) : list (string * list string) :=
  map (fun date => (date, timesOn date slots)) (firstSeen (map Date slots)).

Definition renderTime (t : string) : string := "  • " +:+ t +:+ main.LF.

(** The summary line of a date with [n] times, more than six. *)
Definition moreTimes (n : Z) : string :=
  "  • ..." +:+ pretty (n - 6) +:+ " more times available" +:+ main.LF.

(** One date: its line, at most six times, the summary of the times
    left out when there are more than six, and a blank line. *)
Definition renderGroup (g : string * list string) : string :=
  g.1 +:+ ":" +:+ main.LF
  +:+ String.concat "" (map renderTime (take 6 g.2))
  +:+ (if 6 <? main.len g.2 then moreTimes (main.len g.2) else "")
  +:+ main.LF.

Definition header (prop : PropertyInfo) (agent : AgentInfo) : string :=
  "🏠 PROPERTY: " +:+ PropertyInfo_Name prop +:+ main.LF +:+
  "📍 " +:+ PropertyInfo_Address prop +:+ ", " +:+ PropertyInfo_City prop +:+
  ", " +:+ PropertyInfo_State prop +:+ main.LF +:+ main.LF +:+
  "👤 LEASING AGENT: " +:+ Name agent +:+ main.LF +:+
  "📧 Email: " +:+ Email agent +:+ main.LF +:+ main.LF.

(** The contact line of a fully booked calendar and of a slot list. *)
Definition contactBooked (agent : AgentInfo) : string :=
  "📞 Please contact " +:+ Name agent +:+ " directly at " +:+ Email agent +:+
  " to schedule.".

Definition contactSlots (agent : AgentInfo) : string :=
  "📞 Contact " +:+ Name agent +:+ " at " +:+ Email agent +:+
  " to schedule your showing.".

Definition contactLine (agent : AgentInfo) (avail : Availability) : string :=
  match Slots avail with
  | [] => contactBooked agent
  | _ :: _ => contactSlots agent
  end.

Definition message (prop : PropertyInfo) (agent : AgentInfo)
    (avail : Availability) : string :=
  match Slots avail with
  | [] =>
      header prop agent +:+
      "📅 SHOWING AVAILABILITY:" +:+ main.LF +:+
      "No available time slots found in the next " +:+
      pretty (DaysChecked avail) +:+ " days." +:+ main.LF +:+
      Name agent +:+ "'s calendar is fully booked." +:+ main.LF +:+ main.LF +:+
      contactBooked agent
  | _ :: _ =>
      let groups := dateGroups (Slots avail) in
      header prop agent +:+
      "📅 AVAILABLE SHOWING TIMES:" +:+ main.LF +:+ main.LF +:+
      String.concat "" (map renderGroup (take 5 groups)) +:+
      (if 5 <? main.len groups
       then "...and " +:+ pretty (main.len groups - 5) +:+
            " more days with availability" +:+ main.LF
       else "") +:+
      main.LF +:+ contactSlots agent
  end.

(** ** Substrings *)

Definition contains (s sub : string) : Prop :=
  ∃ pre post : string, s = pre +:+ sub +:+ post.

Definition hasSuffix (s suffix : string) : Prop :=
  ∃ pre : string, s = pre +:+ suffix.

End spec.

(* ===================================================================== *)
(** * Stages of the pipeline *)
(* ===================================================================== *)

Module stages.

Import models.

(** Step 4 yields [propID]: the extracted id when there is one, else
    what the search finds for the query. *)
Definition found (env : main.Env) (req : main.Request)
    (extractedPropertyID propID : string) : Prop :=
  extractedPropertyID ≠ "" ∧ propID = extractedPropertyID
  ∨ extractedPropertyID = ""
    ∧ main.FindPropertyID env (main.Query req) = main.Ok propID.

(** Steps 4 to 7 succeed with property [prop] and agent [agent]. *)
Definition resolved (env : main.Env) (req : main.Request)
    (extractedPropertyID : string) (prop : AppFolioProperty)
    (agent : AgentInfo) : Prop :=
  main.Query req ≠ ""
  ∧ ∃ propID groups,
      found env req extractedPropertyID propID
      ∧ main.GetProperty env propID = main.Ok prop
      ∧ main.GetPropertyGroups env (PropertyGroupIds prop) = main.Ok groups
      ∧ mapper.MapAgent (main.unicodeUpper env) groups = Some agent.

(** The instant of step 9: the clock read in [pstLoc]. *)
Definition now (env : main.Env) (pstLoc : time.Location) : time.Time :=
  time.Time.In (main.Now env) pstLoc.

(** Steps 4 to 9 succeed up to the calendar request: the agent is
    resolved, the credential is [token] and the zone is [pstLoc]. *)
Definition authorized (env : main.Env) (req : main.Request)
    (extractedPropertyID : string) (prop : AppFolioProperty)
    (agent : AgentInfo) (token : string) (pstLoc : time.Location) : Prop :=
  resolved env req extractedPropertyID prop agent
  ∧ main.GetAccessToken env (Email agent) = main.Ok token
  ∧ main.LoadLocation env "America/Los_Angeles" = Some pstLoc.

(** A sample invocation: the search finds property "p-1" of group
    " pd2 ", a credential is stored for its agent, and the calendar
    reports one busy hour. *)
Definition sampleProperty : AppFolioProperty :=
  mkAppFolioProperty "p-1" "Maple Court" "12 Maple St" "Fresno" "CA" ["g-7"; "g-9"].

Definition sampleAgent : AgentInfo :=
  mkAgentInfo "dcb80b8a-66bd-11ee-b6c3-02094d1ce055" "Elizabeth"
              "elizabeth@ltrealestateco.com" "PD2" " pd2 ".

Definition sampleBusy : list TimeRange :=
  [mkTimeRange (time.Date 2026 11 2 11 0 0 0 tzdata.LosAngeles)
               (time.Date 2026 11 2 12 0 0 0 tzdata.LosAngeles)].

Definition sampleExchanges : clients.Exchanges :=
  clients.mkExchanges
    (fun _ => main.Ok (clients.mkSearchResponse 1
                         [clients.mkSearchResult "" {[ "PropertyId" := "p-1" ]}]))
    (fun _ => main.Ok [sampleProperty])
    (fun _ => main.Ok [mkAppFolioGroup "g-7" "ops"; mkAppFolioGroup "g-9" " pd2 "])
    (fun email => main.Ok [clients.mkOAuthToken "ya29.token" email])
    (fun _ email _ _ =>
       main.Ok {[ email := clients.mkFreeBusyCalendar sampleBusy [] ]}).

Definition sampleEnv : main.Env :=
  clients.env sampleExchanges (time.Date 2026 11 2 16 0 0 0 time.UTC)
              tzdata.embedded (fun s => s).

Definition sampleRequest : main.Request := main.mkRequest "12 Maple St" "".

End stages.

(* ===================================================================== *)
(** * Facts about the [time] package *)
(* ===================================================================== *)

Section TimeExamples.

(** The calendar: 1 January 1970 is day 0, a Thursday; 30 October 2026
    is a Friday; the leap day of 2024 is followed by 1 March. *)
Example civil_examples :
  time.days_from_civil 1970 1 1 = 0
  ∧ time.civil_from_days 0 = (1970, 1, 1)
  ∧ spec.weekdayOfDay 0 = time.Thursday
  ∧ spec.weekdayOfDay (time.days_from_civil 2026 10 30) = time.Friday
  ∧ time.civil_from_days (time.days_from_civil 2024 2 29 + 1) = (2024, 3, 1)
  ∧ time.civil_from_days (time.days_from_civil 2026 2 28 + 1) = (2026, 3, 1).
Proof. repeat split; reflexivity. Qed.

(** Los Angeles: winter time is UTC-8, summer time UTC-7; 02:30 on the
    day daylight time begins does not exist and [Date] gives 01:30
    standard time. *)
Example LosAngeles_examples :
  time.UnixNano (time.Date 2026 1 15 12 0 0 0 tzdata.LosAngeles)
  = time.UnixNano (time.Date 2026 1 15 20 0 0 0 time.UTC)
  ∧ time.UnixNano (time.Date 2026 7 15 12 0 0 0 tzdata.LosAngeles)
    = time.UnixNano (time.Date 2026 7 15 19 0 0 0 time.UTC)
  ∧ time.Format (time.Date 2026 3 8 2 30 0 0 tzdata.LosAngeles) "3:04 PM"
    = "1:30 AM"
  ∧ time.Format (time.Date 2026 10 30 14 5 0 0 tzdata.LosAngeles)
                "Monday, January 2, 2006" = "Friday, October 30, 2026"
  ∧ time.Format (time.Date 2026 10 30 14 5 0 0 tzdata.LosAngeles) "3:04 PM"
    = "2:05 PM"
  ∧ time.Time.Weekday (time.AddDate (time.Date 2026 10 30 14 5 0 0 tzdata.LosAngeles)
                                    0 0 3) = time.Monday.
Proof. repeat split; vm_compute; reflexivity. Qed.

(** [Truncate] to the minute drops seconds and nanoseconds. *)
Example Truncate_example :
  time.Time.Truncate (time.Date 2026 11 2 10 0 30 7 tzdata.LosAngeles) time.Minute
  = time.Date 2026 11 2 10 0 0 0 tzdata.LosAngeles.
Proof. vm_compute. reflexivity. Qed.

(** Reference Monday 08:00 in Los Angeles, nothing busy: the first
    slot is Monday 10:00-10:30. *)
Example monday_morning_reference :
  ∃ rest,
    map (fun s => (models.Date s, models.Time s))
        (logic.GenerateAvailableSlots tzdata.embedded []
           (time.Date 2026 11 2 8 0 0 0 tzdata.LosAngeles)).1.1
    = ("Monday, November 2, 2026", "10:00 AM") :: rest.
Proof. eexists. vm_compute. reflexivity. Qed.

End TimeExamples.

Section TimeFacts.

Local Ltac unfold_units :=
  unfold time.Hour, time.Minute, time.Second, time.Millisecond,
    time.Microsecond, time.Nanosecond, time.secondsPerDay,
    time.secondsPerHour, time.secondsPerMinute, time.unixToInternal in *.

(** The year-of-era estimate of [civil_from_days] leaves a day of year. *)
Lemma civil_day_of_year doe :
  0 <= doe < 146097 →
  let yoe := (doe - doe / 1460 + doe / 36524 - doe / 146096) / 365 in
  0 <= yoe < 400 ∧ 0 <= doe - (365 * yoe + yoe / 4 - yoe / 100) <= 365.
Proof.
  intros Hdoe; cbv zeta. Z.div_mod_to_equations. lia.
Qed.

(** [days_from_civil] inverts [civil_from_days], whose month is a month. *)
Lemma days_from_civil_from_days z :
  let '(y, m, d) := time.civil_from_days z in
  time.days_from_civil y m d = z ∧ 1 <= m <= 12.
Proof.
  unfold time.civil_from_days, time.days_from_civil.
  set (z' := z + 719468).
  set (era := z' / 146097).
  set (doe := z' - era * 146097).
  assert (Hdoe : 0 <= doe < 146097)
    by (unfold doe, era; Z.div_mod_to_equations; lia).
  pose proof (civil_day_of_year doe Hdoe) as Hyd; cbv zeta in Hyd.
  set (yoe := (doe - doe / 1460 + doe / 36524 - doe / 146096) / 365) in *.
  set (doy := doe - (365 * yoe + yoe / 4 - yoe / 100)) in *.
  set (mp := (5 * doy + 2) / 153).
  assert (Hmp : 0 <= mp <= 11) by (unfold mp; Z.div_mod_to_equations; lia).
  assert (Hera : ∀ k, k = yoe + era * 400 → k / 400 = era ∧ k - era * 400 = yoe)
    by (intros k ->; split; [Z.div_mod_to_equations|]; lia).
  destruct (Z.ltb_spec mp 10) as [Hlt|Hge].
  - destruct (Z.leb_spec (mp + 3) 2); [lia|].
    destruct (Z.gtb_spec (mp + 3) 2); [|lia].
    destruct (Hera _ eq_refl) as [-> ->].
    replace (mp + 3 - 3) with mp by lia.
    split; [unfold doy, doe, z'; lia | lia].
  - destruct (Z.leb_spec (mp - 9) 2); [|lia].
    destruct (Z.gtb_spec (mp - 9) 2); [lia|].
    replace (yoe + era * 400 + 1 - 1) with (yoe + era * 400) by lia.
    destruct (Hera _ eq_refl) as [-> ->].
    replace (mp - 9 + 9) with mp by lia.
    split; [unfold doy, doe, z'; lia | lia].
Qed.

Lemma days_from_civil_add y m d k :
  time.days_from_civil y m (d + k) = time.days_from_civil y m d + k.
Proof. unfold time.days_from_civil. lia. Qed.

(** The civil date of [t] read back as a day number. *)
Lemma days_of_Date (t : time.Time) k :
  let m := time.Time.Month t - 1 in
  time.days_from_civil (time.Time.Year t + m / 12) (m mod 12 + 1)
                       (time.Time.Day t + k)
  = time.Time.days t + k.
Proof.
  unfold time.Time.Year, time.Time.Month, time.Time.Day, time.Time.Date.
  pose proof (days_from_civil_from_days (time.Time.days t)) as H.
  destruct (time.civil_from_days (time.Time.days t)) as [[y m] d].
  destruct H as [H Hm]; cbn [fst snd].
  replace ((m - 1) / 12) with 0 by (Z.div_mod_to_equations; lia).
  replace ((m - 1) mod 12 + 1) with m by (Z.div_mod_to_equations; lia).
  rewrite Z.add_0_r, days_from_civil_add. lia.
Qed.

(** [time.Date] at a whole second of the day of [t]. *)
Lemma Date_of_day (t : time.Time) h mi s l :
  time.UnixNano
    (time.Date (time.Time.Year t) (time.Time.Month t) (time.Time.Day t) h mi s 0 l)
  = time.unixOfWall l
      (time.Time.days t * time.secondsPerDay + h * time.secondsPerHour
       + mi * time.secondsPerMinute + s) * time.Second.
Proof.
  unfold time.Date; cbn [time.UnixNano].
  pose proof (days_of_Date t 0) as H; cbv zeta in H.
  rewrite Z.add_0_r in H; rewrite H.
  unfold_units. rewrite Z.div_0_l, Z.mod_0_l by lia.
  rewrite !Z.add_0_r. reflexivity.
Qed.

Lemma Date_Loc y m d h mi s ns l : time.Loc (time.Date y m d h mi s ns l) = l.
Proof. reflexivity. Qed.

(** [AddDate] keeps the wall clock and moves the day. *)
Lemma AddDate_days_unix (t : time.Time) d :
  time.UnixNano (time.AddDate t 0 0 d)
  = time.unixOfWall (time.Loc t)
      ((time.Time.days t + d) * time.secondsPerDay
       + time.Time.abs t mod time.secondsPerDay) * time.Second
    + time.Time.Nanosecond t.
Proof.
  unfold time.AddDate.
  pose proof (days_of_Date t d) as H; cbv zeta in H.
  unfold time.Time.Year, time.Time.Month, time.Time.Day in H.
  destruct (time.Time.Date t) as [[y m] dd]; cbn [fst snd] in H.
  unfold time.Time.Clock, time.Date; cbn [time.UnixNano].
  rewrite !Z.add_0_r, H.
  unfold time.Time.Location, time.Time.Hour, time.Time.Minute, time.Time.Second,
    time.Time.Nanosecond.
  assert (Hns : 0 <= time.UnixNano t mod time.Second < time.Second)
    by (apply Z.mod_pos_bound; unfold_units; lia).
  rewrite (Z.div_small _ _ Hns), (Z.mod_small _ _ Hns), Z.add_0_r.
  f_equal. f_equal. f_equal.
  unfold_units. generalize (time.Time.abs t); intros a.
  Z.div_mod_to_equations. lia.
Qed.

Lemma AddDate_Loc t y m d : time.Loc (time.AddDate t y m d) = time.Loc t.
Proof.
  unfold time.AddDate. destruct (time.Time.Date t) as [[? ?] ?].
  reflexivity.
Qed.

(** ** Zone lookup in a sorted table *)

Lemma lookup_from_start tx : ∀ o0 s0 sec o s e,
  spec.sorted_from s0 tx = true →
  time.lookup_from o0 s0 tx sec = (o, s, e) → s0 <= s.
Proof.
  induction tx as [|t rest IH]; intros o0 s0 sec o s e Hs Hl; cbn in *.
  - injection Hl as _ <- _. lia.
  - apply andb_true_iff in Hs as [H0 Hs]. apply Z.leb_le in H0.
    destruct (sec <? time.when t).
    + injection Hl as _ <- _. lia.
    + specialize (IH _ _ _ _ _ _ Hs Hl). lia.
Qed.

(** Within the period a lookup returns, every lookup returns the same. *)
Lemma lookup_from_stable tx : ∀ o0 s0 sec o s e v,
  spec.sorted_from s0 tx = true →
  time.lookup_from o0 s0 tx sec = (o, s, e) →
  s <= v < e →
  time.lookup_from o0 s0 tx v = (o, s, e).
Proof.
  induction tx as [|t rest IH]; intros o0 s0 sec o s e v Hs Hl Hv; cbn in *.
  - exact Hl.
  - apply andb_true_iff in Hs as [H0 Hs].
    destruct (Z.ltb_spec sec (time.when t)) as [Hlt|Hge].
    + injection Hl as <- <- <-.
      destruct (Z.ltb_spec v (time.when t)); [reflexivity | lia].
    + pose proof (lookup_from_start _ _ _ _ _ _ _ Hs Hl) as Hle.
      destruct (Z.ltb_spec v (time.when t)); [lia|].
      eapply IH; eauto.
Qed.

Lemma zoneOffset_stable (l : time.Location) sec o s e v :
  spec.tx_sorted l = true →
  time.lookup l sec = (o, s, e) →
  s <= v < e →
  time.zoneOffset l v = o.
Proof.
  intros Hs Hl Hv. unfold time.zoneOffset, time.lookup in *.
  erewrite lookup_from_stable; eauto.
Qed.

End TimeFacts.

(* ===================================================================== *)
(** * The slot generator walks the candidates *)
(* ===================================================================== *)

Section GeneratorFacts.

Import models.

Local Ltac unfold_units :=
  unfold logic.SlotDuration, time.Hour, time.Minute, time.Second,
    time.Millisecond, time.Microsecond, time.Nanosecond, time.secondsPerDay,
    time.secondsPerHour, time.secondsPerMinute, time.unixToInternal in *.

Lemma len_app {A} (l k : list A) : main.len (l ++ k) = main.len l + main.len k.
Proof. unfold main.len. rewrite length_app. lia. Qed.

Lemma len_nonneg {A} (l : list A) : 0 <= main.len l.
Proof. unfold main.len. lia. Qed.

Lemma dayOffsets_eq : spec.dayOffsets = [0; 1; 2; 3; 4; 5; 6].
Proof. reflexivity. Qed.

(** The inner loop emits the free candidates and counts them all. *)
Lemma slot_loop_candidates fuel busy workEnd : ∀ curr sl dc tot,
  logic.slot_loop fuel busy workEnd curr (sl, dc, tot)
  = (sl ++ map spec.slotOf
             (List.filter (spec.freeCandidate busy)
                          (spec.candidates fuel workEnd curr)),
     dc,
     tot + main.len (spec.candidates fuel workEnd curr)).
Proof.
  induction fuel as [|fuel IH]; intros curr sl dc tot; cbn [logic.slot_loop spec.candidates].
  - cbn. rewrite app_nil_r. f_equal. unfold main.len; cbn; lia.
  - destruct (time.Time.Before _ workEnd || time.Time.Equal _ workEnd).
    + rewrite IH. cbn [List.filter].
      unfold spec.freeCandidate at 2; cbn [fst snd].
      destruct (negb (logic.isBusy curr _ busy)); cbn [map].
      * rewrite <- app_assoc. cbn [app]. f_equal.
        unfold main.len; cbn [length]; lia.
      * f_equal. unfold main.len; cbn [length]; lia.
    + cbn. rewrite app_nil_r. f_equal. unfold main.len; cbn; lia.
Qed.

(** The body of the outer loop. *)
Lemma day_step_candidates loc busy minS ss d sl dc tot :
  logic.day_step loc busy minS ss d (sl, dc, tot)
  = (sl ++ map spec.slotOf
             (List.filter (spec.freeCandidate busy)
                          (spec.dayCandidates loc minS ss d)),
     dc + (if spec.isWeekend (time.Time.Weekday (time.AddDate ss 0 0 d))
           then 0 else 1),
     tot + main.len (spec.dayCandidates loc minS ss d)).
Proof.
  unfold logic.day_step, spec.dayCandidates, spec.isWeekend.
  destruct (decide (time.Time.Weekday (time.AddDate ss 0 0 d) = time.Saturday
                    ∨ time.Time.Weekday (time.AddDate ss 0 0 d) = time.Sunday))
    as [Hw|Hw].
  - rewrite bool_decide_eq_true_2 by exact Hw. cbn.
    rewrite app_nil_r. f_equal; [f_equal|]; unfold main.len; cbn; lia.
  - rewrite bool_decide_eq_false_2 by exact Hw.
    destruct (logic.workHours loc minS (time.AddDate ss 0 0 d)) as [[ws we]|].
    + apply slot_loop_candidates.
    + cbn. rewrite app_nil_r. f_equal; unfold main.len; cbn; lia.
Qed.

(** The outer loop. *)
Lemma day_loop_candidates n loc busy minS ss : ∀ d sl dc tot,
  logic.day_loop n loc busy minS ss d (sl, dc, tot)
  = (sl ++ map spec.slotOf
             (List.filter (spec.freeCandidate busy)
                (flat_map (spec.dayCandidates loc minS ss) (spec.offsetsFrom d n))),
     dc + main.len
            (List.filter
               (fun d => negb (spec.isWeekend
                                 (time.Time.Weekday (time.AddDate ss 0 0 d))))
               (spec.offsetsFrom d n)),
     tot + main.len (flat_map (spec.dayCandidates loc minS ss) (spec.offsetsFrom d n))).
Proof.
  induction n as [|n IH]; intros d sl dc tot;
    cbn [logic.day_loop spec.offsetsFrom flat_map List.filter].
  - cbn. rewrite app_nil_r. f_equal; [f_equal|]; unfold main.len; cbn; lia.
  - rewrite day_step_candidates, IH.
    rewrite List.filter_app, map_app, <- app_assoc, len_app.
    f_equal; [f_equal|]; [|lia].
    destruct (spec.isWeekend _); cbn [negb]; unfold main.len; cbn [length]; lia.
Qed.

(** What [GenerateAvailableSlots] returns, in terms of the candidates. *)
Lemma GenerateAvailableSlots_candidates tzdb busy ref :
  logic.GenerateAvailableSlots tzdb busy ref
  = (map spec.slotOf
         (List.filter (spec.freeCandidate busy) (spec.allCandidates tzdb ref)),
     main.len
       (List.filter
          (fun d => negb (spec.isWeekend
                            (time.Time.Weekday
                               (time.AddDate
                                  (time.Time.In ref (logic.loadLocation tzdb)) 0 0 d))))
          spec.dayOffsets),
     main.len (spec.allCandidates tzdb ref)).
Proof.
  unfold logic.GenerateAvailableSlots. rewrite day_loop_candidates.
  unfold spec.allCandidates, spec.dayOffsets. cbn [app].
  f_equal.
Qed.

(** ** The inner loop ends by its guard *)

Lemma candidates_more_fuel workEnd : ∀ fuel curr more,
  (Z.to_nat ((time.UnixNano workEnd - time.UnixNano curr) / logic.SlotDuration)
   < fuel)%nat →
  spec.candidates (fuel + more) workEnd curr = spec.candidates fuel workEnd curr.
Proof.
  induction fuel as [|fuel IH]; intros curr more Hfuel; [lia|].
  cbn [Nat.add spec.candidates].
  destruct (time.Time.Before _ workEnd || time.Time.Equal _ workEnd) eqn:Hguard;
    [|reflexivity].
  f_equal. apply IH.
  unfold time.Time.Before, time.Time.Equal, time.Time.Add in *;
    cbn [time.UnixNano] in *.
  assert (Hle : time.UnixNano curr + logic.SlotDuration <= time.UnixNano workEnd)
    by (destruct (orb_prop _ _ Hguard) as [H|H]; lia).
  revert Hfuel Hle. unfold_units.
  generalize (time.UnixNano workEnd), (time.UnixNano curr); intros we c Hfuel Hle.
  assert (Hq : (we - c) / 1800000000000 = (we - (c + 1800000000000)) / 1800000000000 + 1)
    by (Z.div_mod_to_equations; lia).
  assert (0 <= (we - (c + 1800000000000)) / 1800000000000)
    by (Z.div_mod_to_equations; lia).
  replace (30 * (60 * (1000 * (1000 * (1000 * 1))))) with 1800000000000 in * by lia.
  lia.
Qed.

(** More fuel than [slot_fuel] changes nothing: the loop is the
    source's loop. *)
Lemma slot_loop_fuel_enough busy workStart workEnd st more :
  logic.slot_loop (logic.slot_fuel workStart workEnd + more) busy workEnd workStart st
  = logic.slot_loop (logic.slot_fuel workStart workEnd) busy workEnd workStart st.
Proof.
  destruct st as [[sl dc] tot]. rewrite !slot_loop_candidates.
  rewrite candidates_more_fuel; [reflexivity|].
  unfold logic.slot_fuel. lia.
Qed.

End GeneratorFacts.

(* ===================================================================== *)
(** * Where the candidates lie *)
(* ===================================================================== *)

Section CandidateWindow.

Local Ltac unfold_units :=
  unfold logic.SlotDuration, time.Hour, time.Minute, time.Second,
    time.Millisecond, time.Microsecond, time.Nanosecond, time.secondsPerDay,
    time.secondsPerHour, time.secondsPerMinute, time.unixToInternal in *.

(** Candidates start at or after the loop's start, last thirty minutes
    and end by the end of work. *)
Lemma candidates_bounds fuel workEnd : ∀ curr c,
  In c (spec.candidates fuel workEnd curr) →
  time.UnixNano curr <= time.UnixNano c.1
  ∧ time.UnixNano c.2 = time.UnixNano c.1 + logic.SlotDuration
  ∧ time.UnixNano c.2 <= time.UnixNano workEnd.
Proof.
  induction fuel as [|fuel IH]; intros curr c Hin; cbn [spec.candidates] in Hin;
    [destruct Hin|].
  destruct (time.Time.Before _ workEnd || time.Time.Equal _ workEnd) eqn:Hguard;
    [|destruct Hin].
  destruct Hin as [<-|Hin]; cbn [fst snd].
  - unfold time.Time.Before, time.Time.Equal, time.Time.Add in *;
      cbn [time.UnixNano] in *.
    destruct (orb_prop _ _ Hguard); lia.
  - apply IH in Hin. unfold time.Time.Add in Hin; cbn [time.UnixNano] in Hin.
    unfold_units. lia.
Qed.

(** The work hours of a day: the end is the closing time; the start is
    nine o'clock when that respects the buffer, and otherwise lies
    after nine and less than a minute before the buffer's end. *)
Lemma workHours_bounds loc minS dayDate ws we :
  logic.workHours loc minS dayDate = Some (ws, we) →
  let u9 := spec.nine loc (time.Time.days dayDate) in
  time.UnixNano we = spec.closing loc dayDate * time.Second
  ∧ ((time.UnixNano ws = u9 * time.Second
      ∧ time.UnixNano minS <= time.UnixNano ws)
     ∨ (u9 * time.Second < time.UnixNano minS
        ∧ time.UnixNano minS - time.Minute < time.UnixNano ws
        ∧ time.UnixNano minS <= time.UnixNano we)).
Proof.
  unfold logic.workHours, spec.closing, spec.nine, logic.WorkStartHour, logic.WorkEndHour.
  intros H; cbv zeta.
  pose proof (Date_of_day dayDate 9 0 0 loc) as H9.
  pose proof (Date_of_day dayDate 17 0 0 loc) as H17.
  pose proof (Date_of_day dayDate 15 30 0 loc) as H1530.
  rewrite Z.mul_0_l, !Z.add_0_r in H9, H17. rewrite Z.add_0_r in H1530.
  set (workStart := time.Date _ _ _ 9 0 0 0 loc) in *.
  set (e17 := time.Date _ _ _ 17 0 0 0 loc) in *.
  set (e1530 := time.Date _ _ _ 15 30 0 0 loc) in *.
  assert (Hwe : time.UnixNano
            (if decide (time.Time.Weekday dayDate = time.Friday) then e1530 else e17)
          = (if decide (time.Time.Weekday dayDate = time.Friday)
             then time.unixOfWall loc
                    (time.Time.days dayDate * time.secondsPerDay
                     + 15 * time.secondsPerHour + 30 * time.secondsPerMinute)
             else time.unixOfWall loc
                    (time.Time.days dayDate * time.secondsPerDay
                     + 17 * time.secondsPerHour)) * time.Second)
    by (destruct (decide _); assumption).
  set (workEnd := if decide _ then e1530 else e17) in *.
  unfold time.Time.Before, time.Time.After in H.
  destruct (Z.ltb_spec (time.UnixNano workStart) (time.UnixNano minS)) as [Hlt|Hge].
  - destruct (Z.ltb_spec (time.UnixNano workEnd) (time.UnixNano minS)) as [|Hle];
      [discriminate|].
    injection H as <- <-. split; [exact Hwe|]. right.
    split; [rewrite <- H9; exact Hlt|]. split; [|exact Hle].
    unfold time.Time.Truncate, time.Time.Add.
    change (time.Minute <=? 0) with false; cbn [time.UnixNano].
    set (rem := time.Time.Minute minS mod 30).
    assert (Hadd : 0 <= (if negb (rem =? 0) then 30 - rem else 0))
      by (unfold rem; destruct (Z.eqb_spec (time.Time.Minute minS mod 30) 0);
          cbn [negb]; Z.div_mod_to_equations; lia).
    revert Hadd. generalize (if negb (rem =? 0) then 30 - rem else 0); intros add Hadd.
    unfold_units. Z.div_mod_to_equations. lia.
  - injection H as <- <-. split; [exact Hwe|]. left. split; [exact H9 | lia].
Qed.

(** Every candidate of day offset [d]: its day is not a weekend day, it
    starts after a minute before nine and after a minute before the
    buffer's end, lasts thirty minutes and ends by closing time. *)
Lemma dayCandidates_window loc minS ss d c :
  In c (spec.dayCandidates loc minS ss d) →
  let dayDate := time.AddDate ss 0 0 d in
  spec.isWeekend (time.Time.Weekday dayDate) = false
  ∧ spec.nine loc (time.Time.days dayDate) * time.Second - time.Minute
    < time.UnixNano c.1
  ∧ time.UnixNano minS - time.Minute < time.UnixNano c.1
  ∧ time.UnixNano c.2 = time.UnixNano c.1 + logic.SlotDuration
  ∧ time.UnixNano c.2 <= spec.closing loc dayDate * time.Second.
Proof.
  unfold spec.dayCandidates; cbv zeta.
  destruct (spec.isWeekend _) eqn:Hw; [intros []|].
  destruct (logic.workHours _ _ _) as [[ws we]|] eqn:Hwh; [|intros []].
  intros Hin. apply candidates_bounds in Hin as (Hs & Hd & He).
  apply workHours_bounds in Hwh as [Hwe Hws]; cbv zeta in Hws.
  split; [reflexivity|]. rewrite <- Hwe.
  assert (0 < time.Minute) by (unfold_units; lia).
  destruct Hws as [[H9 Hm]|(H9 & Hm & _)]; repeat split; try lia.
Qed.

(** Every candidate of a run belongs to one of the seven days. *)
Lemma allCandidates_day tzdb ref c :
  In c (spec.allCandidates tzdb ref) →
  ∃ d, 0 <= d < 7
       ∧ In c (spec.dayCandidates (logic.loadLocation tzdb)
                 (time.Time.Add ref (2 * time.Hour))
                 (time.Time.In ref (logic.loadLocation tzdb)) d).
Proof.
  unfold spec.allCandidates. rewrite in_flat_map. intros (d & Hd & Hc).
  exists d. split; [|exact Hc].
  rewrite dayOffsets_eq in Hd. cbn [In] in Hd. intuition lia.
Qed.

(** Every returned slot is a free candidate. *)
Lemma returned_slot_candidate tzdb busy ref slot :
  In slot (logic.GenerateAvailableSlots tzdb busy ref).1.1 →
  ∃ c, slot = spec.slotOf c
       ∧ In c (spec.allCandidates tzdb ref)
       ∧ logic.isBusy c.1 c.2 busy = false.
Proof.
  rewrite GenerateAvailableSlots_candidates; cbn [fst].
  rewrite in_map_iff. intros (c & <- & Hc).
  apply List.filter_In in Hc as [Hc Hfree].
  exists c. split; [reflexivity|]. split; [exact Hc|].
  unfold spec.freeCandidate in Hfree. by destruct (logic.isBusy _ _ _).
Qed.

End CandidateWindow.

(* ===================================================================== *)
(** * Local time in a regular week *)
(* ===================================================================== *)

Section RegularWeek.

Local Ltac unfold_units :=
  unfold logic.SlotDuration, spec.clockNanos, time.Hour, time.Minute, time.Second,
    time.Millisecond, time.Microsecond, time.Nanosecond, time.secondsPerDay,
    time.secondsPerHour, time.secondsPerMinute, time.unixToInternal in *.

Lemma In_dayOffsets d : 0 <= d < 7 → In d spec.dayOffsets.
Proof.
  intros Hd. rewrite dayOffsets_eq. cbn [In].
  assert (d = 0 ∨ d = 1 ∨ d = 2 ∨ d = 3 ∨ d = 4 ∨ d = 5 ∨ d = 6) by lia.
  intuition auto.
Qed.

Lemma calendar_regular_days t d :
  spec.calendar_regular t = true → 0 <= d < 7 →
  time.Time.days (time.AddDate t 0 0 d) = time.Time.days t + d.
Proof.
  unfold spec.calendar_regular. rewrite forallb_forall. intros H Hd.
  apply Z.eqb_eq, H, In_dayOffsets, Hd.
Qed.

Lemma week_regular_calendar t :
  spec.week_regular t = true → spec.calendar_regular t = true.
Proof.
  unfold spec.week_regular. intros H.
  apply andb_true_iff in H as [H _]. apply andb_true_iff in H as [H _]. exact H.
Qed.

Lemma week_regular_business t d :
  spec.week_regular t = true → 0 <= d < 7 →
  spec.isWeekend (spec.weekdayOfDay (time.Time.days t + d)) = false →
  spec.business_regular (time.Loc t) (time.Time.days t + d) = true.
Proof.
  unfold spec.week_regular. intros H Hd Hw.
  apply andb_true_iff in H as [H _]. apply andb_true_iff in H as [_ H].
  rewrite forallb_forall in H. specialize (H d (In_dayOffsets d Hd)).
  rewrite Hw in H. exact H.
Qed.

(** The weekday of a time is the weekday of its local day. *)
Lemma Weekday_days t : time.Time.Weekday t = spec.weekdayOfDay (time.Time.days t).
Proof. reflexivity. Qed.

(** On a day with regular business hours, an instant from a minute
    before nine to 17:00 lies on that day, and its wall clock runs
    on from nine o'clock. *)
Lemma business_hours_local loc dn x :
  spec.tx_sorted loc = true →
  spec.business_regular loc dn = true →
  spec.nine loc dn * time.Second - time.Minute < x
    <= (spec.nine loc dn + 8 * time.secondsPerHour) * time.Second →
  time.Time.days (time.mkTime x loc) = dn
  ∧ spec.wallNanos (time.mkTime x loc)
    = x - spec.nine loc dn * time.Second + spec.clockNanos 9 0.
Proof.
  intros Hsorted Hreg Hx. unfold spec.business_regular in Hreg.
  set (u9 := spec.nine loc dn) in *.
  destruct (time.lookup loc u9) as [[o s] e] eqn:Hl.
  repeat (apply andb_true_iff in Hreg as [Hreg ?]).
  apply Z.eqb_eq in Hreg.
  assert (Hs : s <= u9 - 60) by (apply Z.leb_le; assumption).
  assert (He : u9 + 8 * time.secondsPerHour < e) by (apply Z.ltb_lt; assumption).
  assert (Hu : u9 - 60 <= x / time.Second <= u9 + 8 * time.secondsPerHour)
    by (revert Hx; unfold_units; intros Hx; Z.div_mod_to_equations; lia).
  assert (Ho : time.zoneOffset loc (x / time.Second) = o)
    by (eapply zoneOffset_stable; eauto; lia).
  unfold spec.wallNanos, time.Time.days, time.Time.abs, time.Time.Nanosecond,
    time.Time.Unix; cbn [time.UnixNano time.Loc].
  rewrite Ho. revert Hreg Hu. unfold_units.
  generalize (x / (1000 * (1000 * (1000 * 1)))) (x mod (1000 * (1000 * (1000 * 1))))
    (Z.div_mod x (1000 * (1000 * (1000 * 1)))).
  intros u r Hdm Hreg Hu. specialize (Hdm ltac:(lia)).
  split; Z.div_mod_to_equations; lia.
Qed.

(** On a day with regular business hours work closes 6.5 hours after
    nine on a Friday and 8 hours after nine on another day. *)
Lemma closing_regular loc (dayDate : time.Time) :
  spec.business_regular loc (time.Time.days dayDate) = true →
  spec.closing loc dayDate
  = spec.nine loc (time.Time.days dayDate)
    + (if decide (time.Time.Weekday dayDate = time.Friday)
       then 6 * time.secondsPerHour + 30 * time.secondsPerMinute
       else 8 * time.secondsPerHour).
Proof.
  unfold spec.business_regular, spec.closing. intros Hreg.
  destruct (time.lookup loc _) as [[o s] e].
  repeat (apply andb_true_iff in Hreg as [Hreg ?]).
  destruct (decide _); [|apply Z.eqb_eq; assumption].
  rewrite Z.add_assoc. apply Z.eqb_eq; assumption.
Qed.

(** In a regular week every candidate of day offset [d] lies on the
    [d]-th day after the reference day, a weekday, between a minute
    before nine and closing time on the wall clock. *)
Lemma dayCandidates_local loc minS ss d c :
  time.Loc ss = loc →
  spec.tx_sorted loc = true →
  spec.week_regular ss = true →
  0 <= d < 7 →
  In c (spec.dayCandidates loc minS ss d) →
  let dn := time.Time.days ss + d in
  let st := time.Time.In c.1 loc in
  let en := time.Time.In c.2 loc in
  spec.isWeekend (spec.weekdayOfDay dn) = false
  ∧ time.Time.days st = dn ∧ time.Time.days en = dn
  ∧ spec.clockNanos 9 0 - time.Minute < spec.wallNanos st
  ∧ spec.wallNanos en = spec.wallNanos st + logic.SlotDuration
  ∧ spec.wallNanos en
    <= (if decide (spec.weekdayOfDay dn = time.Friday)
        then spec.clockNanos 15 30 else spec.clockNanos 17 0)
  ∧ time.UnixNano minS - time.Minute < time.UnixNano c.1.
Proof.
  intros Hloc Hsorted Hweek Hd Hin; cbv zeta.
  apply dayCandidates_window in Hin as (Hw & H9 & Hmin & Hdur & Hend);
    cbv zeta in *.
  pose proof (calendar_regular_days ss d (week_regular_calendar _ Hweek) Hd) as Hday.
  rewrite Weekday_days, Hday in Hw.
  pose proof (week_regular_business ss d Hweek Hd Hw) as Hreg.
  rewrite Hloc in Hreg.
  rewrite closing_regular in Hend by (rewrite Hday; exact Hreg).
  rewrite Weekday_days, Hday in Hend. rewrite Hday in H9.
  set (dn := time.Time.days ss + d) in *.
  set (u9 := spec.nine loc dn) in *.
  assert (Hclose : (if decide (spec.weekdayOfDay dn = time.Friday)
                    then 6 * time.secondsPerHour + 30 * time.secondsPerMinute
                    else 8 * time.secondsPerHour) <= 8 * time.secondsPerHour)
    by (destruct (decide _); unfold_units; lia).
  destruct (business_hours_local loc dn (time.UnixNano c.1) Hsorted Hreg)
    as [Hd1 Hw1]; [unfold_units; lia|].
  destruct (business_hours_local loc dn (time.UnixNano c.2) Hsorted Hreg)
    as [Hd2 Hw2]; [unfold_units; lia|].
  unfold time.Time.In. rewrite Hw1, Hw2.
  repeat split; try assumption; try (unfold_units; lia).
  destruct (decide _); unfold_units; lia.
Qed.

End RegularWeek.

(* ===================================================================== *)
(** * Properties of the slot generator *)
(* ===================================================================== *)

Section GeneratorProperties.

Import models.

Local Ltac unfold_units :=
  unfold logic.SlotDuration, spec.clockNanos, time.Hour, time.Minute, time.Second,
    time.Millisecond, time.Microsecond, time.Nanosecond, time.secondsPerDay,
    time.secondsPerHour, time.secondsPerMinute, time.unixToInternal in *.

Lemma filter_none {A} (f : A → bool) (l : list A) :
  (∀ x, In x l → f x = false) → List.filter f l = [].
Proof.
  induction l as [|a l IH]; intros H; cbn; [reflexivity|].
  rewrite (H a) by (left; reflexivity).
  apply IH. intros x Hx. apply H. right; exact Hx.
Qed.

Lemma filter_split_len {A} (f : A → bool) (l : list A) :
  main.len l
  = main.len (List.filter (fun x => negb (f x)) l) + main.len (List.filter f l).
Proof.
  unfold main.len.
  induction l as [|a l IH]; cbn; [reflexivity|].
  destruct (f a); cbn; lia.
Qed.

(** Any seven consecutive days hold five weekdays. *)
Lemma businessDaysFrom_five dn : spec.businessDaysFrom dn = 5.
Proof.
  unfold spec.businessDaysFrom. rewrite dayOffsets_eq.
  unfold spec.weekdayOfDay.
  assert (Hmod : ∀ d, (dn + d + 4) mod 7 = ((dn + 4) mod 7 + d) mod 7)
    by (intros d; rewrite Z.add_mod_idemp_l by lia; f_equal; lia).
  cbn [List.filter]. rewrite !Hmod.
  pose proof (Z.mod_pos_bound (dn + 4) 7 ltac:(lia)) as Hr.
  generalize dependent ((dn + 4) mod 7). intros r _ Hr.
  assert (r = 0 ∨ r = 1 ∨ r = 2 ∨ r = 3 ∨ r = 4 ∨ r = 5 ∨ r = 6) as Hcases by lia.
  repeat (destruct Hcases as [->|Hcases]); try subst r; reflexivity.
Qed.

(** X3.  No returned slot starts a minute or more before the end of the
    two-hour buffer. *)
Lemma slot_start_near_buffer tzdb busy ref slot :
  In slot (logic.GenerateAvailableSlots tzdb busy ref).1.1 →
  time.UnixNano ref + 2 * time.Hour - time.Minute < time.UnixNano (Start slot).
Proof.
  intros Hin. apply returned_slot_candidate in Hin as (c & -> & Hc & _).
  apply allCandidates_day in Hc as (d & Hd & Hc).
  apply dayCandidates_window in Hc as (_ & _ & Hmin & _).
  exact Hmin.
Qed.

Lemma slot_start_near_buffer_witness :
  let ref := time.Date 2026 11 2 8 0 0 0 tzdata.LosAngeles in
  let slot :=
    logic.formatSlot (time.Date 2026 11 2 10 0 0 0 tzdata.LosAngeles)
                     (time.Date 2026 11 2 10 30 0 0 tzdata.LosAngeles) in
  In slot (logic.GenerateAvailableSlots tzdata.embedded [] ref).1.1
  ∧ time.UnixNano ref + 2 * time.Hour - time.Minute < time.UnixNano (Start slot).
Proof.
  cbv zeta.
  assert (Hin : In (logic.formatSlot
                      (time.Date 2026 11 2 10 0 0 0 tzdata.LosAngeles)
                      (time.Date 2026 11 2 10 30 0 0 tzdata.LosAngeles))
                   (logic.GenerateAvailableSlots tzdata.embedded []
                      (time.Date 2026 11 2 8 0 0 0 tzdata.LosAngeles)).1.1)
    by (vm_compute; left; reflexivity).
  split; [exact Hin|].
  exact (slot_start_near_buffer tzdata.embedded [] _ _ Hin).
Defined.

(** C1 (evaluation at the failing input).  Reference Monday 2 November
    2026, 08:00:30 in Los Angeles, no busy interval: the buffer ends at
    10:00:30, the minute is on a half-hour boundary, so nothing is added
    and [Truncate] drops the thirty seconds; the first returned slot
    starts at 10:00:00, before [referenceTime + 2h]. *)
Theorem C1_buffer_cut_short :
  let ref := time.Date 2026 11 2 8 0 30 0 tzdata.LosAngeles in
  ∃ slot rest,
    (logic.GenerateAvailableSlots tzdata.embedded [] ref).1.1 = slot :: rest
    ∧ time.Time.Before (Start slot) (time.Time.Add ref (2 * time.Hour)) = true
    ∧ Date slot = "Monday, November 2, 2026" ∧ Time slot = "10:00 AM"
    ∧ time.UnixNano (time.Time.Add ref (2 * time.Hour)) - time.UnixNano (Start slot)
      = 30 * time.Second.
Proof.
  cbv zeta.
  destruct (logic.GenerateAvailableSlots tzdata.embedded []
              (time.Date 2026 11 2 8 0 30 0 tzdata.LosAngeles)).1.1
    as [|slot rest] eqn:Hrun; [vm_compute in Hrun; discriminate|].
  exists slot, rest. split; [reflexivity|].
  vm_compute in Hrun. injection Hrun as <- _.
  vm_compute. repeat split.
Qed.

(** C2 (counterexample).  Reference Friday 30 October 2026, 14:00 in
    Los Angeles, no busy interval: among the returned slots none is on
    that Friday, so the last Friday slot is not 15:00-15:30. *)
Lemma C2_no_friday_slot_after_two :
  let ref := time.Date 2026 10 30 14 0 0 0 tzdata.LosAngeles in
  let loc := logic.loadLocation tzdata.embedded in
  time.Time.Weekday ref = time.Friday
  ∧ time.Time.Clock ref = (14, 0, 0)
  ∧ ¬ ∃ slot,
        List.last (map Some
                     (spec.slotsOnDay loc (time.Time.days ref)
                        (logic.GenerateAvailableSlots tzdata.embedded [] ref).1.1))
                  None
        = Some slot
        ∧ spec.wallNanos (time.Time.In (Start slot) loc) = spec.clockNanos 15 0
        ∧ spec.wallNanos (time.Time.In (End slot) loc) = spec.clockNanos 15 30.
Proof.
  cbv zeta. split; [reflexivity|]. split; [reflexivity|].
  intros (slot & Hlast & _). vm_compute in Hlast. discriminate.
Qed.

(** C2 (amended).  In a regular week, with the reference on a Friday at
    14:00:00 local time and no busy interval, no returned slot is on
    that Friday: the buffer ends at 16:00, after the Friday closing
    time, so in particular there is no 15:30-16:00 slot. *)
Theorem C2_friday_afternoon_reference tzdb ref :
  let loc := logic.loadLocation tzdb in
  let r := time.Time.In ref loc in
  spec.tx_sorted loc = true →
  spec.week_regular r = true →
  time.Time.Weekday r = time.Friday →
  time.Time.Clock r = (14, 0, 0) →
  time.Time.Nanosecond r = 0 →
  spec.slotsOnDay loc (time.Time.days r)
    (logic.GenerateAvailableSlots tzdb [] ref).1.1 = [].
Proof.
  intros loc r Hsorted Hweek Hfri Hclock Hns.
  apply filter_none. intros slot Hin.
  apply returned_slot_candidate in Hin as (c & -> & Hc & _).
  apply allCandidates_day in Hc as (d & Hd & Hc). fold loc r in Hc.
  pose proof (dayCandidates_local loc _ r d c eq_refl Hsorted Hweek Hd Hc) as Hloc.
  cbv zeta in Hloc.
  destruct Hloc as (_ & Hday & _ & _ & Hdur & Hend & Hmin).
  unfold spec.slotOf, logic.formatSlot; cbn [Start].
  rewrite Hday. apply Z.eqb_neq. intros Heq.
  assert (d = 0) by lia. subst d. clear Heq.
  (* the candidate would be one of the reference day *)
  apply dayCandidates_window in Hc as (_ & _ & _ & Hdur' & Hclose).
  cbv zeta in Hclose.
  pose proof (calendar_regular_days r 0 (week_regular_calendar _ Hweek) Hd) as Hd0.
  rewrite Z.add_0_r in Hd0.
  assert (Hw : spec.isWeekend (spec.weekdayOfDay (time.Time.days r + 0)) = false)
    by (rewrite Z.add_0_r, <- Weekday_days, Hfri; reflexivity).
  pose proof (week_regular_business r 0 Hweek Hd Hw) as Hreg.
  rewrite Z.add_0_r in Hreg. change (time.Loc r) with loc in Hreg.
  rewrite closing_regular in Hclose by (rewrite Hd0; exact Hreg).
  rewrite Weekday_days, Hd0, <- Weekday_days, Hfri in Hclose.
  rewrite decide_True in Hclose by reflexivity.
  (* the reference is five hours after nine *)
  unfold spec.week_regular in Hweek.
  apply andb_true_iff in Hweek as [_ Hzone].
  rewrite <- Weekday_days, Hfri in Hzone.
  change (spec.isWeekend time.Friday) with false in Hzone.
  cbn [orb] in Hzone. change (time.Loc r) with loc in Hzone.
  unfold spec.business_regular in Hreg.
  set (u9 := spec.nine loc (time.Time.days r)) in *.
  destruct (time.lookup loc u9) as [[o s] e] eqn:Hl.
  apply andb_true_iff in Hzone as [Hs He].
  apply Z.leb_le in Hs. apply Z.ltb_lt in He.
  pose proof (zoneOffset_stable loc u9 o s e (time.Time.Unix r) Hsorted Hl
                (conj Hs He)) as Ho.
  repeat (apply andb_true_iff in Hreg as [Hreg _]). apply Z.eqb_eq in Hreg.
  unfold time.Time.Clock, time.Time.Hour, time.Time.Minute, time.Time.Second in Hclock.
  injection Hclock as Hh Hm Hsec.
  assert (Habs : time.Time.abs r
                 = time.Time.days r * time.secondsPerDay + 14 * time.secondsPerHour).
  { unfold time.Time.days. revert Hh Hm Hsec. unfold_units.
    generalize (time.Time.abs r). intros a Hh Hm Hsec.
    Z.div_mod_to_equations. lia. }
  unfold time.Time.abs in Habs. change (time.Loc r) with loc in Habs.
  rewrite Ho in Habs.
  unfold time.Time.Nanosecond, time.Time.Unix in *.
  change (time.UnixNano r) with (time.UnixNano ref) in *.
  revert Hns Habs Hreg Hmin Hdur' Hclose. unfold time.Time.Add; cbn [time.UnixNano].
  unfold_units. intros Hns Habs Hreg Hmin Hdur' Hclose.
  pose proof (Z.div_mod (time.UnixNano ref) (1000 * (1000 * (1000 * 1))) ltac:(lia)).
  lia.
Qed.

(** A witness: Friday 30 October 2026, 14:00 in Los Angeles; the week
    holds the end of daylight time. *)
Lemma C2_friday_afternoon_reference_witness :
  let ref := time.Date 2026 10 30 14 0 0 0 tzdata.LosAngeles in
  let loc := logic.loadLocation tzdata.embedded in
  let r := time.Time.In ref loc in
  (spec.tx_sorted loc = true ∧ spec.week_regular r = true
   ∧ time.Time.Weekday r = time.Friday ∧ time.Time.Clock r = (14, 0, 0)
   ∧ time.Time.Nanosecond r = 0)
  ∧ spec.slotsOnDay loc (time.Time.days r)
      (logic.GenerateAvailableSlots tzdata.embedded [] ref).1.1 = [].
Proof.
  cbv zeta.
  split; [split; [|split; [|split; [|split]]]; vm_compute; reflexivity|].
  apply (C2_friday_afternoon_reference tzdata.embedded
           (time.Date 2026 10 30 14 0 0 0 tzdata.LosAngeles));
    vm_compute; reflexivity.
Defined.

End GeneratorProperties.

Section GeneratorClaims.

Import models.

Local Ltac unfold_units :=
  unfold logic.SlotDuration, spec.clockNanos, time.Hour, time.Minute, time.Second,
    time.Millisecond, time.Microsecond, time.Nanosecond, time.secondsPerDay,
    time.secondsPerHour, time.secondsPerMinute, time.unixToInternal in *.

Lemma slotOf_inj c c' : spec.slotOf c = spec.slotOf c' → c = c'.
Proof.
  destruct c as [s e], c' as [s' e']. unfold spec.slotOf, logic.formatSlot; cbn.
  intros H. injection H as _ _ -> ->. reflexivity.
Qed.

(** C3.  [isBusy] holds exactly when some busy interval [bs, be)
    satisfies [start < be] and [end > bs], both strict; a candidate is
    returned exactly when it is not busy; and a busy interval
    09:00-09:30 does not exclude the candidate 09:30-10:00 of that day. *)
Theorem C3_busy_is_half_open_overlap :
  (∀ start end_ busy,
     logic.isBusy start end_ busy = true
     ↔ ∃ b, In b busy
            ∧ time.UnixNano start < time.UnixNano (TimeRange_End b)
            ∧ time.UnixNano (TimeRange_Start b) < time.UnixNano end_)
  ∧ (∀ tzdb busy ref c,
       In c (spec.allCandidates tzdb ref) →
       (In (spec.slotOf c) (logic.GenerateAvailableSlots tzdb busy ref).1.1
        ↔ logic.isBusy c.1 c.2 busy = false))
  ∧ (∀ y m d loc,
       let at_ h mi := time.Date y m d h mi 0 0 loc in
       logic.isBusy (at_ 9 30) (at_ 10 0) [mkTimeRange (at_ 9 0) (at_ 9 30)] = false).
Proof.
  split; [|split].
  - intros start end_ busy. unfold logic.isBusy. rewrite existsb_exists.
    split; intros (b & Hb & H); exists b; (split; [exact Hb|]).
    + apply andb_true_iff in H as [H1 H2].
      unfold time.Time.Before, time.Time.After, time.Time.In in *;
        cbn [time.UnixNano] in *. lia.
    + apply andb_true_iff.
      unfold time.Time.Before, time.Time.After, time.Time.In;
        cbn [time.UnixNano]. lia.
  - intros tzdb busy ref c Hc.
    rewrite GenerateAvailableSlots_candidates; cbn [fst].
    rewrite in_map_iff. split.
    + intros (c' & Heq & Hin). apply slotOf_inj in Heq as ->.
      apply List.filter_In in Hin as [_ Hfree].
      unfold spec.freeCandidate in Hfree. by destruct (logic.isBusy _ _ _).
    + intros Hfree. exists c. split; [reflexivity|].
      apply List.filter_In. split; [exact Hc|].
      unfold spec.freeCandidate. by rewrite Hfree.
  - intros y m d loc at_. unfold logic.isBusy; cbn [existsb TimeRange_End].
    unfold time.Time.Before, time.Time.In; cbn [time.UnixNano].
    rewrite Z.ltb_irrefl. reflexivity.
Qed.

(** C4.  When adding days lands on consecutive calendar days,
    [daysChecked] is the number of days that are neither Saturday nor
    Sunday among the seven calendar days from the reference day on,
    whatever the buffer leaves of them; that number is five. *)
Theorem C4_days_checked_counts_weekdays tzdb busy ref :
  let r := time.Time.In ref (logic.loadLocation tzdb) in
  spec.calendar_regular r = true →
  (logic.GenerateAvailableSlots tzdb busy ref).1.2
  = spec.businessDaysFrom (time.Time.days r)
  ∧ (logic.GenerateAvailableSlots tzdb busy ref).1.2 = 5.
Proof.
  intros r Hcal.
  assert (Heq : (logic.GenerateAvailableSlots tzdb busy ref).1.2
                = spec.businessDaysFrom (time.Time.days r)).
  { rewrite GenerateAvailableSlots_candidates; cbn [fst snd]. fold r.
    unfold spec.businessDaysFrom. f_equal.
    apply filter_ext_in. intros d Hd.
    rewrite Weekday_days, calendar_regular_days; [reflexivity|exact Hcal|].
    rewrite dayOffsets_eq in Hd. cbn [In] in Hd. intuition lia. }
  split; [exact Heq|]. rewrite Heq. apply businessDaysFrom_five.
Qed.

(** A witness: Friday 30 October 2026, 14:00 in Los Angeles, a day the
    buffer consumes, in the week daylight time ends. *)
Lemma C4_days_checked_counts_weekdays_witness :
  let ref := time.Date 2026 10 30 14 0 0 0 tzdata.LosAngeles in
  let r := time.Time.In ref (logic.loadLocation tzdata.embedded) in
  spec.calendar_regular r = true
  ∧ (logic.GenerateAvailableSlots tzdata.embedded [] ref).1.2
    = spec.businessDaysFrom (time.Time.days r)
  ∧ (logic.GenerateAvailableSlots tzdata.embedded [] ref).1.2 = 5.
Proof.
  cbv zeta. split; [vm_compute; reflexivity|].
  apply (C4_days_checked_counts_weekdays tzdata.embedded []
           (time.Date 2026 10 30 14 0 0 0 tzdata.LosAngeles)).
  vm_compute; reflexivity.
Defined.

(** C5.  For every busy list, overlapping or not, [totalSlots] is the
    number of returned slots plus the number of candidates excluded as
    busy. *)
Theorem C5_total_is_free_plus_excluded tzdb busy ref :
  (logic.GenerateAvailableSlots tzdb busy ref).2
  = main.len (logic.GenerateAvailableSlots tzdb busy ref).1.1
    + main.len (List.filter (spec.busyCandidate busy) (spec.allCandidates tzdb ref)).
Proof.
  rewrite GenerateAvailableSlots_candidates; cbn [fst snd].
  rewrite (filter_split_len (spec.busyCandidate busy)).
  unfold main.len. rewrite length_map. reflexivity.
Qed.

(** C6.  In a regular week no returned slot starts on a Saturday or a
    Sunday, every slot ends on the day it starts, and a slot on a Friday
    ends at 15:30 at the latest on the wall clock. *)
Theorem C6_friday_closing_and_weekends tzdb busy ref slot :
  let loc := logic.loadLocation tzdb in
  let st := time.Time.In (Start slot) loc in
  let en := time.Time.In (End slot) loc in
  spec.tx_sorted loc = true →
  spec.week_regular (time.Time.In ref loc) = true →
  In slot (logic.GenerateAvailableSlots tzdb busy ref).1.1 →
  time.Time.Weekday st ≠ time.Saturday
  ∧ time.Time.Weekday st ≠ time.Sunday
  ∧ time.Time.days en = time.Time.days st
  ∧ (time.Time.Weekday st = time.Friday →
     spec.wallNanos en <= spec.clockNanos 15 30).
Proof.
  intros loc st en Hsorted Hweek Hin.
  apply returned_slot_candidate in Hin as (c & -> & Hc & _).
  apply allCandidates_day in Hc as (d & Hd & Hc). fold loc in Hc.
  pose proof (dayCandidates_local loc _ (time.Time.In ref loc) d c eq_refl
                Hsorted Hweek Hd Hc) as Hloc.
  cbv zeta in Hloc.
  destruct Hloc as (Hw & Hday & Hday' & _ & _ & Hend & _).
  subst st en. unfold spec.slotOf, logic.formatSlot; cbn [Start End].
  rewrite !Weekday_days, Hday, Hday'.
  unfold spec.isWeekend in Hw. apply bool_decide_eq_false in Hw.
  split; [tauto|]. split; [tauto|]. split; [reflexivity|].
  intros Hfri.
  rewrite decide_True in Hend by exact Hfri. exact Hend.
Qed.

(** A witness: reference Friday 30 October 2026, 08:00 in Los Angeles;
    the first returned slot is that Friday's 10:00-10:30. *)
Lemma C6_friday_closing_and_weekends_witness :
  let ref := time.Date 2026 10 30 8 0 0 0 tzdata.LosAngeles in
  let loc := logic.loadLocation tzdata.embedded in
  let slot :=
    logic.formatSlot (time.Date 2026 10 30 10 0 0 0 tzdata.LosAngeles)
                     (time.Date 2026 10 30 10 30 0 0 tzdata.LosAngeles) in
  let st := time.Time.In (Start slot) loc in
  let en := time.Time.In (End slot) loc in
  (spec.tx_sorted loc = true
   ∧ spec.week_regular (time.Time.In ref loc) = true
   ∧ In slot (logic.GenerateAvailableSlots tzdata.embedded [] ref).1.1)
  ∧ time.Time.Weekday st ≠ time.Saturday
  ∧ time.Time.Weekday st ≠ time.Sunday
  ∧ time.Time.days en = time.Time.days st
  ∧ (time.Time.Weekday st = time.Friday →
     spec.wallNanos en <= spec.clockNanos 15 30).
Proof.
  cbv zeta.
  assert (Hin : In (logic.formatSlot
                      (time.Date 2026 10 30 10 0 0 0 tzdata.LosAngeles)
                      (time.Date 2026 10 30 10 30 0 0 tzdata.LosAngeles))
                   (logic.GenerateAvailableSlots tzdata.embedded []
                      (time.Date 2026 10 30 8 0 0 0 tzdata.LosAngeles)).1.1)
    by (vm_compute; left; reflexivity).
  split; [split; [|split]; [vm_compute; reflexivity ..|exact Hin]|].
  apply (C6_friday_closing_and_weekends tzdata.embedded []
           (time.Date 2026 10 30 8 0 0 0 tzdata.LosAngeles));
    [vm_compute; reflexivity ..|exact Hin].
Defined.

(** C10.  [daysChecked] and [totalSlots] are the same for any two busy
    lists: they depend on the reference instant (and the zone data)
    only. *)
Theorem C10_counts_independent_of_busy tzdb ref busy1 busy2 :
  (logic.GenerateAvailableSlots tzdb busy1 ref).1.2
  = (logic.GenerateAvailableSlots tzdb busy2 ref).1.2
  ∧ (logic.GenerateAvailableSlots tzdb busy1 ref).2
    = (logic.GenerateAvailableSlots tzdb busy2 ref).2.
Proof.
  rewrite !GenerateAvailableSlots_candidates. cbn [fst snd].
  split; reflexivity.
Qed.

End GeneratorClaims.

(* ===================================================================== *)
(** * The agent resolver *)
(* ===================================================================== *)

Section AgentResolver.

Import models.

(** ** Normalizing a label *)

Lemma substring_all (s : string) : String.substring 0 (String.length s) s = s.
Proof. induction s as [|a s IH]; cbn; [reflexivity | rewrite IH; reflexivity]. Qed.

(** The white space pattern found at a leading ASCII white space
    character is that character. *)
Lemma find_space c s :
  spec.asciiSpace c = true →
  find (fun p => String.prefix p (String c s)) strings.spaces = Some (String c "").
Proof.
  intros Hc.
  destruct c as [[] [] [] [] [] [] [] []];
    try (vm_compute in Hc; discriminate Hc);
    destruct s; vm_compute; reflexivity.
Qed.

(** A leading ASCII white space character is trimmed. *)
Lemma TrimLeftSpace_space c s :
  spec.asciiSpace c = true →
  strings.TrimLeftSpace (String c s) = strings.TrimLeftSpace s.
Proof.
  intros Hc. unfold strings.TrimLeftSpace.
  cbn [String.length strings.trimPrefixes]. rewrite (find_space c s Hc).
  cbn [String.length].
  replace (S (String.length s) - 1)%nat with (String.length s) by lia.
  change (String.substring 1 (String.length s) (String c s))
    with (String.substring 0 (String.length s) s).
  rewrite substring_all. reflexivity.
Qed.

(** C7.  [MapAgent] returns the table record of the first label, in
    input order, whose normalized form is a key of the zone table, with
    that original label as zone group; it returns [nil] exactly when no
    label matches; and for the labels "ops", "PD2", "pd1" it returns
    the PD2 record.  The normalized form is the label with its white
    space trimmed and in upper case: a label of one character is
    dropped when it is white space and is otherwise its upper-case
    letter, or itself when it is no lower-case letter; leading white
    space does not count; "  pd3 " gives "PD3", a label between a
    non-breaking space and a tab and line feed gives "PD1", and the
    space inside "P D1" stays; so the labels " ops ", a tab, "pd2" and a
    line feed, and "PD1" give the PD2 record with that second label as
    zone group. *)
Theorem C7_first_normalized_match :
  (∀ unicodeUpper groups,
     match mapper.MapAgent unicodeUpper groups with
     | Some found =>
         ∃ before group after agent,
           groups = before ++ group :: after
           ∧ (∀ g, In g before →
                mapper.PDAgentMap
                  !! spec.normalize unicodeUpper (AppFolioGroup_Name g) = None)
           ∧ mapper.PDAgentMap
               !! spec.normalize unicodeUpper (AppFolioGroup_Name group)
             = Some agent
           ∧ found = spec.withZoneGroup agent (AppFolioGroup_Name group)
     | None =>
         ∀ g, In g groups →
           mapper.PDAgentMap
             !! spec.normalize unicodeUpper (AppFolioGroup_Name g) = None
     end)
  ∧ (∀ unicodeUpper id1 id2 id3,
       mapper.MapAgent unicodeUpper
         [mkAppFolioGroup id1 "ops"; mkAppFolioGroup id2 "PD2";
          mkAppFolioGroup id3 "pd1"]
       = Some (mkAgentInfo "dcb80b8a-66bd-11ee-b6c3-02094d1ce055" "Elizabeth"
                 "elizabeth@ltrealestateco.com" "PD2" "PD2"))
  ∧ (∀ unicodeUpper c,
       spec.normalize unicodeUpper (String c "")
       = if spec.asciiSpace c then ""
         else if (nat_of_ascii c <? 128)%nat then String (spec.asciiUpper c) ""
         else unicodeUpper (String c ""))
  ∧ (∀ unicodeUpper c label,
       spec.asciiSpace c = true →
       spec.normalize unicodeUpper (String c label)
       = spec.normalize unicodeUpper label)
  ∧ (∀ unicodeUpper,
       spec.normalize unicodeUpper "  pd3 " = "PD3"
       ∧ spec.normalize unicodeUpper
           (strings.bytes [194; 160]%nat +:+ "Pd1" +:+ strings.bytes [9; 10]%nat)
         = "PD1"
       ∧ spec.normalize unicodeUpper "P D1" = "P D1"
       ∧ spec.normalize unicodeUpper "abcdefghijklmnopqrstuvwxyz-0123456789"
         = "ABCDEFGHIJKLMNOPQRSTUVWXYZ-0123456789")
  ∧ (∀ unicodeUpper id1 id2 id3,
       mapper.MapAgent unicodeUpper
         [mkAppFolioGroup id1 " ops ";
          mkAppFolioGroup id2 (strings.bytes [9]%nat +:+ "pd2" +:+ main.LF);
          mkAppFolioGroup id3 "PD1"]
       = Some (mkAgentInfo "dcb80b8a-66bd-11ee-b6c3-02094d1ce055" "Elizabeth"
                 "elizabeth@ltrealestateco.com" "PD2"
                 (strings.bytes [9]%nat +:+ "pd2" +:+ main.LF))).
Proof.
  split; [|split; [|split; [|split; [|split]]]].
  - intros unicodeUpper groups.
    induction groups as [|group groups IH]; cbn [mapper.MapAgent].
    + intros g [].
    + fold (spec.normalize unicodeUpper (AppFolioGroup_Name group)).
      destruct (mapper.PDAgentMap
                  !! spec.normalize unicodeUpper (AppFolioGroup_Name group))
        as [agent|] eqn:Hlook.
      * exists [], group, groups, agent.
        split; [reflexivity|]. split; [intros g []|].
        split; [exact Hlook | reflexivity].
      * destruct (mapper.MapAgent unicodeUpper groups) as [found|].
        -- destruct IH as (before & g0 & after & agent & -> & Hbefore & Hg0 & ->).
           exists (group :: before), g0, after, agent.
           split; [reflexivity|]. split; [|split; [exact Hg0 | reflexivity]].
           intros g [<-|Hg]; [exact Hlook | apply Hbefore, Hg].
        -- intros g [<-|Hg]; [exact Hlook | apply IH, Hg].
  - intros unicodeUpper id1 id2 id3. reflexivity.
  - intros unicodeUpper [[] [] [] [] [] [] [] []]; reflexivity.
  - intros unicodeUpper c label Hc. unfold spec.normalize, strings.TrimSpace.
    rewrite (TrimLeftSpace_space c label Hc). reflexivity.
  - intros unicodeUpper. repeat split; reflexivity.
  - intros unicodeUpper id1 id2 id3. reflexivity.
Qed.

End AgentResolver.

(* ===================================================================== *)
(** * Strings *)
(* ===================================================================== *)

Section StringFacts.

Lemma string_app_cons a (s t : string) : String a s +:+ t = String a (s +:+ t).
Proof. reflexivity. Qed.

Lemma string_app_nil_l (s : string) : "" +:+ s = s.
Proof. reflexivity. Qed.

Lemma string_app_nil_r (s : string) : s +:+ "" = s.
Proof.
  induction s as [|a s IH]; [reflexivity|].
  rewrite string_app_cons, IH. reflexivity.
Qed.

Lemma string_app_assoc (s t u : string) : (s +:+ t) +:+ u = s +:+ (t +:+ u).
Proof.
  induction s as [|a s IH]; [reflexivity|].
  rewrite !string_app_cons, IH. reflexivity.
Qed.

Lemma concat_cons (x : string) (l : list string) :
  String.concat "" (x :: l) = x +:+ String.concat "" l.
Proof.
  destruct l as [|y l]; cbn [String.concat].
  - symmetry. apply string_app_nil_r.
  - rewrite string_app_nil_l. reflexivity.
Qed.

Lemma contains_middle (pre sub post : string) :
  spec.contains (pre +:+ sub +:+ post) sub.
Proof. exists pre, post. reflexivity. Qed.

End StringFacts.

(* ===================================================================== *)
(** * The message formatter *)
(* ===================================================================== *)

Section Formatter.

Import models.

(** ** Grouping *)

Lemma firstSeen_snoc (l : list string) (x : string) :
  spec.firstSeen (l ++ [x])
  = if existsb (String.eqb x) l then spec.firstSeen l else spec.firstSeen l ++ [x].
Proof.
  induction l as [|a l IH]; [reflexivity|].
  cbn [app spec.firstSeen existsb]. rewrite IH.
  destruct (String.eqb_spec x a) as [->|Hne]; cbn [orb].
  - destruct (existsb (String.eqb a) l); [reflexivity|].
    rewrite List.filter_app. cbn [List.filter].
    rewrite String.eqb_refl. cbn [negb]. rewrite app_nil_r. reflexivity.
  - destruct (existsb (String.eqb x) l); [reflexivity|].
    rewrite List.filter_app. cbn [List.filter].
    destruct (String.eqb_spec x a); [contradiction|]. reflexivity.
Qed.

Lemma timesOn_snoc date (l : list TimeSlot) (x : TimeSlot) :
  spec.timesOn date (l ++ [x])
  = spec.timesOn date l ++ (if String.eqb (Date x) date then [Time x] else []).
Proof.
  unfold spec.timesOn. rewrite List.filter_app, map_app. cbn [List.filter].
  destruct (String.eqb (Date x) date); reflexivity.
Qed.

Lemma timesOn_none date (l : list TimeSlot) :
  existsb (String.eqb date) (map Date l) = false → spec.timesOn date l = [].
Proof.
  unfold spec.timesOn. induction l as [|a l IH]; [reflexivity|].
  cbn [map existsb List.filter]. intros H.
  apply orb_false_iff in H as [Ha Hl].
  rewrite String.eqb_sym, Ha. apply IH, Hl.
Qed.

Lemma timesOn_some date (l : list TimeSlot) :
  existsb (String.eqb date) (map Date l) = true → spec.timesOn date l ≠ [].
Proof.
  unfold spec.timesOn. induction l as [|a l IH]; [discriminate|].
  cbn [map existsb List.filter]. intros H.
  destruct (String.eqb_spec date (Date a)) as [->|Hne].
  - rewrite String.eqb_refl. discriminate.
  - cbn [orb] in H. destruct (String.eqb (Date a) date); [discriminate|].
    apply IH, H.
Qed.

(** The grouping loop: the dates in first-seen order, and under each
    date its times in order. *)
Lemma groupSlots_spec (slots : list TimeSlot) :
  ∃ slotsByDate,
    main.groupSlots slots = (slotsByDate, spec.firstSeen (map Date slots))
    ∧ ∀ date,
        slotsByDate !! date
        = if existsb (String.eqb date) (map Date slots)
          then Some (spec.timesOn date slots) else None.
Proof.
  unfold main.groupSlots.
  induction slots as [|x l IH] using rev_ind.
  - exists ∅. split; [reflexivity|]. intros date. apply lookup_empty.
  - destruct IH as (m & Hm & Hlook).
    rewrite foldl_app; cbn [foldl]. rewrite Hm. unfold main.groupStep.
    eexists. split.
    + f_equal. rewrite map_app; cbn [map]. rewrite firstSeen_snoc.
      rewrite (Hlook (Date x)).
      destruct (existsb (String.eqb (Date x)) (map Date l)); reflexivity.
    + intros date. rewrite map_app, existsb_app; cbn [map existsb].
      rewrite orb_false_r, timesOn_snoc.
      destruct (String.eqb_spec date (Date x)) as [->|Hne].
      * rewrite lookup_insert_eq, String.eqb_refl, orb_true_r, (Hlook (Date x)).
        destruct (existsb (String.eqb (Date x)) (map Date l)) eqn:Hex;
          cbn [default]; [reflexivity|].
        rewrite (timesOn_none _ _ Hex). reflexivity.
      * rewrite lookup_insert_ne by congruence.
        rewrite orb_false_r, Hlook.
        destruct (String.eqb_spec (Date x) date); [congruence|].
        rewrite app_nil_r. reflexivity.
Qed.

(** ** Rendering *)

(** The loop over the times of a date, from index [i] on. *)
Lemma timesLoop_spec (n : Z) (times : list string) : ∀ i msg,
  0 <= i →
  main.timesLoop i n times msg
  = msg +:+ String.concat "" (map spec.renderTime (take (Z.to_nat (6 - i)) times))
        +:+ (if (Z.to_nat (6 - i) <? length times)%nat then spec.moreTimes n else "").
Proof.
  induction times as [|t times IH]; intros i msg Hi; cbn [main.timesLoop].
  - rewrite take_nil. cbn [map String.concat length].
    rewrite Nat.ltb_irrefl || (destruct (Z.to_nat (6 - i)); cbn).
    all: rewrite ?string_app_nil_r; reflexivity.
  - destruct (Z.leb_spec 6 i) as [Hge|Hlt].
    + replace (Z.to_nat (6 - i)) with 0%nat by lia.
      cbn [take map String.concat length Nat.ltb Nat.leb].
      rewrite string_app_nil_l. reflexivity.
    + rewrite IH by lia.
      replace (Z.to_nat (6 - i)) with (S (Z.to_nat (6 - (i + 1)))) by lia.
      cbn [take map length]. rewrite concat_cons.
      change (S ?a <? S ?b)%nat with (a <? b)%nat.
      unfold spec.renderTime at 2. rewrite !string_app_assoc. reflexivity.
Qed.

Lemma renderGroup_timesLoop date (times : list string) msg :
  main.timesLoop 0 (main.len times) times (msg +:+ date +:+ ":" +:+ main.LF)
    +:+ main.LF
  = msg +:+ spec.renderGroup (date, times).
Proof.
  rewrite timesLoop_spec by lia. unfold spec.renderGroup; cbn [fst snd].
  change (Z.to_nat (6 - 0)) with 6%nat.
  replace (6 <? main.len times) with (6 <? length times)%nat.
  - rewrite !string_app_assoc. reflexivity.
  - unfold main.len. destruct (Nat.ltb_spec 6 (length times));
      destruct (Z.ltb_spec 6 (Z.of_nat (length times))); lia || reflexivity.
Qed.

(** The loop over the dates, [count] dates rendered before. *)
Lemma datesLoop_spec (slotsByDate : gmap string (list string))
    (orderedDates : list string) : ∀ count msg,
  0 <= count →
  main.datesLoop count slotsByDate orderedDates msg
  = msg +:+ String.concat ""
              (map (fun date =>
                      spec.renderGroup (date, default [] (slotsByDate !! date)))
                   (take (Z.to_nat (5 - count)) orderedDates)).
Proof.
  induction orderedDates as [|date dates IH]; intros count msg Hc;
    cbn [main.datesLoop].
  - rewrite take_nil. cbn [map String.concat]. rewrite string_app_nil_r. reflexivity.
  - destruct (Z.leb_spec 5 count) as [Hge|Hlt].
    + replace (Z.to_nat (5 - count)) with 0%nat by lia.
      cbn [take map String.concat]. rewrite string_app_nil_r. reflexivity.
    + rewrite IH by lia.
      replace (Z.to_nat (5 - count)) with (S (Z.to_nat (5 - (count + 1)))) by lia.
      cbn [take map]. rewrite concat_cons, renderGroup_timesLoop.
      rewrite !string_app_assoc. reflexivity.
Qed.

(** C9.  The message is the one the rules describe: the slots grouped by
    display date in first-seen order, at most five dates, under each
    date at most six times and the line "...N more times available"
    exactly when it has more than six, the line "...and N more days"
    exactly when there are more than five dates, the fully-booked text
    with the number of days checked when there is no slot; and it ends
    with the contact line, which names the agent and the email. *)
Theorem C9_message_follows_rules prop agent avail totalGenerated :
  main.formatMessage prop agent avail totalGenerated = spec.message prop agent avail
  ∧ spec.hasSuffix (main.formatMessage prop agent avail totalGenerated)
                   (spec.contactLine agent avail)
  ∧ spec.contains (spec.contactLine agent avail) (Name agent)
  ∧ spec.contains (spec.contactLine agent avail) (Email agent).
Proof.
  assert (Hmsg : main.formatMessage prop agent avail totalGenerated
                 = spec.message prop agent avail).
  { unfold main.formatMessage, spec.message, spec.header.
    destruct (Slots avail) as [|slot slots] eqn:Hslots.
    - change (main.len [] =? 0) with true; cbv iota.
      unfold spec.contactBooked. rewrite !string_app_assoc. reflexivity.
    - replace (main.len (slot :: slots) =? 0) with false
        by (unfold main.len; cbn [length]; symmetry; apply Z.eqb_neq; lia).
      destruct (groupSlots_spec (slot :: slots)) as (m & -> & Hlook).
      rewrite datesLoop_spec by lia. change (Z.to_nat (5 - 0)) with 5%nat.
      unfold spec.dateGroups. rewrite firstn_map, map_map.
      rewrite (map_ext_in _ (fun date => spec.renderGroup (date, spec.timesOn date (slot :: slots)))).
      2:{ intros date Hin. rewrite Hlook.
          destruct (existsb _ _) eqn:Hex; cbn [default]; [reflexivity|].
          rewrite (timesOn_none _ _ Hex). reflexivity. }
      replace (main.len (map (fun date => (date, spec.timesOn date (slot :: slots)))
                            (spec.firstSeen (map Date (slot :: slots)))))
        with (main.len (spec.firstSeen (map Date (slot :: slots))))
        by (unfold main.len; rewrite length_map; reflexivity).
      unfold spec.contactSlots.
      destruct (5 <? main.len _); rewrite !string_app_assoc; reflexivity. }
  split; [exact Hmsg|]. split.
  - rewrite Hmsg. unfold spec.message, spec.contactLine, spec.hasSuffix.
    destruct (Slots avail) as [|slot slots]; eexists;
      rewrite <- !string_app_assoc; reflexivity.
  - unfold spec.contactLine, spec.contactBooked, spec.contactSlots.
    destruct (Slots avail); split.
    + apply contains_middle.
    + rewrite <- !string_app_assoc, string_app_assoc. apply contains_middle.
    + apply contains_middle.
    + rewrite <- !string_app_assoc, string_app_assoc. apply contains_middle.
Qed.

End Formatter.

(* ===================================================================== *)
(** * The pipeline orchestrator *)
(* ===================================================================== *)

Section Pipeline.

Import models.

(** C8.  When the property, its groups and the agent are resolved and
    the credential fetch for the agent's email fails, the invocation
    returns status 200 with the JSON content type and a response body
    with [success] false, the id, name, address, city and state of the
    property that was resolved, the agent that was resolved, the empty
    availability (no slots, zero counts), the message that calendar
    access is unavailable, and a formatted message that contains the
    agent's email. *)
Theorem C8_credential_failure_response env req extractedPropertyID
    propID prop groups agent e :
  main.Query req ≠ "" →
  (extractedPropertyID ≠ "" ∧ propID = extractedPropertyID
   ∨ extractedPropertyID = ""
     ∧ main.FindPropertyID env (main.Query req) = main.Ok propID) →
  main.GetProperty env propID = main.Ok prop →
  main.GetPropertyGroups env (PropertyGroupIds prop) = main.Ok groups →
  mapper.MapAgent (main.unicodeUpper env) groups = Some agent →
  main.GetAccessToken env (Email agent) = main.Err e →
  ∃ resp,
    main.HandleRequest env req extractedPropertyID
    = main.Returned
        (main.mkLambdaResponse 200 [("Content-Type", "application/json")]
           (main.ResponseBody resp))
    ∧ Success resp = false
    ∧ Property resp
      = mkPropertyInfo (AppFolioProperty_ID prop) (AppFolioProperty_Name prop)
                       (Address1 prop) (City prop) (State prop)
    ∧ Agent resp = agent
    ∧ Availability_ resp = Availability_zero
    ∧ TotalSlotsAvailable (Availability_ resp) = 0
    ∧ DaysChecked (Availability_ resp) = 0
    ∧ Slots (Availability_ resp) = []
    ∧ Message resp = "Agent calendar access unavailable."
    ∧ spec.contains (FormattedMsg resp) (Email agent).
Proof.
  intros Hquery Hid Hprop Hgroups Hagent Htoken.
  unfold main.HandleRequest.
  apply String.eqb_neq in Hquery. rewrite Hquery.
  assert (Hfound : (if negb (String.eqb extractedPropertyID "")
                    then main.Ok extractedPropertyID
                    else main.FindPropertyID env (main.Query req))
                   = main.Ok propID).
  { destruct Hid as [[Hne ->]|[-> Hfind]].
    - apply String.eqb_neq in Hne. rewrite Hne. reflexivity.
    - exact Hfind. }
  rewrite Hfound, Hprop, Hgroups, Hagent, Htoken.
  eexists. split; [reflexivity|].
  cbn [Success Property Agent Availability_ Message FormattedMsg].
  repeat (split; [reflexivity|]).
  rewrite <- !string_app_assoc, string_app_assoc. apply contains_middle.
Qed.

(** A witness: the search finds a property of group "PD2", whose agent
    has no stored credential. *)
Lemma C8_credential_failure_response_witness :
  let prop := mkAppFolioProperty "p-1" "Maple Court" "12 Maple St" "Fresno" "CA"
                                 ["g-7"; "g-9"] in
  let groups := [mkAppFolioGroup "g-7" "ops"; mkAppFolioGroup "g-9" " pd2 "] in
  let agent := mkAgentInfo "dcb80b8a-66bd-11ee-b6c3-02094d1ce055" "Elizabeth"
                           "elizabeth@ltrealestateco.com" "PD2" " pd2 " in
  let env :=
    main.mkEnv (fun _ => main.Ok "p-1") (fun _ => main.Ok prop)
               (fun _ => main.Ok groups)
               (fun email => main.Err ("no token found for email: " +:+ email))
               (fun _ _ _ _ => main.Ok [])
               (time.Date 2026 10 30 14 0 0 0 time.UTC)
               tzdata.embedded (fun s => s) in
  let req := main.mkRequest "12 Maple St" "" in
  ∃ resp,
    main.HandleRequest env req ""
    = main.Returned
        (main.mkLambdaResponse 200 [("Content-Type", "application/json")]
           (main.ResponseBody resp))
    ∧ Success resp = false
    ∧ Property resp
      = mkPropertyInfo (AppFolioProperty_ID prop) (AppFolioProperty_Name prop)
                       (Address1 prop) (City prop) (State prop)
    ∧ Agent resp = agent
    ∧ Availability_ resp = Availability_zero
    ∧ TotalSlotsAvailable (Availability_ resp) = 0
    ∧ DaysChecked (Availability_ resp) = 0
    ∧ Slots (Availability_ resp) = []
    ∧ Message resp = "Agent calendar access unavailable."
    ∧ spec.contains (FormattedMsg resp) (Email agent).
Proof.
  cbv zeta.
  eapply (C8_credential_failure_response _ _ "" "p-1").
  - discriminate.
  - right. split; reflexivity.
  - reflexivity.
  - reflexivity.
  - reflexivity.
  - reflexivity.
Defined.

End Pipeline.

(* ===================================================================== *)
(** * Fixed zones are regular

    A location without transitions (UTC, the generator's fallback, or
    any [FixedZone]) makes every week regular, so that the properties
    of regular weeks hold for every reference instant there. *)
(* ===================================================================== *)

Section FixedZones.

Import models.

Local Ltac unfold_units :=
  unfold logic.SlotDuration, spec.clockNanos, time.Hour, time.Minute, time.Second,
    time.Millisecond, time.Microsecond, time.Nanosecond, time.secondsPerDay,
    time.secondsPerHour, time.secondsPerMinute, time.unixToInternal in *.

Lemma lookup_fixed l sec :
  time.tx l = [] → time.lookup l sec = (time.zone0 l, time.alpha, time.omega).
Proof. unfold time.lookup. intros ->. reflexivity. Qed.

Lemma unixOfWall_fixed l unix :
  time.tx l = [] → time.unixOfWall l unix = unix - time.zone0 l.
Proof.
  intros Hl. unfold time.unixOfWall, time.zoneOffset.
  rewrite !lookup_fixed by exact Hl. cbn [fst].
  destruct (Z.eqb_spec (time.zone0 l) 0) as [->|_]; [lia|].
  destruct (_ || _); reflexivity.
Qed.

Lemma calendar_regular_fixed t :
  time.tx (time.Loc t) = [] → spec.calendar_regular t = true.
Proof.
  intros Hl. unfold spec.calendar_regular. apply forallb_forall. intros d _.
  apply Z.eqb_eq.
  unfold time.Time.days at 1, time.Time.abs, time.Time.Unix, time.zoneOffset.
  rewrite AddDate_Loc, lookup_fixed by exact Hl. cbn [fst].
  rewrite AddDate_days_unix, unixOfWall_fixed by exact Hl.
  unfold time.Time.Nanosecond.
  pose proof (Z.mod_pos_bound (time.UnixNano t) time.Second ltac:(unfold_units; lia)).
  revert H. generalize (time.UnixNano t mod time.Second).
  generalize (time.Time.days t), (time.Time.abs t), (time.zone0 (time.Loc t)).
  unfold_units. intros dn a o ns Hns.
  Z.div_mod_to_equations. lia.
Qed.

(** The instants Go can hold comfortably: Unix seconds well inside int64. *)
Lemma week_regular_fixed t :
  time.tx (time.Loc t) = [] →
  - 2 ^ 62 <= time.Time.Unix t <= 2 ^ 62 →
  - 2 ^ 20 <= time.zone0 (time.Loc t) <= 2 ^ 20 →
  spec.week_regular t = true.
Proof.
  intros Hl Hrange Hoff. unfold spec.week_regular.
  rewrite calendar_regular_fixed by exact Hl. cbn [andb].
  assert (Hdn : - 2 ^ 62 - 2 ^ 21 <= time.Time.days t * 86400 <= 2 ^ 62 + 2 ^ 21).
  { unfold time.Time.days, time.Time.abs, time.zoneOffset.
    rewrite lookup_fixed by exact Hl. cbn [fst]. unfold_units.
    revert Hrange Hoff.
    generalize (time.Time.Unix t), (time.zone0 (time.Loc t)). intros u o Hu Ho.
    change (2 ^ 62) with 4611686018427387904 in *.
    change (2 ^ 20) with 1048576 in *. change (2 ^ 21) with 2097152.
    change (24 * (60 * 60)) with 86400.
    Z.div_mod_to_equations. lia. }
  apply andb_true_iff. split.
  - apply forallb_forall. intros d Hd.
    rewrite dayOffsets_eq in Hd. cbn [In] in Hd.
    assert (0 <= d < 7) by intuition lia. clear Hd.
    apply orb_true_iff. right.
    unfold spec.business_regular, spec.nine.
    rewrite !unixOfWall_fixed, lookup_fixed by exact Hl.
    unfold time.alpha, time.omega. unfold_units.
    change (2 ^ 62) with 4611686018427387904 in *.
    change (2 ^ 63) with 9223372036854775808.
    change (2 ^ 20) with 1048576 in *. change (2 ^ 21) with 2097152 in *.
    repeat (apply andb_true_iff; split);
      first [apply Z.eqb_eq | apply Z.leb_le | apply Z.ltb_lt]; lia.
  - apply orb_true_iff. right.
    rewrite lookup_fixed by exact Hl.
    unfold time.alpha, time.omega.
    change (2 ^ 62) with 4611686018427387904 in *.
    change (2 ^ 63) with 9223372036854775808.
    apply andb_true_iff; split; [apply Z.leb_le | apply Z.ltb_lt]; lia.
Qed.

(** Without the Los Angeles zone the generator works in UTC, and
    examines five business days whatever the reference instant. *)
Lemma fallback_days_checked tzdb busy ref :
  tzdb "America/Los_Angeles" = None →
  (logic.GenerateAvailableSlots tzdb busy ref).1.2 = 5.
Proof.
  intros Hdb.
  rewrite GenerateAvailableSlots_candidates; cbn [fst snd].
  transitivity (spec.businessDaysFrom
                  (time.Time.days (time.Time.In ref (logic.loadLocation tzdb))));
    [|apply businessDaysFrom_five].
  unfold spec.businessDaysFrom. f_equal.
  apply filter_ext_in. intros d Hd.
  rewrite Weekday_days, calendar_regular_days; [reflexivity| |].
  - apply calendar_regular_fixed. unfold logic.loadLocation. rewrite Hdb. reflexivity.
  - rewrite dayOffsets_eq in Hd. cbn [In] in Hd. intuition lia.
Qed.

End FixedZones.

(* ===================================================================== *)
(** * The Los Angeles excerpt is regular

    The conditions on zone data hold for the table [tzdata.LosAngeles]:
    its transitions all fall on a Sunday at two o'clock at night, so
    every week of the table is regular. *)
(* ===================================================================== *)

Section LosAngeles.

Local Ltac unfold_units :=
  unfold logic.SlotDuration, spec.clockNanos, time.Hour, time.Minute, time.Second,
    time.Millisecond, time.Microsecond, time.Nanosecond, time.secondsPerDay,
    time.secondsPerHour, time.secondsPerMinute, time.unixToInternal in *.

Lemma lookup_from_period tx : ∀ o0 s0 sec,
  In (time.lookup_from o0 s0 tx sec) (spec.periods_from o0 s0 tx).
Proof.
  induction tx as [|t rest IH]; intros o0 s0 sec; cbn.
  - left; reflexivity.
  - destruct (sec <? time.when t); [left; reflexivity | right; apply IH].
Qed.

Lemma lookup_from_bounds tx : ∀ o0 s0 sec o s e,
  s0 <= sec < time.omega →
  time.lookup_from o0 s0 tx sec = (o, s, e) → s <= sec < e.
Proof.
  induction tx as [|t rest IH]; intros o0 s0 sec o s e Hsec Hl; cbn in Hl.
  - injection Hl as _ <- <-. exact Hsec.
  - destruct (Z.ltb_spec sec (time.when t)).
    + injection Hl as _ <- <-. lia.
    + eapply IH; [|exact Hl]. lia.
Qed.

(** Every lookup returns one of the periods, and the second looked up
    lies in it. *)
Lemma lookup_period l sec :
  time.alpha <= sec < time.omega →
  ∃ o s e, time.lookup l sec = (o, s, e)
           ∧ In (o, s, e) (spec.periods l) ∧ s <= sec < e.
Proof.
  intros Hsec. destruct (time.lookup l sec) as [[o s] e] eqn:Hl.
  exists o, s, e. split; [reflexivity|]. split.
  - rewrite <- Hl. apply lookup_from_period.
  - eapply lookup_from_bounds; [|exact Hl]. exact Hsec.
Qed.

Lemma LosAngeles_sorted : spec.tx_sorted tzdata.LosAngeles = true.
Proof. reflexivity. Qed.


Local Ltac la_periods H :=
  vm_compute in H;
  repeat (destruct H as [H|H]; [injection H as <- <- <-|]); [..|destruct H].

(* the period that starts at second [e] *)
Local Ltac la_next e H :=
  let o2 := fresh "o2" in let s2 := fresh "s2" in let e2 := fresh "e2" in
  let Hc := fresh "Hc" in
  destruct (time.lookup tzdata.LosAngeles e) as [[o2 s2] e2] eqn:H;
  pose proof H as Hc; vm_compute in Hc; injection Hc as <- <- <-.

(* the offset at [v], from a lookup whose period holds [v] *)
Local Ltac la_offset v :=
  match goal with
  | H : time.lookup tzdata.LosAngeles ?sec = (?o, ?s, ?e) |- _ =>
      rewrite (zoneOffset_stable tzdata.LosAngeles sec o s e v LosAngeles_sorted H)
        in * by lia
  end.

Local Ltac la_wall_case :=
  match goal with
  | Hl : time.lookup _ ?x = (?o1, ?s1, ?e1), H0 : ?e1 <= ?x - ?o1 |- _ =>
      try lia;
      let H2 := fresh "H2" in
      la_next e1 H2; la_offset (x - o1);
      match goal with
      | |- context [time.zoneOffset _ (x - ?o2)] =>
          destruct (Z.lt_ge_cases (x - o2) e1); la_offset (x - o2)
      end
  | Hl : time.lookup _ ?x = (?o1, ?s1, ?e1), H0 : ?x - ?o1 < ?e1 |- _ =>
      la_offset (x - o1)
  end;
  (split; [lia|];
   first [left; lia | right; split; [Z.div_mod_to_equations; lia | lia]]).

(** What [Date] makes of wall-clock second [L] in Los Angeles: an
    instant at which the clock shows [L], unless [L] lies in the hour
    skipped when daylight time begins; then it shows an hour less. *)
Lemma LosAngeles_wall L :
  - 2 ^ 62 <= L <= 2 ^ 62 →
  let U := time.unixOfWall tzdata.LosAngeles L in
  (U = L + 28800 ∨ U = L + 25200)
  ∧ (U + time.zoneOffset tzdata.LosAngeles U = L
     ∨ (7200 <= L mod 86400 < 10800
        ∧ U + time.zoneOffset tzdata.LosAngeles U = L - 3600)).
Proof.
  intros HL. change (2 ^ 62) with 4611686018427387904 in HL.
  destruct (lookup_period tzdata.LosAngeles L) as (o1 & s1 & e1 & Hl & Hin & Hb);
    [unfold time.alpha, time.omega; change (2 ^ 63) with 9223372036854775808; lia|].
  unfold time.unixOfWall. rewrite Hl.
  la_periods Hin.
  all: cbn [Z.eqb].
  all: match goal with
       | Hl : time.lookup _ ?x = (?o1, ?s1, ?e1) |- _ =>
           destruct (Z.ltb_spec (x - o1) s1); [lia|];
           destruct (Z.leb_spec e1 (x - o1)); cbn [orb]
       end.
  all: la_wall_case.
Qed.

Lemma LosAngeles_offsets u :
  - 2 ^ 62 <= u <= 2 ^ 62 →
  time.zoneOffset tzdata.LosAngeles u = -28800
  ∨ time.zoneOffset tzdata.LosAngeles u = -25200.
Proof.
  intros Hu. change (2 ^ 62) with 4611686018427387904 in Hu.
  destruct (lookup_period tzdata.LosAngeles u) as (o & s & e & Hl & Hin & _);
    [unfold time.alpha, time.omega; change (2 ^ 63) with 9223372036854775808; lia|].
  unfold time.zoneOffset. rewrite Hl. cbn [fst].
  la_periods Hin; auto.
Qed.

(** The local day of an instant well inside int64. *)
Lemma days_range t :
  - 2 ^ 61 <= time.Time.Unix t <= 2 ^ 61 →
  time.Loc t = tzdata.LosAngeles →
  - 2 ^ 61 - 86400 <= time.Time.days t * 86400 <= 2 ^ 61
  ∧ (time.Time.abs t = time.Time.Unix t - 28800
     ∨ time.Time.abs t = time.Time.Unix t - 25200).
Proof.
  intros Hu Hloc. unfold time.Time.days, time.Time.abs. rewrite Hloc.
  change (2 ^ 61) with 2305843009213693952 in *.
  destruct (LosAngeles_offsets (time.Time.Unix t)) as [-> | ->];
    [change (2 ^ 62) with 4611686018427387904; lia | |];
    (split; [unfold_units; Z.div_mod_to_equations; lia | lia]).
Qed.

Lemma LosAngeles_calendar_regular t :
  time.Loc t = tzdata.LosAngeles →
  - 2 ^ 61 <= time.Time.Unix t <= 2 ^ 61 →
  spec.calendar_regular t = true.
Proof.
  intros Hloc Hu. destruct (days_range t Hu Hloc) as [Hdn _].
  unfold spec.calendar_regular. apply forallb_forall. intros d Hd.
  rewrite dayOffsets_eq in Hd. cbn [In] in Hd.
  assert (0 <= d < 7) by intuition lia. clear Hd.
  apply Z.eqb_eq.
  unfold time.Time.days at 1, time.Time.abs, time.Time.Unix.
  rewrite AddDate_Loc, AddDate_days_unix, Hloc.
  set (L := (time.Time.days t + d) * time.secondsPerDay
            + time.Time.abs t mod time.secondsPerDay).
  assert (HL : L / 86400 = time.Time.days t + d ∧ - 2 ^ 62 <= L <= 2 ^ 62).
  { subst L. change (2 ^ 61) with 2305843009213693952 in *.
    change (2 ^ 62) with 4611686018427387904.
    revert Hdn. generalize (time.Time.days t), (time.Time.abs t). unfold_units.
    intros dn a Hdn. Z.div_mod_to_equations. lia. }
  destruct HL as [HLd HL].
  destruct (LosAngeles_wall L HL) as [_ Hw]. cbv zeta in Hw.
  unfold time.Time.Nanosecond.
  pose proof (Z.mod_pos_bound (time.UnixNano t) time.Second
                ltac:(unfold_units; lia)) as Hns.
  revert Hns. generalize (time.UnixNano t mod time.Second). intros ns Hns.
  replace ((time.unixOfWall tzdata.LosAngeles L * time.Second + ns) / time.Second)
    with (time.unixOfWall tzdata.LosAngeles L)
    by (revert Hns; unfold_units; intros Hns; Z.div_mod_to_equations; lia).
  rewrite <- HLd. revert Hw.
  generalize (time.unixOfWall tzdata.LosAngeles L
              + time.zoneOffset tzdata.LosAngeles
                  (time.unixOfWall tzdata.LosAngeles L)).
  unfold_units. intros w Hw. Z.div_mod_to_equations. lia.
Qed.

(* the instant [Date] makes of a wall-clock second of business hours *)
Local Ltac la_business_wall L :=
  let Hc := fresh "Hc" in let Hw := fresh "Hw" in
  destruct (LosAngeles_wall L) as [Hc Hw];
  [change (2 ^ 62) with 4611686018427387904; lia|];
  cbv zeta in Hc, Hw;
  destruct Hw as [Hw|[Hw _]]; [|exfalso; Z.div_mod_to_equations; lia];
  destruct Hc as [Hc|Hc]; rewrite Hc in Hw |- *;
  try la_offset (L + 28800); try la_offset (L + 25200); lia.

Lemma LosAngeles_business_regular dn :
  - 2 ^ 61 - 86400 * 8 <= dn * 86400 <= 2 ^ 61 + 86400 * 8 →
  spec.business_regular tzdata.LosAngeles dn = true.
Proof.
  intros Hdn. change (2 ^ 61) with 2305843009213693952 in Hdn.
  unfold spec.business_regular, spec.nine. unfold_units.
  set (L9 := dn * (24 * (60 * 60)) + 9 * (60 * 60)).
  assert (HL9 : L9 = dn * 86400 + 32400) by (subst L9; lia).
  destruct (LosAngeles_wall L9) as [Hc9 Hw9];
    [change (2 ^ 62) with 4611686018427387904; lia|].
  cbv zeta in Hc9, Hw9.
  destruct Hw9 as [Hw9|[Hgap _]]; [|exfalso; Z.div_mod_to_equations; lia].
  set (u9 := time.unixOfWall tzdata.LosAngeles L9) in *.
  destruct (lookup_period tzdata.LosAngeles u9) as (o & s & e & Hl & Hin & Hb);
    [unfold time.alpha, time.omega; change (2 ^ 63) with 9223372036854775808; lia|].
  unfold time.zoneOffset in Hw9. rewrite Hl in Hw9 |- *. cbn [fst] in Hw9.
  la_periods Hin.
  all: repeat (apply andb_true_iff; split);
    first [apply Z.eqb_eq | apply Z.leb_le | apply Z.ltb_lt]; try lia.
  all: match goal with
       | |- time.unixOfWall _ ?L = _ => la_business_wall L
       end.
Qed.

(** An instant of a weekday lies in the zone period of that day's nine
    o'clock: the transitions fall on Sundays. *)
Lemma LosAngeles_reference_zone t :
  time.Loc t = tzdata.LosAngeles →
  - 2 ^ 61 <= time.Time.Unix t <= 2 ^ 61 →
  spec.isWeekend (spec.weekdayOfDay (time.Time.days t)) = false →
  (let '(_, s, e) :=
     time.lookup tzdata.LosAngeles (spec.nine tzdata.LosAngeles (time.Time.days t)) in
   (s <=? time.Time.Unix t) && (time.Time.Unix t <? e)) = true.
Proof.
  intros Hloc Hu Hw. destruct (days_range t Hu Hloc) as [Hdn Habs].
  change (2 ^ 61) with 2305843009213693952 in *.
  unfold spec.nine, time.Time.days in *. unfold_units.
  revert Hu Hw Hdn Habs.
  generalize (time.Time.abs t), (time.Time.Unix t).
  intros a u Hu Hw Hdn Habs.
  set (dn := a / (24 * (60 * 60))) in *.
  assert (Ha : dn * 86400 <= a < dn * 86400 + 86400)
    by (subst dn; Z.div_mod_to_equations; lia).
  set (L9 := dn * (24 * (60 * 60)) + 9 * (60 * 60)).
  assert (HL9 : L9 = dn * 86400 + 32400) by (subst L9; lia).
  destruct (LosAngeles_wall L9) as [Hc9 _];
    [change (2 ^ 62) with 4611686018427387904; lia|].
  cbv zeta in Hc9.
  set (u9 := time.unixOfWall tzdata.LosAngeles L9) in *.
  destruct (lookup_period tzdata.LosAngeles u9) as (o & s & e & Hl & Hin & Hb);
    [unfold time.alpha, time.omega; change (2 ^ 63) with 9223372036854775808; lia|].
  rewrite Hl. clearbody dn.
  la_periods Hin.
  all: apply andb_true_iff; split; [apply Z.leb_le | apply Z.ltb_lt]; try lia.
  all: match goal with
       | |- ?s <= ?v =>
           destruct (Z.le_gt_cases s v) as [|Hlt]; [assumption|exfalso];
           let D := eval vm_compute in (s / 86400) in
           assert (Hd : dn = D) by lia;
           rewrite Hd in Hw; vm_compute in Hw; discriminate
       end.
Qed.

(** Every week is regular in Los Angeles. *)
Lemma LosAngeles_week_regular t :
  time.Loc t = tzdata.LosAngeles →
  - 2 ^ 61 <= time.Time.Unix t <= 2 ^ 61 →
  spec.week_regular t = true.
Proof.
  intros Hloc Hu. unfold spec.week_regular.
  rewrite LosAngeles_calendar_regular by assumption. cbn [andb].
  destruct (days_range t Hu Hloc) as [Hdn _].
  apply andb_true_iff. split.
  - apply forallb_forall. intros d Hd.
    rewrite dayOffsets_eq in Hd. cbn [In] in Hd.
    assert (0 <= d < 7) by intuition lia. clear Hd.
    apply orb_true_iff. right. rewrite Hloc.
    apply LosAngeles_business_regular.
    change (2 ^ 61) with 2305843009213693952 in *. lia.
  - destruct (spec.isWeekend _) eqn:Hw; [reflexivity|]. cbn [orb].
    rewrite Hloc. apply LosAngeles_reference_zone; assumption.
Qed.

End LosAngeles.

(* ===================================================================== *)
(** * The generator with the sample zone data

    The table [tzdata.embedded] gives a regular week at every reference
    instant, so the conditions of the properties of regular weeks can
    be met; likewise in UTC, when the zone is missing. *)
(* ===================================================================== *)

Section EveryReference.

Import models.

Lemma embedded_regular ref :
  - 2 ^ 61 <= time.Time.Unix ref <= 2 ^ 61 →
  spec.tx_sorted (logic.loadLocation tzdata.embedded) = true
  ∧ spec.week_regular (time.Time.In ref (logic.loadLocation tzdata.embedded)) = true.
Proof.
  intros Hu. split; [reflexivity|].
  apply LosAngeles_week_regular; [reflexivity | exact Hu].
Qed.

Lemma missing_regular ref :
  - 2 ^ 61 <= time.Time.Unix ref <= 2 ^ 61 →
  spec.tx_sorted (logic.loadLocation tzdata.missing) = true
  ∧ spec.week_regular (time.Time.In ref (logic.loadLocation tzdata.missing)) = true.
Proof.
  intros Hu. split; [reflexivity|].
  apply week_regular_fixed; [reflexivity | | cbn; lia].
  change (time.Time.Unix (time.Time.In ref (logic.loadLocation tzdata.missing)))
    with (time.Time.Unix ref).
  change (2 ^ 61) with 2305843009213693952 in Hu.
  change (2 ^ 62) with 4611686018427387904. lia.
Qed.

(** With the table [tzdata.embedded], at every reference instant: five
    business days are examined, no slot starts on a Saturday or Sunday,
    every slot ends on the day it starts, and by 15:30 on a Friday. *)
Lemma embedded_every_reference busy ref :
  - 2 ^ 61 <= time.Time.Unix ref <= 2 ^ 61 →
  let loc := logic.loadLocation tzdata.embedded in
  (logic.GenerateAvailableSlots tzdata.embedded busy ref).1.2 = 5
  ∧ ∀ slot,
      In slot (logic.GenerateAvailableSlots tzdata.embedded busy ref).1.1 →
      let st := time.Time.In (Start slot) loc in
      let en := time.Time.In (End slot) loc in
      time.Time.Weekday st ≠ time.Saturday
      ∧ time.Time.Weekday st ≠ time.Sunday
      ∧ time.Time.days en = time.Time.days st
      ∧ (time.Time.Weekday st = time.Friday →
         spec.wallNanos en <= spec.clockNanos 15 30).
Proof.
  intros Hu loc. destruct (embedded_regular ref Hu) as [Hsorted Hweek].
  split.
  - rewrite GenerateAvailableSlots_candidates; cbn [fst snd].
    rewrite <- (businessDaysFrom_five (time.Time.days (time.Time.In ref loc))).
    unfold spec.businessDaysFrom. f_equal.
    apply filter_ext_in. intros d Hd.
    rewrite Weekday_days, calendar_regular_days; [reflexivity| |].
    + apply week_regular_calendar, Hweek.
    + rewrite dayOffsets_eq in Hd. cbn [In] in Hd. intuition lia.
  - intros slot Hin.
    apply returned_slot_candidate in Hin as (c & -> & Hc & _).
    apply allCandidates_day in Hc as (d & Hd & Hc).
    pose proof (dayCandidates_local loc _ (time.Time.In ref loc) d c eq_refl
                  Hsorted Hweek Hd Hc) as Hloc.
    cbv zeta in Hloc.
    destruct Hloc as (Hw & Hday & Hday' & _ & _ & Hend & _).
    unfold spec.slotOf, logic.formatSlot; cbn [Start End].
    rewrite !Weekday_days, Hday, Hday'.
    unfold spec.isWeekend in Hw. apply bool_decide_eq_false in Hw.
    split; [tauto|]. split; [tauto|]. split; [reflexivity|].
    intros Hfri.
    rewrite decide_True in Hend by exact Hfri. exact Hend.
Qed.

End EveryReference.

(* ===================================================================== *)
(** * More on the slot generator *)
(* ===================================================================== *)

Section GeneratorShape.

Import models.

Local Ltac unfold_units :=
  unfold logic.SlotDuration, spec.clockNanos, time.Hour, time.Minute, time.Second,
    time.Millisecond, time.Microsecond, time.Nanosecond, time.secondsPerDay,
    time.secondsPerHour, time.secondsPerMinute, time.unixToInternal in *.

(** A candidate ends thirty minutes after it starts and starts a whole
    number of slots after the loop's start, in the same location. *)
Lemma candidates_shape fuel workEnd : ∀ curr c,
  In c (spec.candidates fuel workEnd curr) →
  c.2 = time.Time.Add c.1 logic.SlotDuration
  ∧ time.Loc c.1 = time.Loc curr
  ∧ ∃ k : nat, time.UnixNano c.1 = time.UnixNano curr + Z.of_nat k * logic.SlotDuration.
Proof.
  induction fuel as [|fuel IH]; intros curr c Hin; cbn [spec.candidates] in Hin;
    [destruct Hin|].
  destruct (time.Time.Before _ workEnd || time.Time.Equal _ workEnd); [|destruct Hin].
  destruct Hin as [<-|Hin]; cbn [fst snd].
  - split; [reflexivity|]. split; [reflexivity|]. exists 0%nat. lia.
  - apply IH in Hin as (Hend & Hloc & k & Hk).
    split; [exact Hend|]. split; [exact Hloc|]. exists (S k).
    rewrite Hk. unfold time.Time.Add; cbn [time.UnixNano]. lia.
Qed.

(** The start of the work hours, exactly: nine o'clock, or the end of
    the buffer moved up to the next half hour of its own clock and cut
    to the minute. *)
Lemma workHours_start loc minS dayDate ws we :
  logic.workHours loc minS dayDate = Some (ws, we) →
  let u9 := spec.nine loc (time.Time.days dayDate) in
  (time.UnixNano ws = u9 * time.Second
   ∧ time.UnixNano minS <= time.UnixNano ws ∧ time.Loc ws = loc)
  ∨ (u9 * time.Second < time.UnixNano minS
     ∧ time.Loc ws = time.Loc minS
     ∧ ∃ add, 0 <= add < 30
              ∧ (time.Time.Minute minS + add) mod 30 = 0
              ∧ time.UnixNano ws
                = (time.UnixNano minS + add * time.Minute) / time.Minute * time.Minute).
Proof.
  unfold logic.workHours, spec.nine, logic.WorkStartHour.
  intros H; cbv zeta.
  pose proof (Date_of_day dayDate 9 0 0 loc) as H9.
  rewrite Z.mul_0_l, !Z.add_0_r in H9.
  set (workStart := time.Date _ _ _ 9 0 0 0 loc) in *.
  assert (Hloc9 : time.Loc workStart = loc) by reflexivity.
  clearbody workStart.
  unfold time.Time.Before, time.Time.After in H.
  destruct (Z.ltb_spec (time.UnixNano workStart) (time.UnixNano minS)) as [Hlt|Hge].
  - destruct (time.UnixNano _ <? time.UnixNano minS); [discriminate|].
    injection H as <- _. right.
    split; [rewrite <- H9; exact Hlt|]. split; [reflexivity|].
    set (rem := time.Time.Minute minS mod 30).
    exists (if negb (rem =? 0) then 30 - rem else 0).
    pose proof (Z.mod_pos_bound (time.Time.Minute minS) 30 ltac:(lia)) as Hrem.
    fold rem in Hrem.
    split; [destruct (Z.eqb_spec rem 0); cbn [negb]; lia|].
    split.
    + destruct (Z.eqb_spec rem 0) as [Hz|Hnz]; cbn [negb].
      * rewrite Z.add_0_r. exact Hz.
      * subst rem. revert Hrem Hnz. generalize (time.Time.Minute minS).
        intros m Hrem Hnz. Z.div_mod_to_equations. lia.
    + unfold time.Time.Truncate, time.Time.Add.
      change (time.Minute <=? 0) with false; cbn [time.UnixNano].
      generalize (if negb (rem =? 0) then 30 - rem else 0). intros add.
      unfold_units. Z.div_mod_to_equations. lia.
  - injection H as <- _. left. split; [exact H9|]. split; [lia | exact Hloc9].
Qed.

(** A candidate of a day is a candidate of its work hours. *)
Lemma dayCandidates_workHours loc minS ss d c :
  In c (spec.dayCandidates loc minS ss d) →
  ∃ ws we,
    logic.workHours loc minS (time.AddDate ss 0 0 d) = Some (ws, we)
    ∧ In c (spec.candidates (logic.slot_fuel ws we) we ws).
Proof.
  unfold spec.dayCandidates; cbv zeta.
  destruct (spec.isWeekend _); [intros []|].
  destruct (logic.workHours _ _ _) as [[ws we]|]; [|intros []].
  intros Hin. exists ws, we. split; [reflexivity | exact Hin].
Qed.

(** X1.  A returned slot ends thirty minutes after it starts, and its
    display date and time are those of its start. *)
Theorem slot_is_half_hour tzdb busy ref slot :
  In slot (logic.GenerateAvailableSlots tzdb busy ref).1.1 →
  End slot = time.Time.Add (Start slot) logic.SlotDuration
  ∧ time.UnixNano (Start slot) < time.UnixNano (End slot)
  ∧ Date slot = time.Format (Start slot) "Monday, January 2, 2006"
  ∧ Time slot = time.Format (Start slot) "3:04 PM".
Proof.
  intros Hin. apply returned_slot_candidate in Hin as (c & -> & Hc & _).
  apply allCandidates_day in Hc as (d & _ & Hc).
  apply dayCandidates_workHours in Hc as (ws & we & _ & Hc).
  apply candidates_shape in Hc as (Hend & _).
  unfold spec.slotOf, logic.formatSlot; cbn [Start End Date Time].
  rewrite Hend. repeat split.
  unfold time.Time.Add; cbn [time.UnixNano]. unfold_units. lia.
Qed.

Lemma slot_is_half_hour_witness :
  let ref := time.Date 2026 11 2 8 0 0 0 tzdata.LosAngeles in
  let slot :=
    logic.formatSlot (time.Date 2026 11 2 10 0 0 0 tzdata.LosAngeles)
                     (time.Date 2026 11 2 10 30 0 0 tzdata.LosAngeles) in
  In slot (logic.GenerateAvailableSlots tzdata.embedded [] ref).1.1
  ∧ End slot = time.Time.Add (Start slot) logic.SlotDuration
  ∧ time.UnixNano (Start slot) < time.UnixNano (End slot)
  ∧ Date slot = time.Format (Start slot) "Monday, January 2, 2006"
  ∧ Time slot = time.Format (Start slot) "3:04 PM".
Proof.
  cbv zeta.
  assert (Hin : In (logic.formatSlot
                      (time.Date 2026 11 2 10 0 0 0 tzdata.LosAngeles)
                      (time.Date 2026 11 2 10 30 0 0 tzdata.LosAngeles))
                   (logic.GenerateAvailableSlots tzdata.embedded []
                      (time.Date 2026 11 2 8 0 0 0 tzdata.LosAngeles)).1.1)
    by (vm_compute; left; reflexivity).
  split; [exact Hin|].
  exact (slot_is_half_hour tzdata.embedded [] _ _ Hin).
Defined.

(** X2.  No returned slot overlaps a busy interval: each busy interval
    ends by the start of the slot or begins at or after its end. *)
Theorem returned_slots_are_free tzdb busy ref slot b :
  In slot (logic.GenerateAvailableSlots tzdb busy ref).1.1 →
  In b busy →
  time.UnixNano (TimeRange_End b) <= time.UnixNano (Start slot)
  ∨ time.UnixNano (End slot) <= time.UnixNano (TimeRange_Start b).
Proof.
  intros Hin Hb. apply returned_slot_candidate in Hin as (c & -> & _ & Hfree).
  unfold spec.slotOf, logic.formatSlot; cbn [Start End].
  unfold logic.isBusy in Hfree.
  destruct (Z.le_gt_cases (time.UnixNano (TimeRange_End b)) (time.UnixNano c.1))
    as [|H1]; [left; assumption|].
  destruct (Z.le_gt_cases (time.UnixNano c.2) (time.UnixNano (TimeRange_Start b)))
    as [|H2]; [right; assumption|].
  exfalso. apply not_true_iff_false in Hfree. apply Hfree.
  apply existsb_exists. exists b. split; [exact Hb|].
  unfold time.Time.Before, time.Time.After, time.Time.In; cbn [time.UnixNano].
  apply andb_true_iff. split; apply Z.ltb_lt; lia.
Qed.

Lemma returned_slots_are_free_witness :
  let ref := time.Date 2026 11 2 8 0 0 0 tzdata.LosAngeles in
  let b := mkTimeRange (time.Date 2026 11 2 11 0 0 0 tzdata.LosAngeles)
                       (time.Date 2026 11 2 12 0 0 0 tzdata.LosAngeles) in
  let slot :=
    logic.formatSlot (time.Date 2026 11 2 10 0 0 0 tzdata.LosAngeles)
                     (time.Date 2026 11 2 10 30 0 0 tzdata.LosAngeles) in
  (In slot (logic.GenerateAvailableSlots tzdata.embedded [b] ref).1.1 ∧ In b [b])
  ∧ (time.UnixNano (TimeRange_End b) <= time.UnixNano (Start slot)
     ∨ time.UnixNano (End slot) <= time.UnixNano (TimeRange_Start b)).
Proof.
  cbv zeta.
  assert (Hin : In (logic.formatSlot
                      (time.Date 2026 11 2 10 0 0 0 tzdata.LosAngeles)
                      (time.Date 2026 11 2 10 30 0 0 tzdata.LosAngeles))
                   (logic.GenerateAvailableSlots tzdata.embedded 
                      [mkTimeRange (time.Date 2026 11 2 11 0 0 0 tzdata.LosAngeles)
                                   (time.Date 2026 11 2 12 0 0 0 tzdata.LosAngeles)]
                      (time.Date 2026 11 2 8 0 0 0 tzdata.LosAngeles)).1.1)
    by (vm_compute; left; reflexivity).
  split; [split; [exact Hin | left; reflexivity]|].
  exact (returned_slots_are_free tzdata.embedded _ _ _ _ Hin (or_introl eq_refl)).
Defined.

(** X4.  When the reference instant is a whole minute, no returned slot
    starts before the end of the two-hour buffer. *)
Theorem whole_minute_reference_keeps_buffer tzdb busy ref slot :
  time.UnixNano ref mod time.Minute = 0 →
  In slot (logic.GenerateAvailableSlots tzdb busy ref).1.1 →
  time.UnixNano ref + 2 * time.Hour <= time.UnixNano (Start slot).
Proof.
  intros Hmin Hin. apply returned_slot_candidate in Hin as (c & -> & Hc & _).
  apply allCandidates_day in Hc as (d & _ & Hc).
  apply dayCandidates_workHours in Hc as (ws & we & Hwh & Hc).
  apply candidates_bounds in Hc as (Hs & _).
  apply workHours_start in Hwh; cbv zeta in Hwh.
  unfold spec.slotOf, logic.formatSlot; cbn [Start].
  unfold time.Time.Add in *; cbn [time.UnixNano] in *.
  destruct Hwh as [(_ & Hle & _)|(_ & _ & add & Hadd & _ & Hws)]; [lia|].
  revert Hmin Hws Hs. unfold_units.
  generalize (time.UnixNano ref), (time.UnixNano ws), (time.UnixNano c.1).
  intros r w s Hmin Hws Hs. Z.div_mod_to_equations. lia.
Qed.

Lemma whole_minute_reference_keeps_buffer_witness :
  let ref := time.Date 2026 11 2 8 0 0 0 tzdata.LosAngeles in
  let slot :=
    logic.formatSlot (time.Date 2026 11 2 10 0 0 0 tzdata.LosAngeles)
                     (time.Date 2026 11 2 10 30 0 0 tzdata.LosAngeles) in
  (time.UnixNano ref mod time.Minute = 0
   ∧ In slot (logic.GenerateAvailableSlots tzdata.embedded [] ref).1.1)
  ∧ time.UnixNano ref + 2 * time.Hour <= time.UnixNano (Start slot).
Proof.
  cbv zeta.
  assert (Hin : In (logic.formatSlot
                      (time.Date 2026 11 2 10 0 0 0 tzdata.LosAngeles)
                      (time.Date 2026 11 2 10 30 0 0 tzdata.LosAngeles))
                   (logic.GenerateAvailableSlots tzdata.embedded []
                      (time.Date 2026 11 2 8 0 0 0 tzdata.LosAngeles)).1.1)
    by (vm_compute; left; reflexivity).
  split; [split; [vm_compute; reflexivity | exact Hin]|].
  apply (whole_minute_reference_keeps_buffer tzdata.embedded []
           (time.Date 2026 11 2 8 0 0 0 tzdata.LosAngeles));
    [vm_compute; reflexivity | exact Hin].
Defined.

End GeneratorShape.

Section GeneratorBusy.

Import models.

(** X5.  More busy intervals never give more slots: a slot returned for
    a busy list is returned for every list whose intervals are among
    its intervals, in whatever order. *)
Theorem fewer_busy_keeps_slots tzdb busy1 busy2 ref slot :
  (∀ b, In b busy1 → In b busy2) →
  In slot (logic.GenerateAvailableSlots tzdb busy2 ref).1.1 →
  In slot (logic.GenerateAvailableSlots tzdb busy1 ref).1.1.
Proof.
  intros Hincl Hin.
  apply returned_slot_candidate in Hin as (c & -> & Hc & Hfree).
  rewrite GenerateAvailableSlots_candidates; cbn [fst].
  apply in_map, List.filter_In. split; [exact Hc|].
  unfold spec.freeCandidate. apply negb_true_iff.
  apply not_true_iff_false. intros Hbusy. apply not_true_iff_false in Hfree.
  apply Hfree. unfold logic.isBusy in *.
  apply existsb_exists in Hbusy as (b & Hb & Hov).
  apply existsb_exists. exists b. split; [apply Hincl, Hb | exact Hov].
Qed.

Lemma fewer_busy_keeps_slots_witness :
  let ref := time.Date 2026 11 2 8 0 0 0 tzdata.LosAngeles in
  let at_ h mi := time.Date 2026 11 2 h mi 0 0 tzdata.LosAngeles in
  let busy1 := [mkTimeRange (at_ 11 0) (at_ 12 0)] in
  let busy2 := [mkTimeRange (at_ 14 0) (at_ 15 0); mkTimeRange (at_ 11 0) (at_ 12 0)] in
  let slot := logic.formatSlot (at_ 10 0) (at_ 10 30) in
  ((∀ b, In b busy1 → In b busy2)
   ∧ In slot (logic.GenerateAvailableSlots tzdata.embedded busy2 ref).1.1)
  ∧ In slot (logic.GenerateAvailableSlots tzdata.embedded busy1 ref).1.1.
Proof.
  cbv zeta.
  assert (Hincl : ∀ b,
            In b [mkTimeRange (time.Date 2026 11 2 11 0 0 0 tzdata.LosAngeles)
                              (time.Date 2026 11 2 12 0 0 0 tzdata.LosAngeles)] →
            In b [mkTimeRange (time.Date 2026 11 2 14 0 0 0 tzdata.LosAngeles)
                              (time.Date 2026 11 2 15 0 0 0 tzdata.LosAngeles);
                  mkTimeRange (time.Date 2026 11 2 11 0 0 0 tzdata.LosAngeles)
                              (time.Date 2026 11 2 12 0 0 0 tzdata.LosAngeles)])
    by (intros b [<-|[]]; right; left; reflexivity).
  assert (Hin : In (logic.formatSlot
                      (time.Date 2026 11 2 10 0 0 0 tzdata.LosAngeles)
                      (time.Date 2026 11 2 10 30 0 0 tzdata.LosAngeles))
                   (logic.GenerateAvailableSlots tzdata.embedded
                      [mkTimeRange (time.Date 2026 11 2 14 0 0 0 tzdata.LosAngeles)
                                   (time.Date 2026 11 2 15 0 0 0 tzdata.LosAngeles);
                       mkTimeRange (time.Date 2026 11 2 11 0 0 0 tzdata.LosAngeles)
                                   (time.Date 2026 11 2 12 0 0 0 tzdata.LosAngeles)]
                      (time.Date 2026 11 2 8 0 0 0 tzdata.LosAngeles)).1.1)
    by (vm_compute; left; reflexivity).
  split; [split; [exact Hincl | exact Hin]|].
  exact (fewer_busy_keeps_slots tzdata.embedded _ _ _ _ Hincl Hin).
Defined.

(** X6.  The returned slots are never more than the candidates counted,
    and with no busy interval every candidate is returned. *)
Theorem free_slots_within_total tzdb ref :
  (∀ busy,
     main.len (logic.GenerateAvailableSlots tzdb busy ref).1.1
     <= (logic.GenerateAvailableSlots tzdb busy ref).2)
  ∧ main.len (logic.GenerateAvailableSlots tzdb [] ref).1.1
    = (logic.GenerateAvailableSlots tzdb [] ref).2
  ∧ (logic.GenerateAvailableSlots tzdb [] ref).1.1
    = map spec.slotOf (spec.allCandidates tzdb ref).
Proof.
  split; [|split].
  - intros busy. rewrite GenerateAvailableSlots_candidates; cbn [fst snd].
    unfold main.len. rewrite length_map.
    pose proof (List.filter_length_le (spec.freeCandidate busy)
                  (spec.allCandidates tzdb ref)). lia.
  - rewrite GenerateAvailableSlots_candidates; cbn [fst snd].
    unfold main.len. rewrite length_map. f_equal. f_equal.
    apply List.forallb_filter_id. apply forallb_forall. reflexivity.
  - rewrite GenerateAvailableSlots_candidates; cbn [fst snd]. f_equal.
    apply List.forallb_filter_id. apply forallb_forall. reflexivity.
Qed.

End GeneratorBusy.

(* ===================================================================== *)
(** * The slot grid in a regular week

    More of what regular zone data gives, for any time-zone database,
    when the offsets in force during the week are whole minutes, or
    whole half hours, or lie within twelve hours of each other. *)
(* ===================================================================== *)

Section RegularGrid.

Import models.

Local Ltac unfold_units :=
  unfold logic.SlotDuration, spec.clockNanos, time.Hour, time.Minute, time.Second,
    time.Millisecond, time.Microsecond, time.Nanosecond, time.secondsPerDay,
    time.secondsPerHour, time.secondsPerMinute, time.unixToInternal in *.

(** The offset at nine o'clock of day offset [d] is an offset of the
    week. *)
Lemma In_week_offsets t d :
  0 <= d < 7 →
  In (time.zoneOffset (time.Loc t) (spec.nine (time.Loc t) (time.Time.days t + d)))
     (spec.week_offsets t).
Proof.
  intros Hd. unfold spec.week_offsets.
  apply (in_map (fun d => time.zoneOffset (time.Loc t)
                            (spec.nine (time.Loc t) (time.Time.days t + d)))).
  apply In_dayOffsets, Hd.
Qed.

Lemma week_offsets_multiple_at m t d :
  spec.week_offsets_multiple m t = true → 0 <= d < 7 →
  time.zoneOffset (time.Loc t) (spec.nine (time.Loc t) (time.Time.days t + d))
    mod m = 0.
Proof.
  unfold spec.week_offsets_multiple. rewrite forallb_forall. intros H Hd.
  apply Z.eqb_eq, H, In_week_offsets, Hd.
Qed.

Lemma week_offsets_within_at lo hi t d :
  spec.week_offsets_within lo hi t = true → 0 <= d < 7 →
  lo <= time.zoneOffset (time.Loc t)
          (spec.nine (time.Loc t) (time.Time.days t + d)) <= hi.
Proof.
  unfold spec.week_offsets_within. rewrite forallb_forall. intros H Hd.
  specialize (H _ (In_week_offsets t d Hd)).
  apply andb_true_iff in H as [Hlo Hhi].
  split; apply Z.leb_le; assumption.
Qed.

(** On a day with regular business hours the offset stays the one of
    nine o'clock from a minute before nine to 17:00. *)
Lemma business_offset loc dn x :
  spec.tx_sorted loc = true →
  spec.business_regular loc dn = true →
  spec.nine loc dn * time.Second - time.Minute < x
    <= (spec.nine loc dn + 8 * time.secondsPerHour) * time.Second →
  time.zoneOffset loc (x / time.Second) = time.zoneOffset loc (spec.nine loc dn).
Proof.
  intros Hsorted Hreg Hx. unfold spec.business_regular in Hreg.
  set (u9 := spec.nine loc dn) in *.
  destruct (time.lookup loc u9) as [[o s] e] eqn:Hl.
  repeat (apply andb_true_iff in Hreg as [Hreg ?]).
  assert (Hs : s <= u9 - 60) by (apply Z.leb_le; assumption).
  assert (He : u9 + 8 * time.secondsPerHour < e) by (apply Z.ltb_lt; assumption).
  assert (Hu : u9 - 60 <= x / time.Second <= u9 + 8 * time.secondsPerHour)
    by (revert Hx; unfold_units; intros Hx; Z.div_mod_to_equations; lia).
  rewrite (zoneOffset_stable loc u9 o s e (x / time.Second) Hsorted Hl)
    by (unfold_units; lia).
  unfold time.zoneOffset. rewrite Hl. reflexivity.
Qed.

(** Nine o'clock of a day with regular business hours, by the offset
    in force then. *)
Lemma nine_regular loc dn :
  spec.business_regular loc dn = true →
  spec.nine loc dn + time.zoneOffset loc (spec.nine loc dn)
  = dn * time.secondsPerDay + 9 * time.secondsPerHour.
Proof.
  unfold spec.business_regular, time.zoneOffset.
  set (u9 := spec.nine loc dn).
  destruct (time.lookup loc u9) as [[o s] e]. cbn [fst]. intros H.
  repeat (apply andb_true_iff in H as [H ?]). apply Z.eqb_eq, H.
Qed.

(** What a regular week gives for a candidate of day offset [d]: the
    day, regular business hours, and the instants between which the
    candidate lies. *)
Lemma dayCandidates_instants loc minS ss d c :
  time.Loc ss = loc →
  spec.week_regular ss = true →
  0 <= d < 7 →
  In c (spec.dayCandidates loc minS ss d) →
  let dn := time.Time.days ss + d in
  spec.business_regular loc dn = true
  ∧ spec.isWeekend (spec.weekdayOfDay dn) = false
  ∧ spec.nine loc dn * time.Second - time.Minute < time.UnixNano c.1
  ∧ time.UnixNano c.2 = time.UnixNano c.1 + logic.SlotDuration
  ∧ time.UnixNano c.2 <= (spec.nine loc dn + 8 * time.secondsPerHour) * time.Second
  ∧ ∃ ws we,
      logic.workHours loc minS (time.AddDate ss 0 0 d) = Some (ws, we)
      ∧ time.Time.days (time.AddDate ss 0 0 d) = dn
      ∧ In c (spec.candidates (logic.slot_fuel ws we) we ws).
Proof.
  intros Hloc Hweek Hd Hin; cbv zeta.
  pose proof (dayCandidates_workHours _ _ _ _ _ Hin) as (ws & we & Hwh & Hcs).
  apply dayCandidates_window in Hin as (Hw & H9 & _ & Hdur & Hend);
    cbv zeta in *.
  pose proof (calendar_regular_days ss d (week_regular_calendar _ Hweek) Hd) as Hday.
  rewrite Weekday_days, Hday in Hw.
  pose proof (week_regular_business ss d Hweek Hd Hw) as Hreg.
  rewrite Hloc in Hreg.
  rewrite closing_regular in Hend by (rewrite Hday; exact Hreg).
  rewrite Hday in H9, Hend.
  split; [exact Hreg|]. split; [exact Hw|]. split; [exact H9|].
  split; [exact Hdur|]. split.
  - destruct (decide _); unfold_units; lia.
  - exists ws, we. split; [exact Hwh|]. split; [exact Hday | exact Hcs].
Qed.

(** A candidate of day offset [d] in a regular week: it lies between a
    minute before nine o'clock, or nine o'clock when the offset then is
    in whole minutes, and eight hours after nine, and starts a whole
    number of slots after the start of the work hours. *)
Lemma regular_candidate loc minS ss d c :
  time.Loc ss = loc →
  spec.week_regular ss = true →
  0 <= d < 7 →
  In c (spec.dayCandidates loc minS ss d) →
  let dn := time.Time.days ss + d in
  let u9 := spec.nine loc dn in
  u9 + time.zoneOffset loc u9 = dn * time.secondsPerDay + 9 * time.secondsPerHour
  ∧ spec.business_regular loc dn = true
  ∧ spec.isWeekend (spec.weekdayOfDay dn) = false
  ∧ u9 * time.Second - time.Minute < time.UnixNano c.1
  ∧ (time.zoneOffset loc u9 mod 60 = 0 → u9 * time.Second <= time.UnixNano c.1)
  ∧ time.UnixNano c.2 = time.UnixNano c.1 + logic.SlotDuration
  ∧ time.UnixNano c.2 <= (u9 + 8 * time.secondsPerHour) * time.Second
  ∧ ∃ ws we (k : nat),
      logic.workHours loc minS (time.AddDate ss 0 0 d) = Some (ws, we)
      ∧ time.Time.days (time.AddDate ss 0 0 d) = dn
      ∧ time.UnixNano c.1 = time.UnixNano ws + Z.of_nat k * logic.SlotDuration.
Proof.
  intros Hloc Hweek Hd Hin; cbv zeta.
  pose proof (dayCandidates_instants loc minS ss d c Hloc Hweek Hd Hin) as H.
  cbv zeta in H.
  destruct H as (Hreg & Hw & H9 & Hdur & Hend & ws & we & Hwh & Hday & Hcs).
  set (dn := time.Time.days ss + d) in *.
  pose proof (nine_regular loc dn Hreg) as Hnine.
  pose proof (candidates_bounds _ _ _ _ Hcs) as (Hs & _).
  pose proof (candidates_shape _ _ _ _ Hcs) as (_ & _ & k & Hk).
  pose proof (workHours_start _ _ _ _ _ Hwh) as Hws. cbv zeta in Hws.
  rewrite Hday in Hws.
  split; [exact Hnine|]. split; [exact Hreg|]. split; [exact Hw|].
  split; [exact H9|].
  split; [|split; [exact Hdur|split; [exact Hend|]]].
  - intros Hmin.
    destruct Hws as [(Hws & _)|(Hlt & _ & add & Hadd & _ & Hws)]; [lia|].
    revert Hs Hlt Hws Hnine Hmin.
    generalize (time.zoneOffset loc (spec.nine loc dn)), (spec.nine loc dn).
    unfold_units.
    generalize (time.UnixNano ws), (time.UnixNano minS), (time.UnixNano c.1).
    intros w m s o u9 Hs Hlt Hws Hnine Hmin. Z.div_mod_to_equations. lia.
  - exists ws, we, k. split; [exact Hwh|]. split; [exact Hday | exact Hk].
Qed.

(** X7.  In a regular week whose offsets are whole minutes, every slot
    lies in the business day of the generator's zone: it
    starts at 09:00 or later and ends by 17:00 on the wall clock of one
    day, which is neither a Saturday nor a Sunday. *)
Theorem regular_week_business_hours tzdb busy ref slot :
  let loc := logic.loadLocation tzdb in
  let st := time.Time.In (Start slot) loc in
  let en := time.Time.In (End slot) loc in
  spec.tx_sorted loc = true →
  spec.week_regular (time.Time.In ref loc) = true →
  spec.week_offsets_multiple 60 (time.Time.In ref loc) = true →
  In slot (logic.GenerateAvailableSlots tzdb busy ref).1.1 →
  spec.clockNanos 9 0 <= spec.wallNanos st
  ∧ spec.wallNanos en <= spec.clockNanos 17 0
  ∧ time.Time.days en = time.Time.days st
  ∧ spec.isWeekend (time.Time.Weekday st) = false.
Proof.
  intros loc st en Hsorted Hweek Hmin Hin. subst st en.
  apply returned_slot_candidate in Hin as (c & -> & Hc & _).
  apply allCandidates_day in Hc as (d & Hd & Hc). fold loc in Hc.
  pose proof (regular_candidate loc _ (time.Time.In ref loc) d c eq_refl
                Hweek Hd Hc) as H. cbv zeta in H.
  destruct H as (_ & Hreg & Hw & _ & H9 & Hdur & Hend & _).
  specialize (H9 (week_offsets_multiple_at 60 (time.Time.In ref loc) d Hmin Hd)).
  unfold spec.slotOf, logic.formatSlot; cbn [Start End].
  set (dn := time.Time.days (time.Time.In ref loc) + d) in *.
  destruct (business_hours_local loc dn (time.UnixNano c.1) Hsorted Hreg)
    as [Hd1 Hw1]; [unfold_units; lia|].
  destruct (business_hours_local loc dn (time.UnixNano c.2) Hsorted Hreg)
    as [Hd2 Hw2]; [unfold_units; lia|].
  unfold time.Time.In. rewrite Weekday_days, Hd1, Hd2, Hw1, Hw2.
  split; [unfold_units; lia|]. split; [unfold_units; lia|].
  split; [reflexivity | exact Hw].
Qed.

(** A witness: reference Monday 2 November 2026, 08:00:30 in Los
    Angeles; the first returned slot is that day's 10:00-10:30. *)
Lemma regular_week_business_hours_witness :
  let ref := time.Date 2026 11 2 8 0 30 0 tzdata.LosAngeles in
  let loc := logic.loadLocation tzdata.embedded in
  let slot :=
    logic.formatSlot (time.Date 2026 11 2 10 0 0 0 tzdata.LosAngeles)
                     (time.Date 2026 11 2 10 30 0 0 tzdata.LosAngeles) in
  let st := time.Time.In (Start slot) loc in
  let en := time.Time.In (End slot) loc in
  (spec.tx_sorted loc = true
   ∧ spec.week_regular (time.Time.In ref loc) = true
   ∧ spec.week_offsets_multiple 60 (time.Time.In ref loc) = true
   ∧ In slot (logic.GenerateAvailableSlots tzdata.embedded [] ref).1.1)
  ∧ spec.clockNanos 9 0 <= spec.wallNanos st
  ∧ spec.wallNanos en <= spec.clockNanos 17 0
  ∧ time.Time.days en = time.Time.days st
  ∧ spec.isWeekend (time.Time.Weekday st) = false.
Proof.
  cbv zeta.
  assert (Hin : In (logic.formatSlot
                      (time.Date 2026 11 2 10 0 0 0 tzdata.LosAngeles)
                      (time.Date 2026 11 2 10 30 0 0 tzdata.LosAngeles))
                   (logic.GenerateAvailableSlots tzdata.embedded []
                      (time.Date 2026 11 2 8 0 30 0 tzdata.LosAngeles)).1.1)
    by (vm_compute; left; reflexivity).
  split; [split; [|split; [|split]]; [vm_compute; reflexivity ..|exact Hin]|].
  apply (regular_week_business_hours tzdata.embedded []
           (time.Date 2026 11 2 8 0 30 0 tzdata.LosAngeles));
    [vm_compute; reflexivity ..|exact Hin].
Defined.

End RegularGrid.

Section RegularOrder.

Import models.

Local Ltac unfold_units :=
  unfold logic.SlotDuration, spec.clockNanos, time.Hour, time.Minute, time.Second,
    time.Millisecond, time.Microsecond, time.Nanosecond, time.secondsPerDay,
    time.secondsPerHour, time.secondsPerMinute, time.unixToInternal in *.

Lemma StronglySorted_app_cross {A} (R : A → A → Prop) (l k : list A) :
  StronglySorted R l → StronglySorted R k →
  (∀ x y, In x l → In y k → R x y) →
  StronglySorted R (l ++ k).
Proof.
  induction l as [|a l IH]; intros Hl Hk Hcross; [exact Hk|].
  apply StronglySorted_inv in Hl as [Hl Ha]. cbn [app].
  constructor.
  - apply IH; [exact Hl | exact Hk |].
    intros x y Hx Hy. apply Hcross; [right; exact Hx | exact Hy].
  - apply Forall_app. split; [exact Ha|].
    apply List.Forall_forall. intros y Hy. apply Hcross; [left; reflexivity | exact Hy].
Qed.

Lemma StronglySorted_filter_keep {A} (R : A → A → Prop) (f : A → bool) (l : list A) :
  StronglySorted R l → StronglySorted R (List.filter f l).
Proof.
  induction 1 as [|a l Hl IH Ha]; cbn [List.filter]; [constructor|].
  destruct (f a); [|exact IH].
  constructor; [exact IH|].
  apply List.Forall_forall. intros y Hy. apply List.filter_In in Hy as [Hy _].
  rewrite List.Forall_forall in Ha. apply Ha, Hy.
Qed.

Lemma StronglySorted_map_of {A B} (R : A → A → Prop) (S : B → B → Prop)
    (f : A → B) (l : list A) :
  (∀ x y, R x y → S (f x) (f y)) →
  StronglySorted R l → StronglySorted S (map f l).
Proof.
  intros HRS. induction 1 as [|a l Hl IH Ha]; cbn [map]; constructor; [exact IH|].
  apply List.Forall_forall. intros y Hy. apply in_map_iff in Hy as (x & <- & Hx).
  rewrite List.Forall_forall in Ha. apply HRS, Ha, Hx.
Qed.

Lemma In_offsetsFrom n : ∀ d k,
  In k (spec.offsetsFrom d n) → d <= k < d + Z.of_nat n.
Proof.
  induction n as [|n IH]; intros d k Hk; cbn [spec.offsetsFrom] in Hk; [destruct Hk|].
  destruct Hk as [<-|Hk]; [lia|]. apply IH in Hk. lia.
Qed.

(** The candidates of consecutive days, each day in order and every day
    before the next, are in order. *)
Lemma flat_map_offsets_sorted {A} (R : A → A → Prop) (f : Z → list A) n : ∀ d,
  (∀ k, StronglySorted R (f k)) →
  (∀ k k' x y, d <= k < k' → k' < d + Z.of_nat n →
               In x (f k) → In y (f k') → R x y) →
  StronglySorted R (flat_map f (spec.offsetsFrom d n)).
Proof.
  induction n as [|n IH]; intros d Hday Hcross;
    cbn [spec.offsetsFrom flat_map]; [constructor|].
  apply StronglySorted_app_cross; [apply Hday| |].
  - apply IH; [exact Hday|]. intros k k' x y Hk Hk'. apply Hcross; lia.
  - intros x y Hx Hy. apply in_flat_map in Hy as (k' & Hk' & Hy).
    apply In_offsetsFrom in Hk'. apply (Hcross d k'); [lia | lia | exact Hx | exact Hy].
Qed.

(** The inner loop walks its candidates one after the other. *)
Lemma candidates_sorted fuel workEnd : ∀ curr,
  StronglySorted grid.candidateBefore (spec.candidates fuel workEnd curr).
Proof.
  induction fuel as [|fuel IH]; intros curr; cbn [spec.candidates]; [constructor|].
  destruct (time.Time.Before _ workEnd || time.Time.Equal _ workEnd); [|constructor].
  constructor; [apply IH|].
  apply List.Forall_forall. intros c Hc. apply candidates_bounds in Hc as (Hs & _).
  unfold grid.candidateBefore; cbn [fst snd]. exact Hs.
Qed.

Lemma dayCandidates_sorted loc minS ss d :
  StronglySorted grid.candidateBefore (spec.dayCandidates loc minS ss d).
Proof.
  unfold spec.dayCandidates.
  destruct (spec.isWeekend _); [constructor|].
  destruct (logic.workHours _ _ _) as [[ws we]|]; [|constructor].
  apply candidates_sorted.
Qed.

(** X8.  In a regular week whose offsets lie within twelve hours of
    each other, the slots are returned in chronological order,
    none starting before an earlier one is over. *)
Theorem regular_week_chronological tzdb busy ref lo hi :
  let loc := logic.loadLocation tzdb in
  spec.week_regular (time.Time.In ref loc) = true →
  spec.week_offsets_within lo hi (time.Time.In ref loc) = true →
  hi - lo <= 12 * time.secondsPerHour →
  StronglySorted grid.slotBefore
    (logic.GenerateAvailableSlots tzdb busy ref).1.1.
Proof.
  intros loc Hweek Hwithin Hspan.
  rewrite GenerateAvailableSlots_candidates; cbn [fst].
  apply (StronglySorted_map_of grid.candidateBefore); [intros x y H; exact H|].
  apply StronglySorted_filter_keep.
  unfold spec.allCandidates, spec.dayOffsets. fold loc.
  apply flat_map_offsets_sorted; [intros k; apply dayCandidates_sorted|].
  intros k k' x y Hk Hk' Hx Hy. change (Z.of_nat (Z.to_nat logic.MaxDays)) with 7 in Hk'.
  pose proof (regular_candidate loc _ (time.Time.In ref loc) k x eq_refl Hweek
                ltac:(lia) Hx) as Hcx.
  pose proof (regular_candidate loc _ (time.Time.In ref loc) k' y eq_refl Hweek
                ltac:(lia) Hy) as Hcy.
  cbv zeta in Hcx, Hcy.
  destruct Hcx as (Hn & _ & _ & _ & _ & _ & Hend & _).
  destruct Hcy as (Hn' & _ & _ & Hstart & _).
  unfold grid.candidateBefore.
  pose proof (week_offsets_within_at lo hi (time.Time.In ref loc) k Hwithin
                ltac:(lia)) as Ho.
  pose proof (week_offsets_within_at lo hi (time.Time.In ref loc) k' Hwithin
                ltac:(lia)) as Ho'.
  cbn [time.Time.In time.Loc] in Ho, Ho'. fold loc in Ho, Ho'.
  revert Hn Hn' Hend Hstart Ho Ho' Hspan.
  generalize (time.Time.days (time.Time.In ref loc)). intros dn.
  generalize (time.zoneOffset loc (spec.nine loc (dn + k))),
             (time.zoneOffset loc (spec.nine loc (dn + k'))),
             (spec.nine loc (dn + k)), (spec.nine loc (dn + k')).
  unfold_units. intros o o' u u' Hn Hn' Hend Hstart Ho Ho' Hspan. lia.
Qed.

(** A witness: reference Friday 30 October 2026, 08:00 in Los Angeles,
    a week with the change from daylight to standard time. *)
Lemma regular_week_chronological_witness :
  let ref := time.Date 2026 10 30 8 0 0 0 tzdata.LosAngeles in
  let loc := logic.loadLocation tzdata.embedded in
  (spec.week_regular (time.Time.In ref loc) = true
   ∧ spec.week_offsets_within (-28800) (-25200) (time.Time.In ref loc) = true
   ∧ -25200 - -28800 <= 12 * time.secondsPerHour)
  ∧ StronglySorted grid.slotBefore
      (logic.GenerateAvailableSlots tzdata.embedded [] ref).1.1.
Proof.
  cbv zeta.
  assert (Hweek : spec.week_regular
                    (time.Time.In (time.Date 2026 10 30 8 0 0 0 tzdata.LosAngeles)
                                  (logic.loadLocation tzdata.embedded)) = true)
    by (vm_compute; reflexivity).
  assert (Hwithin : spec.week_offsets_within (-28800) (-25200)
                      (time.Time.In (time.Date 2026 10 30 8 0 0 0 tzdata.LosAngeles)
                                    (logic.loadLocation tzdata.embedded)) = true)
    by (vm_compute; reflexivity).
  assert (Hspan : -25200 - -28800 <= 12 * time.secondsPerHour)
    by (vm_compute; discriminate).
  split; [split; [exact Hweek | split; [exact Hwithin | exact Hspan]]|].
  exact (regular_week_chronological tzdata.embedded [] _ _ _ Hweek Hwithin Hspan).
Defined.

End RegularOrder.

Section RegularHalfHours.

Import models.

Local Ltac unfold_units :=
  unfold logic.SlotDuration, spec.clockNanos, time.Hour, time.Minute, time.Second,
    time.Millisecond, time.Microsecond, time.Nanosecond, time.secondsPerDay,
    time.secondsPerHour, time.secondsPerMinute, time.unixToInternal in *.

(** An instant that is a multiple of thirty minutes shows a full or a
    half hour on a clock that is a whole number of half hours off UTC
    at that instant. *)
Lemma half_hour_instant loc x :
  time.zoneOffset loc (x / time.Second) mod 1800 = 0 →
  x mod logic.SlotDuration = 0 →
  grid.onHalfHour (time.mkTime x loc).
Proof.
  intros Ho Hx. unfold grid.onHalfHour, time.Time.Minute, time.Time.Second,
    time.Time.Nanosecond, time.Time.abs, time.Time.Unix; cbn [time.UnixNano time.Loc].
  revert Ho. generalize (time.zoneOffset loc (x / time.Second)). intros o Ho.
  revert Hx. unfold_units. intros Hx.
  repeat split; Z.div_mod_to_equations; lia.
Qed.

(** Moving the end of the buffer up to a half hour of a clock whose
    offset is a multiple of thirty minutes gives a multiple of thirty
    minutes. *)
Lemma round_up_half_hour n off add :
  off mod 1800 = 0 →
  (((n / time.Second + off) mod time.secondsPerHour) / time.secondsPerMinute + add)
    mod 30 = 0 →
  ((n + add * time.Minute) / time.Minute * time.Minute) mod logic.SlotDuration = 0.
Proof.
  unfold_units. intros Hoff Hm.
  assert (Hq : (n + add * (60 * (1000 * (1000 * (1000 * 1)))))
                 / (60 * (1000 * (1000 * (1000 * 1))))
               = n / (1000 * (1000 * (1000 * 1))) / 60 + add).
  { rewrite Z.div_add by lia. f_equal.
    rewrite Z.div_div by lia. f_equal. }
  rewrite Hq. clear Hq.
  revert Hm. generalize (n / (1000 * (1000 * (1000 * 1)))). intros u Hm.
  assert (Hu : (u / 60 + add) mod 30 = 0)
    by (Z.div_mod_to_equations; lia).
  revert Hu. generalize (u / 60 + add). intros q Hq.
  Z.div_mod_to_equations. lia.
Qed.

(** X9.  In a regular week whose offsets are whole half hours, and
    with a reference whose own clock is a multiple of thirty
    minutes off UTC at the end of the buffer, every slot starts and
    ends on a full or a half hour of the generator's zone. *)
Theorem regular_week_half_hours tzdb busy ref slot :
  let loc := logic.loadLocation tzdb in
  spec.tx_sorted loc = true →
  spec.week_regular (time.Time.In ref loc) = true →
  spec.week_offsets_multiple 1800 (time.Time.In ref loc) = true →
  time.zoneOffset (time.Loc ref)
    (time.Time.Unix (time.Time.Add ref (2 * time.Hour))) mod 1800 = 0 →
  In slot (logic.GenerateAvailableSlots tzdb busy ref).1.1 →
  grid.onHalfHour (time.Time.In (Start slot) loc)
  ∧ grid.onHalfHour (time.Time.In (End slot) loc).
Proof.
  intros loc Hsorted Hweek Hhalf Hoff Hin.
  apply returned_slot_candidate in Hin as (c & -> & Hc & _).
  apply allCandidates_day in Hc as (d & Hd & Hc). fold loc in Hc.
  pose proof (regular_candidate loc _ (time.Time.In ref loc) d c eq_refl
                Hweek Hd Hc) as H. cbv zeta in H.
  destruct H as (Hn & Hreg & _ & H9 & _ & Hdur & Hend & ws & we & k & Hwh & Hday & Hk).
  pose proof (week_offsets_multiple_at 1800 (time.Time.In ref loc) d Hhalf Hd)
    as Ho.
  cbn [time.Time.In time.Loc] in Ho. fold loc in Ho.
  assert (Ho1 : time.zoneOffset loc (time.UnixNano c.1 / time.Second) mod 1800 = 0)
    by (rewrite (business_offset loc _ _ Hsorted Hreg); [exact Ho|];
        unfold_units; lia).
  assert (Ho2 : time.zoneOffset loc (time.UnixNano c.2 / time.Second) mod 1800 = 0)
    by (rewrite (business_offset loc _ _ Hsorted Hreg); [exact Ho|];
        unfold_units; lia).
  apply workHours_start in Hwh. cbv zeta in Hwh. rewrite Hday in Hwh.
  assert (Hws : time.UnixNano ws mod logic.SlotDuration = 0).
  { destruct Hwh as [(-> & _)|(_ & _ & add & _ & Hm & ->)].
    - revert Hn Ho.
      generalize (time.zoneOffset loc
                    (spec.nine loc (time.Time.days (time.Time.In ref loc) + d))),
                 (spec.nine loc (time.Time.days (time.Time.In ref loc) + d)),
                 (time.Time.days (time.Time.In ref loc) + d).
      unfold_units. intros o u9 dn Hn Ho. Z.div_mod_to_equations. lia.
    - apply (round_up_half_hour _ _ _ Hoff). exact Hm. }
  assert (Hc1 : time.UnixNano c.1 mod logic.SlotDuration = 0).
  { rewrite Hk. rewrite Z.mod_add by (unfold_units; lia). exact Hws. }
  assert (Hc2 : time.UnixNano c.2 mod logic.SlotDuration = 0).
  { rewrite Hdur.
    replace (time.UnixNano c.1 + logic.SlotDuration)
      with (time.UnixNano c.1 + 1 * logic.SlotDuration) by lia.
    rewrite Z.mod_add by (unfold_units; lia). exact Hc1. }
  unfold spec.slotOf, logic.formatSlot; cbn [Start End].
  split; apply half_hour_instant; assumption.
Qed.

(** A witness: reference Monday 2 November 2026, 08:10:30 in Los
    Angeles; the first returned slot is that day's 10:30-11:00. *)
Lemma regular_week_half_hours_witness :
  let ref := time.Date 2026 11 2 8 10 30 0 tzdata.LosAngeles in
  let loc := logic.loadLocation tzdata.embedded in
  let slot :=
    logic.formatSlot (time.Date 2026 11 2 10 30 0 0 tzdata.LosAngeles)
                     (time.Date 2026 11 2 11 0 0 0 tzdata.LosAngeles) in
  (spec.tx_sorted loc = true
   ∧ spec.week_regular (time.Time.In ref loc) = true
   ∧ spec.week_offsets_multiple 1800 (time.Time.In ref loc) = true
   ∧ time.zoneOffset (time.Loc ref)
       (time.Time.Unix (time.Time.Add ref (2 * time.Hour))) mod 1800 = 0
   ∧ In slot (logic.GenerateAvailableSlots tzdata.embedded [] ref).1.1)
  ∧ grid.onHalfHour (time.Time.In (Start slot) loc)
  ∧ grid.onHalfHour (time.Time.In (End slot) loc).
Proof.
  cbv zeta.
  assert (Hin : In (logic.formatSlot
                      (time.Date 2026 11 2 10 30 0 0 tzdata.LosAngeles)
                      (time.Date 2026 11 2 11 0 0 0 tzdata.LosAngeles))
                   (logic.GenerateAvailableSlots tzdata.embedded []
                      (time.Date 2026 11 2 8 10 30 0 tzdata.LosAngeles)).1.1)
    by (vm_compute; left; reflexivity).
  split; [split; [|split; [|split; [|split]]]; [vm_compute; reflexivity ..|exact Hin]|].
  apply (regular_week_half_hours tzdata.embedded []
           (time.Date 2026 11 2 8 10 30 0 tzdata.LosAngeles));
    [vm_compute; reflexivity ..|exact Hin].
Defined.

End RegularHalfHours.

(* ===================================================================== *)
(** * More on the agent resolver *)
(* ===================================================================== *)

Section AgentTable.

Import models.

(** Every record of the zone table carries its key as zone and no zone
    group. *)
Lemma PDAgentMap_keys key agent :
  mapper.PDAgentMap !! key = Some agent →
  Zone agent = key ∧ ZoneGroup agent = ""
  ∧ spec.hasSuffix (Email agent) "@ltrealestateco.com".
Proof.
  revert key agent. apply map_Forall_lookup. unfold mapper.PDAgentMap.
  repeat (apply map_Forall_insert_2;
          [split; [reflexivity|]; split; [reflexivity|]; eexists; cbn [Email];
           match goal with
           | |- ?s = _ =>
               let n := eval vm_compute in (String.length s - 19)%nat in
               instantiate (1 := String.substring 0 n s)
           end; reflexivity|]).
  apply map_Forall_empty.
Qed.

(** X10.  The agent [MapAgent] returns is filed under the normalized
    form of its own zone group: the zone group is the label of one of
    the input groups, the zone is that label trimmed and in upper case,
    the other fields are those of the table record of that zone, and
    the email is an address of the agency. *)
Theorem MapAgent_zone_of_group unicodeUpper groups found :
  mapper.MapAgent unicodeUpper groups = Some found →
  In (ZoneGroup found) (map AppFolioGroup_Name groups)
  ∧ Zone found = spec.normalize unicodeUpper (ZoneGroup found)
  ∧ mapper.PDAgentMap !! Zone found = Some (spec.withZoneGroup found "")
  ∧ spec.hasSuffix (Email found) "@ltrealestateco.com".
Proof.
  induction groups as [|group groups IH]; cbn [mapper.MapAgent]; [discriminate|].
  fold (spec.normalize unicodeUpper (AppFolioGroup_Name group)).
  destruct (mapper.PDAgentMap
              !! spec.normalize unicodeUpper (AppFolioGroup_Name group))
    as [agent|] eqn:Hlook.
  - clear IH. intros [= <-]. cbn [ZoneGroup Zone Email map].
    destruct (PDAgentMap_keys _ _ Hlook) as (Hzone & Hgroup & Hmail).
    split; [left; reflexivity|]. split; [exact Hzone|].
    split; [|exact Hmail].
    rewrite Hzone, Hlook. f_equal. unfold spec.withZoneGroup.
    cbn [ID Name Email Zone]. rewrite <- Hzone, <- Hgroup.
    clear. destruct agent; reflexivity.
  - intros Hfound. destruct (IH Hfound) as (Hin & Hrest).
    split; [right; exact Hin | exact Hrest].
Qed.

Lemma MapAgent_zone_of_group_witness :
  let groups := [mkAppFolioGroup "g-7" "ops"; mkAppFolioGroup "g-9" " pd2 "] in
  let found := mkAgentInfo "dcb80b8a-66bd-11ee-b6c3-02094d1ce055" "Elizabeth"
                           "elizabeth@ltrealestateco.com" "PD2" " pd2 " in
  mapper.MapAgent (fun s => s) groups = Some found
  ∧ In (ZoneGroup found) (map AppFolioGroup_Name groups)
  ∧ Zone found = spec.normalize (fun s => s) (ZoneGroup found)
  ∧ mapper.PDAgentMap !! Zone found = Some (spec.withZoneGroup found "")
  ∧ spec.hasSuffix (Email found) "@ltrealestateco.com".
Proof.
  cbv zeta. split; [reflexivity|].
  apply (MapAgent_zone_of_group (fun s => s)
           [mkAppFolioGroup "g-7" "ops"; mkAppFolioGroup "g-9" " pd2 "]).
  reflexivity.
Defined.

(** X11.  Groups are tried in order: an agent found among the first
    groups is the answer whatever follows them, and only when none of
    them matches are the following groups tried. *)
Theorem MapAgent_app unicodeUpper first rest :
  mapper.MapAgent unicodeUpper (first ++ rest)
  = match mapper.MapAgent unicodeUpper first with
    | Some found => Some found
    | None => mapper.MapAgent unicodeUpper rest
    end.
Proof.
  induction first as [|group first IH]; cbn [app mapper.MapAgent]; [reflexivity|].
  destruct (mapper.PDAgentMap !! _); [reflexivity | exact IH].
Qed.

End AgentTable.

(* ===================================================================== *)
(** * More on the message formatter *)
(* ===================================================================== *)

Section FormatterFirst.

Import models.

(** What contains a string still contains it with more text after
    it. *)
Lemma contains_app_r (s t sub : string) :
  spec.contains s sub → spec.contains (s +:+ t) sub.
Proof.
  intros (pre & post & ->). exists pre, (post +:+ t).
  rewrite !string_app_assoc. reflexivity.
Qed.

Lemma contains_heading (h a d tail gs : string) :
  spec.contains ((h +:+ a) +:+ ((d +:+ tail) +:+ gs)) (a +:+ d).
Proof.
  exists h, (tail +:+ gs). rewrite !string_app_assoc. reflexivity.
Qed.

(** A date with a first time: its line and that time, then the rest. *)
Lemma renderGroup_first (date t : string) (times : list string) :
  spec.renderGroup (date, t :: times)
  = (date +:+ ":" +:+ main.LF +:+ "  • " +:+ t +:+ main.LF)
    +:+ (String.concat "" (map spec.renderTime (take 5 times))
         +:+ (if 6 <? main.len (t :: times)
              then spec.moreTimes (main.len (t :: times)) else "")
         +:+ main.LF).
Proof.
  unfold spec.renderGroup; cbn [fst snd].
  change (take 6 (t :: times)) with (t :: take 5 times).
  cbn [map]. rewrite concat_cons. unfold spec.renderTime at 1.
  rewrite !string_app_assoc. reflexivity.
Qed.

(** X12.  When there are slots, the heading of the showing times is
    followed at once by the display date of the first slot and, as its
    first entry, the display time of the first slot. *)
Theorem first_slot_is_shown prop agent avail totalGenerated slot rest :
  Slots avail = slot :: rest →
  spec.contains (main.formatMessage prop agent avail totalGenerated)
    (("📅 AVAILABLE SHOWING TIMES:" +:+ main.LF +:+ main.LF) +:+
     (Date slot +:+ ":" +:+ main.LF +:+ "  • " +:+ Time slot +:+ main.LF)).
Proof.
  intros Hslots. unfold main.formatMessage. rewrite Hslots.
  replace (main.len (slot :: rest) =? 0) with false
    by (unfold main.len; cbn [length]; symmetry; apply Z.eqb_neq; lia).
  destruct (groupSlots_spec (slot :: rest)) as (m & -> & Hlook).
  rewrite datesLoop_spec by lia. change (Z.to_nat (5 - 0)) with 5%nat.
  assert (Htimes : default [] (m !! Date slot)
                   = Time slot :: spec.timesOn (Date slot) rest).
  { rewrite (Hlook (Date slot)). cbn [map existsb].
    rewrite String.eqb_refl. cbn [orb].
    unfold spec.timesOn. cbn [List.filter]. rewrite String.eqb_refl.
    reflexivity. }
  cbn [map spec.firstSeen]. 
  change (take 5 (Date slot :: ?l)) with (Date slot :: take 4 l).
  cbn [map]. rewrite concat_cons, Htimes, renderGroup_first.
  match goal with
  | |- spec.contains ((if ?c then _ else _) +:+ _) _ => destruct c
  end.
  - do 2 apply contains_app_r. apply contains_heading.
  - apply contains_app_r. apply contains_heading.
Qed.

Lemma first_slot_is_shown_witness :
  let slot := mkTimeSlot "Monday, November 2, 2026" "10:00 AM"
                (time.Date 2026 11 2 10 0 0 0 tzdata.LosAngeles)
                (time.Date 2026 11 2 10 30 0 0 tzdata.LosAngeles) in
  let avail := mkAvailability 1 5 [slot] in
  let agent := mkAgentInfo "dcb80b8a-66bd-11ee-b6c3-02094d1ce055" "Elizabeth"
                           "elizabeth@ltrealestateco.com" "PD2" "PD2" in
  let prop := mkPropertyInfo "p-1" "Maple Court" "12 Maple St" "Fresno" "CA" in
  Slots avail = [slot]
  ∧ spec.contains (main.formatMessage prop agent avail 12)
      (("📅 AVAILABLE SHOWING TIMES:" +:+ main.LF +:+ main.LF) +:+
       (Date slot +:+ ":" +:+ main.LF +:+ "  • " +:+ Time slot +:+ main.LF)).
Proof.
  cbv zeta. split; [reflexivity|].
  apply (first_slot_is_shown _ _ _ 12 _ []). reflexivity.
Defined.

End FormatterFirst.

(* ===================================================================== *)
(** * Outcomes of the pipeline *)
(* ===================================================================== *)

Section PipelineOutcomes.

Import models.

(** Step 4, as a condition on its outcome. *)
Lemma found_iff env req extractedPropertyID propID :
  (if negb (String.eqb extractedPropertyID "")
   then main.Ok extractedPropertyID
   else main.FindPropertyID env (main.Query req)) = main.Ok propID
  ↔ stages.found env req extractedPropertyID propID.
Proof.
  unfold stages.found.
  destruct (String.eqb_spec extractedPropertyID "") as [->|Hne]; cbn [negb].
  - split.
    + intros H. right. split; [reflexivity | exact H].
    + intros [[Hne _]|[_ H]]; [contradiction | exact H].
  - split.
    + intros [= <-]. left. split; [exact Hne | reflexivity].
    + intros [[_ ->]|[-> _]]; [reflexivity | contradiction].
Qed.

(** At most [max] slots are kept, the first ones. *)
Lemma limitSlots_take (slots : list TimeSlot) (max : Z) :
  0 <= max →
  main.limitSlots slots max = take (Z.to_nat max) slots
  ∧ main.len (main.limitSlots slots max) <= max.
Proof.
  intros Hmax. unfold main.limitSlots, main.len.
  destruct (Z.ltb_spec max (Z.of_nat (length slots))) as [Hlt|Hge].
  - split; [reflexivity|]. rewrite length_take. lia.
  - split; [|lia]. symmetry. apply take_ge. lia.
Qed.

(** The run of the stages: a case for each place where the invocation
    can end. *)
Local Ltac run_stages env req id :=
  unfold main.HandleRequest;
  destruct (String.eqb (main.Query req) "") eqn:Hquery;
  [| destruct (if negb (String.eqb id "") then _ else _)
       as [propID|e1] eqn:Hfind;
     [ destruct (main.GetProperty env propID) as [prop|e2] eqn:Hprop;
       [ destruct (main.GetPropertyGroups env _) as [groups|e3] eqn:Hgroups;
         [ destruct (mapper.MapAgent _ groups) as [agent|] eqn:Hagent;
           [ destruct (main.GetAccessToken env _) as [token|e5] eqn:Htoken;
             [ destruct (main.LoadLocation env "America/Los_Angeles")
                 as [pstLoc|] eqn:Hloc;
               [ destruct (main.GetBusySlots env token _ _ _)
                   as [busySlots|e7] eqn:Hbusy;
                 [ destruct (logic.GenerateAvailableSlots _ busySlots _)
                     as [[availableSlots daysChecked] totalSlots] eqn:Hgen
                 | ]
               | ]
             | ]
           | ]
         | ]
       | ]
     | ] ].

(** The stages up to the calendar request, found one after the other. *)
Lemma authorized_run env req extractedPropertyID prop agent token pstLoc :
  stages.authorized env req extractedPropertyID prop agent token pstLoc →
  main.HandleRequest env req extractedPropertyID
  = let now := stages.now env pstLoc in
    match main.GetBusySlots env token (Email agent) now (time.AddDate now 0 0 7) with
    | main.Err _ =>
        main.Returned (main.successResponse
          {| Success := false;
             Property := main.mapPropertyInfo prop;
             Agent := agent;
             Availability_ := Availability_zero;
             Message := "Failed to read calendar.";
             FormattedMsg :=
               "I'm having trouble checking " +:+ Name agent +:+
               "'s availability. Please contact them directly at " +:+
               Email agent +:+ "." |})
    | main.Ok busySlots =>
        let generated :=
          logic.GenerateAvailableSlots (main.LoadLocation env) busySlots now in
        let avail :=
          {| TotalSlotsAvailable := main.len generated.1.1;
             DaysChecked := generated.1.2;
             Slots := main.limitSlots generated.1.1 30 |} in
        main.Returned (main.successResponse
          {| Success := true;
             Property := main.mapPropertyInfo prop;
             Agent := agent;
             Availability_ := avail;
             Message := "Success";
             FormattedMsg :=
               main.formatMessage (main.mapPropertyInfo prop) agent avail
                                  generated.2 |})
    end.
Proof.
  intros ((Hquery & propID & groups & Hfound & Hprop & Hgroups & Hagent)
          & Htoken & Hloc).
  unfold main.HandleRequest.
  apply String.eqb_neq in Hquery. rewrite Hquery.
  apply found_iff in Hfound. rewrite Hfound, Hprop, Hgroups, Hagent, Htoken, Hloc.
  cbv zeta. fold (stages.now env pstLoc).
  destruct (main.GetBusySlots env token _ _ _) as [busySlots|e]; [|reflexivity].
  destruct (logic.GenerateAvailableSlots _ busySlots _)
    as [[availableSlots daysChecked] totalSlots].
  reflexivity.
Qed.

(** X13.  When every stage succeeds, the invocation returns status 200
    with the JSON content type and a response body with [success]
    true, the id, name, address, city and state of the property and the
    agent that were resolved, the number of free slots the generator
    returned for the calendar's busy intervals and the reference
    instant in Los Angeles, its count of days, and the first thirty of
    those slots, never more. *)
Theorem all_stages_succeed env req extractedPropertyID prop agent token pstLoc
    busySlots :
  stages.authorized env req extractedPropertyID prop agent token pstLoc →
  main.GetBusySlots env token (Email agent) (stages.now env pstLoc)
    (time.AddDate (stages.now env pstLoc) 0 0 7) = main.Ok busySlots →
  ∃ resp,
    main.HandleRequest env req extractedPropertyID
    = main.Returned
        (main.mkLambdaResponse 200 [("Content-Type", "application/json")]
           (main.ResponseBody resp))
    ∧ Success resp = true ∧ Message resp = "Success"
    ∧ Property resp
      = mkPropertyInfo (AppFolioProperty_ID prop) (AppFolioProperty_Name prop)
                       (Address1 prop) (City prop) (State prop)
    ∧ Agent resp = agent
    ∧ (let generated :=
         logic.GenerateAvailableSlots (main.LoadLocation env) busySlots
           (stages.now env pstLoc) in
       Slots (Availability_ resp) = take 30 generated.1.1
       ∧ main.len (Slots (Availability_ resp)) <= 30
       ∧ TotalSlotsAvailable (Availability_ resp) = main.len generated.1.1
       ∧ DaysChecked (Availability_ resp) = generated.1.2
       ∧ FormattedMsg resp
         = main.formatMessage (Property resp) agent (Availability_ resp)
                              generated.2).
Proof.
  intros Hauth Hbusy. rewrite (authorized_run _ _ _ _ _ _ _ Hauth).
  cbv zeta. rewrite Hbusy.
  eexists. split; [reflexivity|].
  cbn [Success Message Property Agent Availability_ Slots TotalSlotsAvailable
       DaysChecked FormattedMsg].
  repeat (split; [reflexivity|]).
  destruct (limitSlots_take
              (logic.GenerateAvailableSlots (main.LoadLocation env) busySlots
                 (stages.now env pstLoc)).1.1 30 ltac:(lia)) as (Htake & Hlen).
  split; [exact Htake|]. split; [exact Hlen|].
  repeat split.
Qed.

(** The stages of the sample invocation succeed. *)
Lemma sample_authorized :
  stages.authorized stages.sampleEnv stages.sampleRequest ""
    stages.sampleProperty stages.sampleAgent "ya29.token" tzdata.LosAngeles.
Proof.
  split; [split; [discriminate|]|split; reflexivity].
  exists "p-1", [mkAppFolioGroup "g-7" "ops"; mkAppFolioGroup "g-9" " pd2 "].
  split; [right; split; reflexivity|]. repeat split.
Qed.

Lemma sample_busy :
  main.GetBusySlots stages.sampleEnv "ya29.token" (Email stages.sampleAgent)
    (stages.now stages.sampleEnv tzdata.LosAngeles)
    (time.AddDate (stages.now stages.sampleEnv tzdata.LosAngeles) 0 0 7)
  = main.Ok stages.sampleBusy.
Proof. reflexivity. Qed.

Lemma all_stages_succeed_witness :
  (stages.authorized stages.sampleEnv stages.sampleRequest ""
     stages.sampleProperty stages.sampleAgent "ya29.token" tzdata.LosAngeles
   ∧ main.GetBusySlots stages.sampleEnv "ya29.token" (Email stages.sampleAgent)
       (stages.now stages.sampleEnv tzdata.LosAngeles)
       (time.AddDate (stages.now stages.sampleEnv tzdata.LosAngeles) 0 0 7)
     = main.Ok stages.sampleBusy)
  ∧ ∃ resp,
      main.HandleRequest stages.sampleEnv stages.sampleRequest ""
      = main.Returned
          (main.mkLambdaResponse 200 [("Content-Type", "application/json")]
             (main.ResponseBody resp))
      ∧ Success resp = true ∧ Message resp = "Success"
      ∧ Property resp
        = mkPropertyInfo "p-1" "Maple Court" "12 Maple St" "Fresno" "CA"
      ∧ Agent resp = stages.sampleAgent
      ∧ (let generated :=
           logic.GenerateAvailableSlots (main.LoadLocation stages.sampleEnv)
             stages.sampleBusy (stages.now stages.sampleEnv tzdata.LosAngeles) in
         Slots (Availability_ resp) = take 30 generated.1.1
         ∧ main.len (Slots (Availability_ resp)) <= 30
         ∧ TotalSlotsAvailable (Availability_ resp) = main.len generated.1.1
         ∧ DaysChecked (Availability_ resp) = generated.1.2
         ∧ FormattedMsg resp
           = main.formatMessage (Property resp) stages.sampleAgent
                                (Availability_ resp) generated.2).
Proof.
  split; [split; [exact sample_authorized | exact sample_busy]|].
  exact (all_stages_succeed _ _ _ _ _ _ _ _ sample_authorized sample_busy).
Defined.

Lemma In_take {A} (x : A) (n : nat) (l : list A) : In x (take n l) → In x l.
Proof.
  revert n. induction l as [|a l IH]; intros [|n]; cbn [take In];
    [tauto | tauto | tauto |].
  intros [->|H]; [left; reflexivity | right; exact (IH n H)].
Qed.

(** X14.  A response with [success] true comes only from an invocation
    in which every stage succeeded, and every slot it lists is one the
    generator returned for the busy intervals the calendar reported. *)
Theorem success_needs_every_stage env req extractedPropertyID resp :
  main.HandleRequest env req extractedPropertyID
  = main.Returned (main.successResponse resp) →
  Success resp = true →
  ∃ prop agent token pstLoc busySlots,
    stages.authorized env req extractedPropertyID prop agent token pstLoc
    ∧ main.GetBusySlots env token (Email agent) (stages.now env pstLoc)
        (time.AddDate (stages.now env pstLoc) 0 0 7) = main.Ok busySlots
    ∧ Property resp
      = mkPropertyInfo (AppFolioProperty_ID prop) (AppFolioProperty_Name prop)
                       (Address1 prop) (City prop) (State prop)
    ∧ Agent resp = agent
    ∧ ∀ slot,
        In slot (Slots (Availability_ resp)) →
        In slot (logic.GenerateAvailableSlots (main.LoadLocation env) busySlots
                   (stages.now env pstLoc)).1.1.
Proof.
  intros H Hs. revert H. run_stages env req extractedPropertyID;
    unfold main.successResponse, main.errorResponse; intros H;
    try discriminate H; try (injection H as <-; discriminate Hs).
  injection H as <-.
  exists prop, agent, token, pstLoc, busySlots.
  split; [|split; [exact Hbusy|]].
  - split; [split|split; [exact Htoken | exact Hloc]].
    + apply String.eqb_neq, Hquery.
    + exists propID, groups. apply found_iff in Hfind. repeat split; assumption.
  - cbn [Property Agent Availability_ Slots].
    split; [reflexivity|]. split; [reflexivity|].
    intros slot Hin. fold (stages.now env pstLoc) in Hgen. rewrite Hgen.
    cbn [fst]. destruct (limitSlots_take availableSlots 30 ltac:(lia)) as (Ht & _).
    rewrite Ht in Hin. exact (In_take _ _ _ Hin).
Qed.

Lemma success_needs_every_stage_witness :
  ∃ resp,
    (main.HandleRequest stages.sampleEnv stages.sampleRequest ""
     = main.Returned (main.successResponse resp)
     ∧ Success resp = true)
    ∧ ∃ prop agent token pstLoc busySlots,
        stages.authorized stages.sampleEnv stages.sampleRequest ""
          prop agent token pstLoc
        ∧ main.GetBusySlots stages.sampleEnv token (Email agent)
            (stages.now stages.sampleEnv pstLoc)
            (time.AddDate (stages.now stages.sampleEnv pstLoc) 0 0 7)
          = main.Ok busySlots
        ∧ Property resp
          = mkPropertyInfo (AppFolioProperty_ID prop) (AppFolioProperty_Name prop)
                           (Address1 prop) (City prop) (State prop)
        ∧ Agent resp = agent
        ∧ ∀ slot,
            In slot (Slots (Availability_ resp)) →
            In slot (logic.GenerateAvailableSlots
                       (main.LoadLocation stages.sampleEnv) busySlots
                       (stages.now stages.sampleEnv pstLoc)).1.1.
Proof.
  pose proof (authorized_run _ _ _ _ _ _ _ sample_authorized) as Hrun.
  cbv zeta in Hrun. rewrite sample_busy in Hrun.
  eexists. split; [split; [exact Hrun | reflexivity]|].
  exact (success_needs_every_stage _ _ _ _ Hrun eq_refl).
Defined.

(** X15.  Whatever the external services answer, a response that
    reports a failure lists no availability: an invocation that returns
    answers status 400 for an empty query and nothing else, and status
    200 otherwise, then either with [success] true and the message
    "Success", or with [success] false, another message, a formatted
    message, and the empty availability. *)
Theorem failure_lists_no_availability env req extractedPropertyID r :
  main.HandleRequest env req extractedPropertyID = main.Returned r →
  (main.Query req = ""
   ∧ r = main.mkLambdaResponse 400 [("Content-Type", "application/json")]
           (main.ErrorBody "Query is required"))
  ∨ (main.Query req ≠ "" ∧ main.StatusCode r = 200
     ∧ ∃ resp,
         main.Body_ r = main.ResponseBody resp
         ∧ (Success resp = true ∧ Message resp = "Success"
            ∨ Success resp = false ∧ Message resp ≠ "Success"
              ∧ FormattedMsg resp ≠ ""
              ∧ Availability_ resp = Availability_zero)).
Proof.
  run_stages env req extractedPropertyID; intros H; try discriminate H;
    injection H as <-.
  1: left; split; [apply String.eqb_eq, Hquery | reflexivity].
  all: right; split; [apply String.eqb_neq, Hquery|]; split; [reflexivity|];
    eexists; split; [reflexivity|];
    cbn [Success Message FormattedMsg Availability_].
  1: left; split; reflexivity.
  all: right; repeat split; discriminate.
Qed.

Lemma failure_lists_no_availability_witness :
  ∃ r,
    main.HandleRequest stages.sampleEnv (main.mkRequest "" "555-0100") ""
    = main.Returned r
    ∧ ((main.Query (main.mkRequest "" "555-0100") = ""
        ∧ r = main.mkLambdaResponse 400 [("Content-Type", "application/json")]
                (main.ErrorBody "Query is required"))
       ∨ (main.Query (main.mkRequest "" "555-0100") ≠ ""
          ∧ main.StatusCode r = 200
          ∧ ∃ resp,
              main.Body_ r = main.ResponseBody resp
              ∧ (Success resp = true ∧ Message resp = "Success"
                 ∨ Success resp = false ∧ Message resp ≠ "Success"
                   ∧ FormattedMsg resp ≠ ""
                   ∧ Availability_ resp = Availability_zero))).
Proof.
  eexists. split; [reflexivity|].
  exact (failure_lists_no_availability stages.sampleEnv
           (main.mkRequest "" "555-0100") "" _ eq_refl).
Defined.

(** X16.  The invocation panics exactly when the agent is resolved, a
    credential is fetched and the time-zone database has no
    "America/Los_Angeles": with that zone present it always returns. *)
Theorem panics_without_zone_data env req extractedPropertyID reason :
  main.HandleRequest env req extractedPropertyID = main.Panicked reason
  ↔ reason = "time: missing Location in call to Time.In"
    ∧ main.LoadLocation env "America/Los_Angeles" = None
    ∧ ∃ prop agent token,
        stages.resolved env req extractedPropertyID prop agent
        ∧ main.GetAccessToken env (Email agent) = main.Ok token.
Proof.
  split.
  - run_stages env req extractedPropertyID; intros H; try discriminate H.
    injection H as <-. split; [reflexivity|]. split; [reflexivity|].
    exists prop, agent, token. split; [|exact Htoken].
    split; [apply String.eqb_neq, Hquery|].
    exists propID, groups. apply found_iff in Hfind. repeat split; assumption.
  - intros (-> & Hloc & prop & agent & token
            & (Hquery & propID & groups & Hfound & Hprop & Hgroups & Hagent)
            & Htoken).
    unfold main.HandleRequest.
    apply String.eqb_neq in Hquery. rewrite Hquery.
    apply found_iff in Hfound.
    rewrite Hfound, Hprop, Hgroups, Hagent, Htoken, Hloc. reflexivity.
Qed.

(** X17.  With an extracted property id the search service plays no
    part: the invocation is the same whatever the search would answer. *)
Theorem extracted_id_skips_search env find req extractedPropertyID :
  extractedPropertyID ≠ "" →
  main.HandleRequest
    (main.mkEnv find (main.GetProperty env) (main.GetPropertyGroups env)
                (main.GetAccessToken env) (main.GetBusySlots env) (main.Now env)
                (main.LoadLocation env) (main.unicodeUpper env))
    req extractedPropertyID
  = main.HandleRequest env req extractedPropertyID.
Proof.
  intros Hne. apply String.eqb_neq in Hne. unfold main.HandleRequest.
  cbn [main.FindPropertyID main.GetProperty main.GetPropertyGroups
       main.GetAccessToken main.GetBusySlots main.Now main.LoadLocation
       main.unicodeUpper].
  rewrite Hne. reflexivity.
Qed.

Lemma extracted_id_skips_search_witness :
  "p-1" ≠ ""
  ∧ main.HandleRequest
      (main.mkEnv (fun _ => main.Err "search service error: 503")
                  (main.GetProperty stages.sampleEnv)
                  (main.GetPropertyGroups stages.sampleEnv)
                  (main.GetAccessToken stages.sampleEnv)
                  (main.GetBusySlots stages.sampleEnv) (main.Now stages.sampleEnv)
                  (main.LoadLocation stages.sampleEnv)
                  (main.unicodeUpper stages.sampleEnv))
      stages.sampleRequest "p-1"
    = main.HandleRequest stages.sampleEnv stages.sampleRequest "p-1".
Proof.
  split; [discriminate|].
  apply (extracted_id_skips_search stages.sampleEnv). discriminate.
Defined.

(** X18.  The id the search finds is treated like an extracted one: the
    invocation without an extracted id is the invocation with the id
    the search returns as the extracted id. *)
Theorem found_id_is_like_extracted env req propID :
  main.FindPropertyID env (main.Query req) = main.Ok propID →
  main.HandleRequest env req ""
  = main.HandleRequest env req propID.
Proof.
  intros Hfind. unfold main.HandleRequest.
  destruct (String.eqb_spec propID "") as [->|Hne]; [reflexivity|].
  cbn [String.eqb negb]. rewrite Hfind. reflexivity.
Qed.

Lemma found_id_is_like_extracted_witness :
  main.FindPropertyID stages.sampleEnv (main.Query stages.sampleRequest)
  = main.Ok "p-1"
  ∧ main.HandleRequest stages.sampleEnv stages.sampleRequest ""
    = main.HandleRequest stages.sampleEnv stages.sampleRequest "p-1".
Proof.
  split; [reflexivity|].
  apply (found_id_is_like_extracted stages.sampleEnv). reflexivity.
Defined.

End PipelineOutcomes.

(* ===================================================================== *)
(** * The clients' answers in the pipeline *)
(* ===================================================================== *)

Section ClientAnswers.

Import models.

(** X19.  The id the search client returns is taken from the first
    result alone: it succeeds exactly when that result has a non-empty
    [PropertyID] or one of the metadata entries "PropertyId",
    "property_id", "Id", "id", and the id is then one of these. *)
Theorem FindPropertyID_first_result post query resp first others :
  post query = main.Ok resp →
  clients.Results resp = first :: others →
  ((∃ id, clients.FindPropertyID post query = main.Ok id)
   ↔ clients.PropertyID first ≠ ""
     ∨ ∃ key, In key ["PropertyId"; "property_id"; "Id"; "id"]
              ∧ is_Some (clients.Metadata first !! key))
  ∧ (∀ id, clients.FindPropertyID post query = main.Ok id →
       id = clients.PropertyID first ∧ id ≠ ""
       ∨ ∃ key, In key ["PropertyId"; "property_id"; "Id"; "id"]
                ∧ clients.Metadata first !! key = Some id)
  ∧ (∀ e, clients.FindPropertyID post query = main.Err e →
       e = "property ID missing in search result").
Proof.
  intros Hpost Hres. unfold clients.FindPropertyID. rewrite Hpost, Hres.
  destruct (clients.Metadata first !! "PropertyId") as [v1|] eqn:H1;
    [|destruct (clients.Metadata first !! "property_id") as [v2|] eqn:H2;
      [|destruct (String.eqb_spec (clients.PropertyID first) "") as [He|Hne];
        cbn [negb];
        [destruct (clients.Metadata first !! "Id") as [v3|] eqn:H3;
         [|destruct (clients.Metadata first !! "id") as [v4|] eqn:H4]|]]].
  all: split; [split|split].
  all: try match goal with
           | |- (∃ id, main.Ok _ = main.Ok id) → _ =>
               intros _;
               first [ left; exact Hne
                     | right; eexists; split; [|eexists; eassumption];
                       cbn [In]; tauto ]
           | |- _ → ∃ id, main.Ok _ = main.Ok id =>
               intros _; eexists; reflexivity
           | |- ∀ id, main.Ok _ = main.Ok id → _ =>
               intros id [= <-];
               first [ left; split; [reflexivity | exact Hne]
                     | right; eexists; split; [|eassumption]; cbn [In]; tauto ]
           | |- ∀ e, main.Ok _ = main.Err e → _ => intros e H; discriminate H
           | |- ∀ id, main.Err _ = main.Ok id → _ => intros id H; discriminate H
           | |- ∀ e, main.Err _ = main.Err e → _ => intros e [= <-]; reflexivity
           | |- (∃ id, main.Err _ = main.Ok id) → _ =>
               intros (id & H); discriminate H
           end.
  intros [Hne|(key & Hkey & Hsome)]; [contradiction|].
  cbn [In] in Hkey.
  destruct Hkey as [<-|[<-|[<-|[<-|[]]]]]; destruct Hsome as (v & Hv); congruence.
Qed.

Lemma FindPropertyID_first_result_witness :
  let first := clients.mkSearchResult "p-9" {[ "property_id" := "p-1" ]} in
  let resp := clients.mkSearchResponse 2 [first; clients.mkSearchResult "p-2" ∅] in
  let post := fun _ : string => main.Ok resp in
  (post "12 Maple St" = main.Ok resp ∧ clients.Results resp = first :: [clients.mkSearchResult "p-2" ∅])
  ∧ ((∃ id, clients.FindPropertyID post "12 Maple St" = main.Ok id)
     ↔ clients.PropertyID first ≠ ""
       ∨ ∃ key, In key ["PropertyId"; "property_id"; "Id"; "id"]
                ∧ is_Some (clients.Metadata first !! key))
  ∧ (∀ id, clients.FindPropertyID post "12 Maple St" = main.Ok id →
       id = clients.PropertyID first ∧ id ≠ ""
       ∨ ∃ key, In key ["PropertyId"; "property_id"; "Id"; "id"]
                ∧ clients.Metadata first !! key = Some id)
  ∧ (∀ e, clients.FindPropertyID post "12 Maple St" = main.Err e →
       e = "property ID missing in search result").
Proof.
  cbv zeta. split; [split; reflexivity|].
  apply (FindPropertyID_first_result
           (fun _ => main.Ok (clients.mkSearchResponse 2
              [clients.mkSearchResult "p-9" {[ "property_id" := "p-1" ]};
               clients.mkSearchResult "p-2" ∅]))
           "12 Maple St"
           (clients.mkSearchResponse 2
              [clients.mkSearchResult "p-9" {[ "property_id" := "p-1" ]};
               clients.mkSearchResult "p-2" ∅])
           (clients.mkSearchResult "p-9" {[ "property_id" := "p-1" ]})
           [clients.mkSearchResult "p-2" ∅]); reflexivity.
Defined.

(** X20.  A property without group ids has no agent: no request for
    groups is sent, and the invocation answers with status 200, the
    JSON content type and a body with [success] false, the id, name,
    address, city and state of the property, no agent, the empty
    availability and the message that no leasing agent is assigned,
    whatever the AppFolio groups endpoint would have answered. *)
Theorem no_group_ids_no_agent x now tzdb unicodeUpper req extractedPropertyID
    propID prop :
  let env := clients.env x now tzdb unicodeUpper in
  main.Query req ≠ "" →
  stages.found env req extractedPropertyID propID →
  main.GetProperty env propID = main.Ok prop →
  PropertyGroupIds prop = [] →
  main.HandleRequest env req extractedPropertyID
  = main.Returned
      (main.mkLambdaResponse 200 [("Content-Type", "application/json")]
         (main.ResponseBody
            {| Success := false;
               Property :=
                 mkPropertyInfo (AppFolioProperty_ID prop)
                                (AppFolioProperty_Name prop)
                                (Address1 prop) (City prop) (State prop);
               Agent := mkAgentInfo "" "" "" "" "";
               Availability_ := mkAvailability 0 0 [];
               Message := "No leasing agent assigned (No PD group).";
               FormattedMsg :=
                 "I checked " +:+ Address1 prop +:+
                 ", but there doesn't seem to be a leasing agent assigned to it yet."
            |})).
Proof.
  intros env Hquery Hfound Hprop Hids. unfold main.HandleRequest.
  apply String.eqb_neq in Hquery. rewrite Hquery.
  apply found_iff in Hfound. rewrite Hfound, Hprop, Hids.
  reflexivity.
Qed.

Lemma no_group_ids_no_agent_witness :
  let prop := mkAppFolioProperty "p-1" "Maple Court" "12 Maple St" "Fresno" "CA" [] in
  let x :=
    clients.mkExchanges
      (clients.searchPost stages.sampleExchanges)
      (fun _ => main.Ok [prop])
      (fun _ => main.Err "AppFolio API error: 500 Internal Server Error")
      (clients.tokenGet stages.sampleExchanges)
      (clients.freeBusyPost stages.sampleExchanges) in
  let env := clients.env x (main.Now stages.sampleEnv) tzdata.embedded (fun s => s) in
  (main.Query stages.sampleRequest ≠ ""
   ∧ stages.found env stages.sampleRequest "" "p-1"
   ∧ main.GetProperty env "p-1" = main.Ok prop
   ∧ PropertyGroupIds prop = [])
  ∧ main.HandleRequest env stages.sampleRequest ""
    = main.Returned
        (main.mkLambdaResponse 200 [("Content-Type", "application/json")]
           (main.ResponseBody
              {| Success := false;
                 Property :=
                   mkPropertyInfo "p-1" "Maple Court" "12 Maple St" "Fresno" "CA";
                 Agent := mkAgentInfo "" "" "" "" "";
                 Availability_ := mkAvailability 0 0 [];
                 Message := "No leasing agent assigned (No PD group).";
                 FormattedMsg :=
                   "I checked 12 Maple St, but there doesn't seem to be a leasing agent assigned to it yet."
              |})).
Proof.
  cbv zeta.
  split; [split; [discriminate|]; split; [right; split; reflexivity|];
          split; reflexivity|].
  apply (no_group_ids_no_agent _ _ _ _ _ "" "p-1"
           (mkAppFolioProperty "p-1" "Maple Court" "12 Maple St" "Fresno" "CA" [])).
  - discriminate.
  - right. split; reflexivity.
  - reflexivity.
  - reflexivity.
Defined.

(** X21.  A calendar answer that has no entry for the agent's email, or
    whose entry for it reports an error, is a failed read even when it
    lists busy intervals: the invocation returns status 200 with the
    JSON content type and a body with [success] false, the id, name,
    address, city and state of the property, the agent, the empty
    availability, the message that the calendar could not be read, and
    a formatted message that names the agent's email as the contact. *)
Theorem calendar_error_is_failed_read x now tzdb unicodeUpper req
    extractedPropertyID prop agent token pstLoc calendars :
  let env := clients.env x now tzdb unicodeUpper in
  stages.authorized env req extractedPropertyID prop agent token pstLoc →
  clients.freeBusyPost x token (Email agent) (stages.now env pstLoc)
    (time.AddDate (stages.now env pstLoc) 0 0 7) = main.Ok calendars →
  (∀ calendar, calendars !! Email agent = Some calendar →
               clients.Errors calendar ≠ []) →
  ∃ resp,
    main.HandleRequest env req extractedPropertyID
    = main.Returned
        (main.mkLambdaResponse 200 [("Content-Type", "application/json")]
           (main.ResponseBody resp))
    ∧ Success resp = false ∧ Message resp = "Failed to read calendar."
    ∧ Property resp
      = mkPropertyInfo (AppFolioProperty_ID prop) (AppFolioProperty_Name prop)
                       (Address1 prop) (City prop) (State prop)
    ∧ Agent resp = agent
    ∧ Availability_ resp = mkAvailability 0 0 []
    ∧ spec.contains (FormattedMsg resp) (Email agent).
Proof.
  intros env Hauth Hpost Herr. rewrite (authorized_run _ _ _ _ _ _ _ Hauth).
  cbv zeta.
  assert (Hbusy : ∃ e, main.GetBusySlots env token (Email agent)
                         (stages.now env pstLoc)
                         (time.AddDate (stages.now env pstLoc) 0 0 7)
                       = main.Err e).
  { unfold env at 1. cbn [clients.env main.GetBusySlots].
    unfold clients.GetBusySlots. fold env. rewrite Hpost.
    destruct (calendars !! Email agent) as [calendar|] eqn:Hcal;
      [|eexists; reflexivity].
    specialize (Herr calendar eq_refl).
    destruct (clients.Errors calendar); [contradiction | eexists; reflexivity]. }
  destruct Hbusy as (e & ->).
  eexists. split; [reflexivity|].
  cbn [Success Message Property Agent Availability_ FormattedMsg].
  repeat (split; [reflexivity|]).
  rewrite <- !string_app_assoc, string_app_assoc. apply contains_middle.
Qed.

Lemma calendar_error_is_failed_read_witness :
  let x :=
    clients.mkExchanges
      (clients.searchPost stages.sampleExchanges)
      (clients.propertyGet stages.sampleExchanges)
      (clients.groupsGet stages.sampleExchanges)
      (clients.tokenGet stages.sampleExchanges)
      (fun _ email _ _ =>
         main.Ok {[ email := clients.mkFreeBusyCalendar stages.sampleBusy
                               [clients.mkError "global" "notFound"] ]}) in
  let env := clients.env x (main.Now stages.sampleEnv) tzdata.embedded (fun s => s) in
  ∃ resp,
    main.HandleRequest env stages.sampleRequest ""
    = main.Returned
        (main.mkLambdaResponse 200 [("Content-Type", "application/json")]
           (main.ResponseBody resp))
    ∧ Success resp = false ∧ Message resp = "Failed to read calendar."
    ∧ Property resp
      = mkPropertyInfo "p-1" "Maple Court" "12 Maple St" "Fresno" "CA"
    ∧ Agent resp = stages.sampleAgent
    ∧ Availability_ resp = mkAvailability 0 0 []
    ∧ spec.contains (FormattedMsg resp) (Email stages.sampleAgent).
Proof.
  cbv zeta.
  eapply (calendar_error_is_failed_read _ _ _ _ _ "" stages.sampleProperty
            stages.sampleAgent "ya29.token" tzdata.LosAngeles).
  - split; [split; [discriminate|]|split; reflexivity].
    exists "p-1", [mkAppFolioGroup "g-7" "ops"; mkAppFolioGroup "g-9" " pd2 "].
    split; [right; split; reflexivity|]. repeat split.
  - reflexivity.
  - intros calendar Hcal. vm_compute in Hcal. injection Hcal as <-. discriminate.
Defined.

End ClientAnswers.

(* ===================================================================== *)
(** * The tool-calls branch and the language matching *)
(* ===================================================================== *)

Section ToolCalls.

(** The candidate made from result [r] at index [n] of a message. *)
Local Abbreviation candidateOf n r :=
  (clients.mkAddressCandidate n (vapi.Address1 (vapi.Metadata r))
                              (vapi.PropertyId (vapi.Metadata r))).

(** The loop over the results of a message adds, after the candidates
    it starts with, the results that have an address and an id. *)
Lemma resultsLoop_In results : ∀ i acc c,
  In c (vapi.resultsLoop i results acc)
  ↔ In c acc
    ∨ ∃ (n : nat) r,
        results !! n = Some r
        ∧ vapi.Address1 (vapi.Metadata r) ≠ ""
        ∧ vapi.PropertyId (vapi.Metadata r) ≠ ""
        ∧ c = candidateOf (i + Z.of_nat n) r.
Proof.
  induction results as [|result results IH]; intros i acc c;
    cbn [vapi.resultsLoop].
  - split; [left; assumption|].
    intros [H|(n & r & H & _)]; [exact H | discriminate H].
  - rewrite IH. clear IH. split.
    + intros [Hin|(n & r & Hn & Ha & Hp & ->)].
      * destruct (String.eqb_spec (vapi.Address1 (vapi.Metadata result)) "")
          as [|Ha]; cbn [negb andb] in Hin; [left; exact Hin|].
        destruct (String.eqb_spec (vapi.PropertyId (vapi.Metadata result)) "")
          as [|Hp]; cbn [negb] in Hin; [left; exact Hin|].
        apply in_app_or in Hin as [Hin|[<-|[]]]; [left; exact Hin|].
        right. exists 0%nat, result. rewrite Z.add_0_r. repeat split; assumption.
      * right. exists (S n), r. split; [exact Hn|]. split; [exact Ha|].
        split; [exact Hp|]. f_equal. lia.
    + intros [Hin|(n & r & Hn & Ha & Hp & ->)].
      * left. destruct (_ && _); [apply in_or_app; left|]; exact Hin.
      * destruct n as [|n]; cbn [lookup list_lookup] in Hn.
        -- injection Hn as ->. left.
           apply String.eqb_neq in Ha, Hp. rewrite Ha, Hp. cbn [negb andb].
           apply in_or_app. right. left. f_equal. lia.
        -- right. exists n, r. split; [exact Hn|]. split; [exact Ha|].
           split; [exact Hp|]. f_equal. lia.
Qed.

(** The loop over the messages, from any candidates collected before. *)
Lemma messages_fold_In messages : ∀ acc c,
  In c (foldl (fun candidates msg =>
                 if String.eqb (vapi.Role msg) "tool_call_result" then
                   match vapi.Result msg with
                   | Some result => vapi.resultsLoop 0 (vapi.Results result) candidates
                   | None => candidates
                   end
                 else candidates) acc messages)
  ↔ In c acc
    ∨ ∃ msg result (n : nat) r,
        In msg messages
        ∧ vapi.Role msg = "tool_call_result"
        ∧ vapi.Result msg = Some result
        ∧ vapi.Results result !! n = Some r
        ∧ vapi.Address1 (vapi.Metadata r) ≠ ""
        ∧ vapi.PropertyId (vapi.Metadata r) ≠ ""
        ∧ c = candidateOf (Z.of_nat n) r.
Proof.
  induction messages as [|msg messages IH]; intros acc c; cbn [foldl].
  - split; [left; assumption|].
    intros [H|(msg & result & n & r & [] & _)]. exact H.
  - rewrite IH. clear IH. split.
    + intros [Hin|(m & result & n & r & Hm & Hrest)].
      * destruct (String.eqb_spec (vapi.Role msg) "tool_call_result") as [Hrole|];
          [|left; exact Hin].
        destruct (vapi.Result msg) as [result|] eqn:Hres; [|left; exact Hin].
        apply resultsLoop_In in Hin as [Hin|(n & r & Hn & Ha & Hp & ->)];
          [left; exact Hin|].
        right. exists msg, result, n, r.
        split; [left; reflexivity|]. repeat split; assumption.
      * right. exists m, result, n, r. split; [right; exact Hm | exact Hrest].
    + intros [Hin|(m & result & n & r & [<-|Hm] & Hrole & Hres & Hn & Ha & Hp & ->)].
      * left. destruct (String.eqb _ _); [|exact Hin].
        destruct (vapi.Result msg); [|exact Hin].
        apply resultsLoop_In. left. exact Hin.
      * left. rewrite Hrole, Hres. cbn [String.eqb Ascii.eqb Bool.eqb andb].
        apply resultsLoop_In. right. exists n, r. repeat split; assumption.
      * right. exists m, result, n, r. repeat split; assumption.
Qed.

(** X22.  The address candidates collected from a tool-calls payload
    are exactly the results of its "tool_call_result" messages that
    have both an address and a property id, each with its index among
    the results of its message. *)
Theorem collected_candidates messages c :
  In c (vapi.messagesLoop messages)
  ↔ ∃ msg result (n : nat) r,
      In msg messages
      ∧ vapi.Role msg = "tool_call_result"
      ∧ vapi.Result msg = Some result
      ∧ vapi.Results result !! n = Some r
      ∧ vapi.Address1 (vapi.Metadata r) ≠ ""
      ∧ vapi.PropertyId (vapi.Metadata r) ≠ ""
      ∧ c = candidateOf (Z.of_nat n) r.
Proof.
  unfold vapi.messagesLoop. rewrite messages_fold_In.
  split; [intros [[]|H]; exact H | intros H; right; exact H].
Qed.

(** The address list of the prompt: a line for each candidate, numbered
    by its position. *)
Lemma addressLoop_lines candidates : ∀ i addressList,
  clients.addressLoop i candidates addressList
  = addressList
    +:+ String.concat ""
          (imap (fun (k : nat) cand =>
                   pretty (i + Z.of_nat k) +:+ ". " +:+ clients.Address1 cand
                   +:+ main.LF)
                candidates).
Proof.
  induction candidates as [|cand candidates IH]; intros i addressList;
    cbn [clients.addressLoop].
  - cbn [imap String.concat]. rewrite string_app_nil_r. reflexivity.
  - rewrite IH, imap_cons, concat_cons, Z.add_0_r, !string_app_assoc.
    rewrite (imap_ext
               ((fun (k : nat) c =>
                   pretty (i + Z.of_nat k) +:+ ". " +:+ clients.Address1 c
                   +:+ main.LF) ∘ S)
               (fun (k : nat) c =>
                  pretty (i + 1 + Z.of_nat k) +:+ ". " +:+ clients.Address1 c
                  +:+ main.LF) candidates); [reflexivity|].
    intros k x _. cbn [compose]. do 2 f_equal. lia.
Qed.

(** X23.  The language matching returns only the property id of one of
    the candidates it was given: the prompt lists the candidates'
    addresses numbered from 0 by position, and the id returned is that
    of the candidate at the position the completion names, which is
    within the list. *)
Theorem matched_id_is_a_candidate wait complete scanInt query candidates id :
  clients.MatchAddressToQuery wait complete scanInt query candidates = main.Ok id →
  ∃ content others index cand,
    complete
      (clients.buildPrompt query
         (String.concat ""
            (imap (fun (k : nat) c =>
                     pretty (Z.of_nat k) +:+ ". " +:+ clients.Address1 c +:+ main.LF)
                  candidates)))
    = main.Ok (content :: others)
    ∧ scanInt content = Some index
    ∧ 0 <= index < main.len candidates
    ∧ candidates !! Z.to_nat index = Some cand
    ∧ In cand candidates
    ∧ id = clients.PropertyId cand.
Proof.
  unfold clients.MatchAddressToQuery.
  destruct (main.len candidates =? 0); [discriminate|].
  destruct wait as [[]|e]; [|discriminate].
  rewrite addressLoop_lines, string_app_nil_l.
  rewrite (imap_ext _ (fun (k : nat) c =>
             pretty (Z.of_nat k) +:+ ". " +:+ clients.Address1 c +:+ main.LF))
    by (intros; reflexivity).
  destruct (complete _) as [[|content others]|e] eqn:Hcomplete; try discriminate.
  destruct (scanInt content) as [index|] eqn:Hscan; [|discriminate].
  destruct (Z.ltb_spec index 0) as [|Hlo]; [discriminate|].
  destruct (Z.leb_spec (main.len candidates) index) as [|Hhi]; [discriminate|].
  cbn [orb]. intros [= <-].
  assert (Hlen : (Z.to_nat index < length candidates)%nat)
    by (unfold main.len in Hhi; lia).
  destruct (lookup_lt_is_Some_2 candidates _ Hlen) as (cand & Hcand).
  exists content, others, index, cand.
  split; [reflexivity|]. split; [exact Hscan|]. split; [lia|].
  split; [exact Hcand|]. split.
  - apply list_elem_of_In, list_elem_of_lookup. exists (Z.to_nat index). exact Hcand.
  - f_equal. apply nth_lookup_Some. exact Hcand.
Qed.

Lemma matched_id_is_a_candidate_witness :
  let candidates :=
    [clients.mkAddressCandidate 0 "12 Maple St" "p-1";
     clients.mkAddressCandidate 2 "828 Oak Ave" "p-7"] in
  let complete := fun _ : string => main.Ok ["1"] in
  let scanInt := fun content : string =>
                   if String.eqb content "1" then Some 1 else None in
  clients.MatchAddressToQuery (main.Ok tt) complete scanInt
    "eight twenty eight oak" candidates = main.Ok "p-7"
  ∧ ∃ content others index cand,
      complete
        (clients.buildPrompt "eight twenty eight oak"
           (String.concat ""
              (imap (fun (k : nat) c =>
                       pretty (Z.of_nat k) +:+ ". " +:+ clients.Address1 c
                       +:+ main.LF)
                    candidates)))
      = main.Ok (content :: others)
      ∧ scanInt content = Some index
      ∧ 0 <= index < main.len candidates
      ∧ candidates !! Z.to_nat index = Some cand
      ∧ In cand candidates
      ∧ "p-7" = clients.PropertyId cand.
Proof.
  cbv zeta. split; [reflexivity|].
  apply (matched_id_is_a_candidate (main.Ok tt) (fun _ => main.Ok ["1"])
           (fun content => if String.eqb content "1" then Some 1 else None)
           "eight twenty eight oak").
  reflexivity.
Defined.

(** X24.  In the tool-calls branch the property id handed to the
    pipeline is either empty, and then the search is used, or the
    property id of a result of a "tool_call_result" message of the
    payload that has an address; it is never empty in that case, and
    the key of the completion service and the query are present. *)
Theorem tool_calls_id_from_payload message openaiKey wait complete scanInt :
  let run :=
    vapi.toolCalls message openaiKey
      (clients.MatchAddressToQuery wait complete scanInt) in
  run.2 = ""
  ∨ (run.2 ≠ "" ∧ openaiKey ≠ "" ∧ main.Query run.1 ≠ ""
     ∧ ∃ msg result r,
         In msg (vapi.Messages message)
         ∧ vapi.Role msg = "tool_call_result"
         ∧ vapi.Result msg = Some result
         ∧ In r (vapi.Results result)
         ∧ vapi.Address1 (vapi.Metadata r) ≠ ""
         ∧ run.2 = vapi.PropertyId (vapi.Metadata r)).
Proof.
  cbv zeta. unfold vapi.toolCalls; cbn [fst snd].
  set (req := match vapi.ToolCalls message with
              | call :: _ => _
              | [] => _
              end).
  destruct (0 <? main.len (vapi.messagesLoop (vapi.Messages message)));
    [|left; reflexivity].
  destruct (String.eqb_spec openaiKey "") as [|Hkey]; [left; reflexivity|].
  destruct (String.eqb_spec (main.Query req) "") as [|Hquery]; [left; reflexivity|].
  cbn [negb andb].
  destruct (clients.MatchAddressToQuery _ _ _ _ _) as [matchedID|e] eqn:Hmatch;
    [|left; reflexivity].
  right. unfold clients.MatchAddressToQuery in Hmatch.
  destruct (main.len _ =? 0); [discriminate|].
  destruct wait as [[]|e]; [|discriminate].
  destruct (complete _) as [[|content others]|e]; try discriminate.
  destruct (scanInt content) as [index|]; [|discriminate].
  destruct (Z.ltb_spec index 0) as [|Hlo]; [discriminate|].
  destruct (Z.leb_spec (main.len (vapi.messagesLoop (vapi.Messages message))) index)
    as [|Hhi]; [discriminate|].
  cbn [orb] in Hmatch. injection Hmatch as <-.
  assert (Hin : In (nth (Z.to_nat index) (vapi.messagesLoop (vapi.Messages message))
                        clients.AddressCandidate_zero)
                   (vapi.messagesLoop (vapi.Messages message)))
    by (apply nth_In; unfold main.len in Hhi; lia).
  unfold vapi.messagesLoop in Hin at 2.
  apply messages_fold_In in Hin as [[]|(msg & result & n & r & Hm & Hrole & Hres
                                        & Hn & Ha & Hp & ->)].
  cbn [clients.PropertyId].
  split; [exact Hp|]. split; [exact Hkey|]. split; [exact Hquery|].
  exists msg, result, r. repeat split; try assumption.
  apply list_elem_of_In, list_elem_of_lookup. exists n. exact Hn.
Qed.

(** X25.  A tool-calls payload without a tool call, or whose first
    tool call has an empty query, is answered with status 400 and
    "Query is required": no candidate is matched and no service is
    asked. *)
Theorem tool_calls_without_query env message openaiKey matcher :
  (∀ call others,
     vapi.ToolCalls message = call :: others →
     vapi.Query (vapi.Arguments call) = "") →
  vapi.HandleToolCalls env message openaiKey matcher
  = main.Returned
      (main.mkLambdaResponse 400 [("Content-Type", "application/json")]
         (main.ErrorBody "Query is required")).
Proof.
  intros Hcalls. unfold vapi.HandleToolCalls, vapi.toolCalls.
  destruct (vapi.ToolCalls message) as [|call others].
  - cbn [main.Query String.eqb negb]. rewrite !andb_false_r. reflexivity.
  - rewrite (Hcalls call others eq_refl).
    cbn [main.Query String.eqb negb]. rewrite !andb_false_r. reflexivity.
Qed.

Lemma tool_calls_without_query_witness :
  let message := vapi.mkVAPIMessage "tool-calls" [] [] in
  (∀ call others,
     vapi.ToolCalls message = call :: others →
     vapi.Query (vapi.Arguments call) = "")
  ∧ vapi.HandleToolCalls stages.sampleEnv message "sk-key"
      (fun _ _ => main.Ok "p-1")
    = main.Returned
        (main.mkLambdaResponse 400 [("Content-Type", "application/json")]
           (main.ErrorBody "Query is required")).
Proof.
  cbv zeta.
  assert (H : ∀ call others,
            vapi.ToolCalls (vapi.mkVAPIMessage "tool-calls" [] []) = call :: others →
            vapi.Query (vapi.Arguments call) = "")
    by (intros call others Hc; discriminate Hc).
  split; [exact H|].
  exact (tool_calls_without_query stages.sampleEnv _ "sk-key" _ H).
Defined.

End ToolCalls.
